(** * draw2pdf: a shallow embedding of the PDF writer and its ASCII-85 encoder

    The development follows the C++ sources [ascii85.h] and [draw2pdf.cpp].
    Vectors of [unsigned char] are lists of [Byte.byte]; C integers are [Z],
    with the wrap-around of a cast or of a product written out where the code
    can reach it; the object fields of a class are the fields of a record that
    is passed from call to call. *)

From Stdlib Require Import ZArith List Lia Bool.
From Stdlib Require Import Strings.Byte Strings.String DecimalString.
From Stdlib Require Import Permutation Sorted.
Import ListNotations.

Local Open Scope Z_scope.

(* ------------------------------------------------------------------ *)
(** ** Bytes and characters *)

Module Bytes.

(** The numeric value of an [unsigned char]. *)
Definition u8 (b : byte) : Z := Z.of_N (Byte.to_N b).

(** [static_cast<unsigned char>]: keep the low eight bits. *)
Definition chr (z : Z) : byte :=
  match Byte.of_N (Z.to_N (z mod 256)) with
  | Some b => b
  | None => x00
  end.

(** The bytes of a string literal. *)
Definition str (s : string) : list byte := list_byte_of_string s.

Definition CR : byte := x0d.
Definition LF : byte := x0a.
Definition crlf : list byte := [CR; LF].

(** A literal followed by the ["\r\n"] every format string of the sources
    ends with. *)
Definition line (s : string) : list byte := str s ++ crlf.

(** [%zu]: a [size_t] in decimal. *)
Definition dec (z : Z) : list byte :=
  str (NilZero.string_of_uint (N.to_uint (Z.to_N z))).

(** [%0wzu]: decimal, padded on the left with zeros to at least [w] columns. *)
Definition dec_pad (w : nat) (z : Z) : list byte :=
  let d := dec z in repeat x30 (w - List.length d) ++ d.

(** [%ld] and [%0wd]: a signed integer, the sign before the padding. *)
Definition sdec_pad (w : nat) (z : Z) : list byte :=
  if z <? 0 then x2d :: dec_pad (w - 1) (- z) else dec_pad w z.

Definition sdec (z : Z) : list byte := sdec_pad 0 z.

(** [std::string::operator=(const char* )]: the bytes before the first NUL. *)
Fixpoint c_str (l : list byte) : list byte :=
  match l with
  | [] => []
  | c :: l' => if Byte.eqb c x00 then [] else c :: c_str l'
  end.

(** [std::vector::resize] on bytes: cut, or fill up with zeros. *)
Definition resize (n : Z) (l : list byte) : list byte :=
  let k := Z.to_nat n in firstn k l ++ repeat x00 (k - List.length l).

End Bytes.
Import Bytes.

(* ------------------------------------------------------------------ *)
(** ** ascii85.h *)

Module Ascii85.

Definition lineWidth : Z := 72.

(** The members of [class Ascii85Encoder]. *)
Record Ascii85Encoder := mkEncoder {
  m_output : list byte;   (* storage for the encoded data *)
  m_column : Z;           (* current column number in the output *)
  m_tuple  : Z;           (* temporary composite value *)
  m_count  : Z            (* current position in tuple *)
}.

Definition fresh : Ascii85Encoder := mkEncoder [] 0 0 0.

(** The block that [EncodeTuple] and [EncodeByte] both contain:
<<
   m_output.push_back(c);
   if (m_column++ >= lineWidth)
   { m_column = 0; m_output.push_back('\r'); m_output.push_back('\n'); }
>>
    The comparison reads the column before the increment. *)
Definition put_char (c : byte) (e : Ascii85Encoder) : Ascii85Encoder :=
  let out := m_output e ++ [c] in
  if lineWidth <=? m_column e
  then mkEncoder (out ++ [CR] ++ [LF]) 0 (m_tuple e) (m_count e)
  else mkEncoder out (m_column e + 1) (m_tuple e) (m_count e).

(** The first loop of [EncodeTuple]: [buf[index] = tuple % 85; tuple /= 85]. *)
Fixpoint expand (n : nat) (tuple : Z) : list Z :=
  match n with
  | O => []
  | S n' => tuple mod 85 :: expand n' (tuple / 85)
  end.

(** The digit [buf[i]] of a tuple. *)
Definition dig (v : Z) (i : nat) : Z := nth i (expand 5 v) 0.

(** [EncodeTuple(tuple, count)]: the digits [buf[4]], [buf[3]], ... down to
    [buf[4 - count]], each moved up by ['!'] (33). *)
Definition EncodeTuple (tuple count : Z) (e : Ascii85Encoder) : Ascii85Encoder :=
  let buf := expand 5 tuple in
  fold_left
    (fun e index => put_char (chr (nth (4 - index) buf 0 + 33)) e)
    (seq 0 (Z.to_nat (count + 1))) e.

(** [static_cast<unsigned int>]. *)
Definition to_uint (z : Z) : Z := z mod 2 ^ 32.

Definition set_tuple (t : Z) (e : Ascii85Encoder) : Ascii85Encoder :=
  mkEncoder (m_output e) (m_column e) t (m_count e).

Definition set_count (n : Z) (e : Ascii85Encoder) : Ascii85Encoder :=
  mkEncoder (m_output e) (m_column e) (m_tuple e) n.

(** [EncodeByte(c)]: [switch (m_count++)]. *)
Definition EncodeByte (e : Ascii85Encoder) (c : byte) : Ascii85Encoder :=
  let k := m_count e in
  let e := set_count (k + 1) e in
  if k =? 0 then set_tuple (Z.lor (m_tuple e) (Z.shiftl (u8 c) 24)) e
  else if k =? 1 then set_tuple (Z.lor (m_tuple e) (Z.shiftl (u8 c) 16)) e
  else if k =? 2 then set_tuple (Z.lor (m_tuple e) (Z.shiftl (u8 c) 8)) e
  else if k =? 3 then
    let e := set_tuple (Z.lor (m_tuple e) (u8 c)) e in
    let e := if m_tuple e =? 0
             then put_char x7a e
             else EncodeTuple (to_uint (m_tuple e)) (m_count e) e in
    set_count 0 (set_tuple 0 e)
  else e.

Definition push_back (c : byte) (e : Ascii85Encoder) : Ascii85Encoder :=
  mkEncoder (m_output e ++ [c]) (m_column e) (m_tuple e) (m_count e).

(** What [EncodeToAscii85] does once the bytes went through [EncodeByte]:
    the remaining partial tuple, the line end, and ["~>"] with a newline. *)
Definition terminate (e : Ascii85Encoder) : Ascii85Encoder :=
  let e := if 0 <? m_count e
           then EncodeTuple (to_uint (m_tuple e)) (m_count e) e else e in
  let e := if lineWidth <? m_column e + 2
           then push_back LF (push_back CR e) else e in
  push_back LF (push_back CR (push_back x3e (push_back x7e e))).

(** [EncodeToAscii85(data, numBytes)].  All four members are reset on entry,
    so the result depends on the data alone; [numBytes < 1] returns the
    cleared output at once. *)
Definition EncodeToAscii85 (data : list byte) : Ascii85Encoder :=
  match data with
  | [] => fresh
  | _ :: _ => terminate (fold_left EncodeByte data fresh)
  end.

Definition encode (data : list byte) : list byte :=
  m_output (EncodeToAscii85 data).

End Ascii85.

(* ------------------------------------------------------------------ *)
(** ** Reading ASCII-85 back

    The repository only writes ASCII-85.  The reader below is the decoding
    side of the format that [ascii85.h] names as its reference (the Adobe
    variant of Ascii85, as a PDF viewer applies it for [/ASCII85Decode]):
    white space is skipped, [z] stands for four zero bytes, five digits
    between [!] and [u] give a 32-bit word most significant digit first, a
    last group of two to four digits is filled up with [u] and gives one byte
    fewer than it has digits, and [~>] ends the data. *)

Module A85Reader.

Inductive mode := Digits | Tilde | Done | Bad.

Record reader := mkReader {
  r_mode   : mode;
  r_value  : Z;          (* the digits of the open group, as a number *)
  r_digits : nat;        (* how many digits the open group has *)
  r_bytes  : list byte   (* the bytes decoded so far *)
}.

Definition start : reader := mkReader Digits 0 0 [].

Definition is_white (c : byte) : bool :=
  let v := u8 c in
  (v =? 0) || (v =? 9) || (v =? 10) || (v =? 12) || (v =? 13) || (v =? 32).

(** The four bytes of a word, most significant first. *)
Definition word_bytes (v : Z) : list byte :=
  [chr (v / 2 ^ 24); chr (v / 2 ^ 16); chr (v / 2 ^ 8); chr v].

(** Fill an open group of [n] digits up to five with the digit [u] (84). *)
Fixpoint pad_u (missing : nat) (v : Z) : Z :=
  match missing with
  | O => v
  | S k => pad_u k (v * 85 + 84)
  end.

(** The bytes once the data ends: nothing is open, or an open group of
    [n >= 2] digits yields [n - 1] bytes; a single digit is an error. *)
Definition flush (r : reader) : option (list byte) :=
  match r_digits r with
  | O => Some (r_bytes r)
  | S O => None
  | S (S k) =>
      let v := pad_u (3 - k) (r_value r) in
      if v <? 2 ^ 32
      then Some (r_bytes r ++ firstn (S k) (word_bytes v))
      else None
  end.

Definition bad (r : reader) : reader :=
  mkReader Bad (r_value r) (r_digits r) (r_bytes r).

Definition step (r : reader) (c : byte) : reader :=
  if is_white c then r else
  match r_mode r with
  | Done | Bad => r
  | Tilde => if u8 c =? 62 then mkReader Done 0 0 (r_bytes r) else bad r
  | Digits =>
      if u8 c =? 126 then
        match flush r with
        | Some bs => mkReader Tilde 0 0 bs
        | None => bad r
        end
      else if u8 c =? 122 then
        match r_digits r with
        | O => mkReader Digits 0 0 (r_bytes r ++ [x00; x00; x00; x00])
        | S _ => bad r
        end
      else if (33 <=? u8 c) && (u8 c <=? 117) then
        let v := r_value r * 85 + (u8 c - 33) in
        match r_digits r with
        | S (S (S (S _))) =>
            if v <? 2 ^ 32
            then mkReader Digits 0 0 (r_bytes r ++ word_bytes v)
            else bad r
        | n => mkReader Digits v (S n) (r_bytes r)
        end
      else bad r
  end.

Definition run (text : list byte) : reader := fold_left step text start.

(** Decoding: the data end at the end-of-data marker [~>], and a text
    without it is refused. *)
Definition decode_eod (text : list byte) : option (list byte) :=
  let r := run text in
  match r_mode r with
  | Done => Some (r_bytes r)
  | _ => None
  end.

End A85Reader.

(** The lines of a text: the runs of bytes between line breaks.  A line
    break is a CR or an LF; the CR LF pair gives an empty run in between,
    which does not change the longest line. *)
Module Lines.

Definition is_break (c : byte) : bool := Byte.eqb c CR || Byte.eqb c LF.

(** Length of the longest run without a break; [cur] is the length of the
    run being read. *)
Fixpoint longest_from (cur : Z) (text : list byte) : Z :=
  match text with
  | [] => cur
  | c :: rest =>
      if is_break c then Z.max cur (longest_from 0 rest)
      else longest_from (cur + 1) rest
  end.

Definition longest_line (text : list byte) : Z := longest_from 0 text.

(** Length of the run that a text ends with. *)
Fixpoint trail (cur : Z) (text : list byte) : Z :=
  match text with
  | [] => cur
  | c :: rest => if is_break c then trail 0 rest else trail (cur + 1) rest
  end.

(** What the encoder keeps true of its output: no line is longer than 73
    characters, and [m_column] is the length of the line being written,
    72 at most. *)
Definition lines_ok (e : Ascii85.Ascii85Encoder) : Prop :=
  longest_line (Ascii85.m_output e) <= 73 /\
  trail 0 (Ascii85.m_output e) = Ascii85.m_column e /\
  0 <= Ascii85.m_column e <= 72.

End Lines.

(** What the claim on the [z] shortcut counts: the occurrences of [z] in a
    text, and the full groups of four bytes whose packed value
    [byte0<<24 | byte1<<16 | byte2<<8 | byte3] is zero. *)
Module ZShortcut.

Definition count_z (text : list byte) : nat :=
  count_occ Byte.byte_eq_dec text x7a.

Definition group_value (a b c d : byte) : Z :=
  u8 a * 2 ^ 24 + u8 b * 2 ^ 16 + u8 c * 2 ^ 8 + u8 d.

Fixpoint zero_groups (data : list byte) : nat :=
  match data with
  | a :: b :: c :: d :: rest =>
      Nat.add (if group_value a b c d =? 0 then 1%nat else 0%nat)
              (zero_groups rest)
  | _ => O
  end.

End ZShortcut.

(* ------------------------------------------------------------------ *)
(** ** What the sources take from outside

    [double] values are only stored and handed to [printf]; the C runtime
    that formats them, its answer to [ftell] where the file position is out
    of the range of [long], and the zlib compressor are not part of the
    sources.  They are the methods of a class, and every definition and
    theorem below holds for each instance. *)

Class Runtime := {
  double : Type;
  dbl_0 : double;                       (* the literal [0.] *)
  dbl_1 : double;                       (* the literal [1.] *)
  dbl_10 : double;                      (* the literal [10.] *)
  fmt_lf : double -> list byte;         (* what [printf] writes for [%lf] *)
  (** zlib's [compress(dest, &destLen, source, sourceLen)]: from the capacity
      of [dest] and the source bytes to the status, the new [destLen] and
      the contents of [dest]. *)
  compress : Z -> list byte -> Z * Z * list byte;
  (** What [ftell] returns at a file position above [LONG_MAX], which has
      no [long] to be returned in (a failure with [-1L] by the C standard). *)
  ftell_beyond : Z -> Z
}.

Definition Z_OK : Z := 0.

(** [size_t] arithmetic of the image code: products wrap at 64 bits. *)
Definition size_t (z : Z) : Z := z mod 2 ^ 64.

(** [uLong] and [uLongf] are [unsigned long], which has 32 bits under the
    Microsoft compiler that the sources are written for. *)
Definition uLong (z : Z) : Z := z mod 2 ^ 32.

(** [long] has 32 bits under the same compiler: the values from [-2^31] to
    [LONG_MAX], a number being kept modulo [2^32]. *)
Definition LONG_MAX : Z := 2 ^ 31 - 1.

Definition long (z : Z) : Z := (z + 2 ^ 31) mod 2 ^ 32 - 2 ^ 31.

(* ------------------------------------------------------------------ *)
(** ** draw2pdf.h: the stream accumulator *)

Module Accumulator.

Record PDFStreamAccumulator := mkAccumulator { m_data : list byte }.

Definition empty : PDFStreamAccumulator := mkAccumulator [].

Definition AddData (data : list byte) (s : PDFStreamAccumulator)
  : PDFStreamAccumulator :=
  mkAccumulator (m_data s ++ data).

Definition size (s : PDFStreamAccumulator) : Z := Z.of_nat (List.length (m_data s)).
Definition data (s : PDFStreamAccumulator) : list byte := m_data s.
Definition clear (s : PDFStreamAccumulator) : PDFStreamAccumulator := empty.

(** [_vsnprintf_s(tmp.data(), bufferSize, _TRUNCATE, format, args)] on a
    zero-filled buffer, where [text] is what the format and its arguments
    render to: when the text and its closing NUL fit, the buffer holds them
    and the length is returned; otherwise the buffer holds the first
    [bufferSize - 1] bytes and a NUL, and -1 is returned. *)
Definition vsnprintf_s (bufferSize : Z) (text : list byte) : list byte * Z :=
  if Z.of_nat (List.length text) <? bufferSize
  then (resize bufferSize text, Z.of_nat (List.length text))
  else (resize bufferSize (firstn (Z.to_nat (bufferSize - 1)) text), -1).

(** The loop of [Printf]:
    [for (size_t bufferSize = 32; bufferSize < 16384; bufferSize *= 2)].
    It returns the string [buffer], which stays empty unless one attempt
    succeeds, and the buffer sizes it tried.  The recursion is on a counter
    that the guard never lets run out (see [Printf_loop_fuel]). *)
Fixpoint Printf_loop (fuel : nat) (bufferSize : Z) (text : list byte)
  : list byte * list Z :=
  match fuel with
  | O => ([], [])
  | S fuel' =>
      if bufferSize <? 16384 then
        let '(tmp, ret) := vsnprintf_s bufferSize text in
        if negb (ret =? -1)
        then (c_str tmp, [bufferSize])
        else
          let '(buffer, tried) := Printf_loop fuel' (bufferSize * 2) text in
          (buffer, bufferSize :: tried)
      else ([], [])
  end.

(** The sizes from 32 up that the guard of the loop admits. *)
Definition all_sizes : list Z := [32; 64; 128; 256; 512; 1024; 2048; 4096; 8192].

(** The string that [Printf] hands to [AddData]. *)
Definition Printf_buffer (text : list byte) : list byte :=
  fst (Printf_loop 10 32 text).

(** The buffer sizes that [Printf] goes through. *)
Definition Printf_sizes (text : list byte) : list Z :=
  snd (Printf_loop 10 32 text).

(** [Printf(format, ...)], given the text that the format renders to. *)
Definition Printf (text : list byte) (s : PDFStreamAccumulator)
  : PDFStreamAccumulator :=
  AddData (Printf_buffer text) s.

End Accumulator.

(* ------------------------------------------------------------------ *)
(** ** draw2pdf.h: the value types

    Structures whose members share a name ([m_pattern], [m_color]) get a
    module each, as the C++ structures are name spaces of their own. *)

Record PDFPoint {RT : Runtime} := mkPoint { x : double; y : double }.
Arguments mkPoint {RT} x y.

Record PDFBox {RT : Runtime} := mkBox { m_min : PDFPoint; m_max : PDFPoint }.
Arguments mkBox {RT} m_min m_max.

Record PDFColor {RT : Runtime} := mkColor {
  m_red : double; m_green : double; m_blue : double; m_alpha : double
}.
Arguments mkColor {RT} m_red m_green m_blue m_alpha.

(** [PDFColor()]: black, opaque. *)
Definition default_color {RT : Runtime} : PDFColor :=
  mkColor dbl_0 dbl_0 dbl_0 dbl_1.

Module PDFLineStyle.

Inductive LinePattern := LINE_SOLID | LINE_NULL.

(** [==] on the enumeration. *)
Definition pattern_eqb (a b : LinePattern) : bool :=
  match a, b with
  | LINE_SOLID, LINE_SOLID | LINE_NULL, LINE_NULL => true
  | _, _ => false
  end.

Record t {RT : Runtime} := mk {
  m_pattern : LinePattern;   (* kind of line to draw *)
  m_color   : PDFColor;      (* color of line to draw *)
  m_width   : double         (* line width, in points *)
}.
Arguments mk {RT} m_pattern m_color m_width.

(** [PDFLineStyle()]. *)
Definition default {RT : Runtime} : t := mk LINE_SOLID default_color dbl_0.

End PDFLineStyle.

Module PDFFillStyle.

Inductive FillPattern := FILL_SOLID | FILL_NULL.

(** [==] on the enumeration. *)
Definition pattern_eqb (a b : FillPattern) : bool :=
  match a, b with
  | FILL_SOLID, FILL_SOLID | FILL_NULL, FILL_NULL => true
  | _, _ => false
  end.

Record t {RT : Runtime} := mk {
  m_pattern : FillPattern;   (* kind of fill to draw *)
  m_color   : PDFColor       (* color of fill to draw *)
}.
Arguments mk {RT} m_pattern m_color.

(** [PDFFillStyle()]. *)
Definition default {RT : Runtime} : t := mk FILL_SOLID default_color.

End PDFFillStyle.

Module PDFTextStyle.

Record t {RT : Runtime} := mk {
  m_height : double;         (* text height in points *)
  m_color  : PDFColor        (* text drawing color *)
}.
Arguments mk {RT} m_height m_color.

(** [PDFTextStyle()]. *)
Definition default {RT : Runtime} : t := mk dbl_10 default_color.

End PDFTextStyle.

Record PDFCrossRef := mkCrossRef {
  m_objnum : Z;    (* the object number of the object to which this refers *)
  m_offset : Z     (* the offset of the object in the PDF file *)
}.

Record PDFImage := mkImage {
  m_numX   : Z;             (* width of image, in pixels *)
  m_numY   : Z;             (* height of image, in pixels *)
  m_bpp    : Z;             (* bits per pixel: 8, 24 or 32 *)
  m_stride : Z;             (* bytes from one scanline to the next *)
  m_objNum : Z;             (* the PDF object number of the image *)
  m_pixels : list byte      (* the pixel data *)
}.

(** [PDFImage()]. *)
Definition default_image : PDFImage := mkImage 0 0 0 0 0 [].

Definition set_image_objNum (n : Z) (i : PDFImage) : PDFImage :=
  mkImage (m_numX i) (m_numY i) (m_bpp i) (m_stride i) n (m_pixels i).

(** A [std::wstring]: its characters as numbers. *)
Definition wstring := list Z.

(** [WideToNarrow]: each wide character cast to [char]. *)
Definition WideToNarrow (w : wstring) : list byte := map chr w.

(* ------------------------------------------------------------------ *)
(** ** draw2pdf.cpp: the document writer *)

Module Writer.
Import Accumulator.

(** How a call ends: normally, or with an exception or a fault. *)
Inductive error :=
  | PDFException (message : string) (filename : list Z)   (* thrown by [Open] *)
  | NullFile.                         (* a write through a null [FILE*] *)

Inductive result (A : Type) :=
  | Ok (a : A)
  | Err (e : error).
Arguments Ok {A} a.
Arguments Err {A} e.

Section WithRuntime.
Context {RT : Runtime}.

(** The members of [class Draw2pdf].  [m_file] holds the bytes written to the
    open file, [None] being the null [FILE*].  [closed_files] is not a
    member: it keeps what [fclose] completed, the last file first. *)
Record Draw2pdf := mkDraw2pdf {
  m_file : option (list byte);
  m_pageMinimumPoints : PDFPoint;
  m_pageMaximumPoints : PDFPoint;
  m_lineStyle : PDFLineStyle.t;
  m_fillStyle : PDFFillStyle.t;
  m_textStyle : PDFTextStyle.t;
  m_crossRefs : list PDFCrossRef;
  m_objNumber : Z;
  m_catalogObjNumber : Z;
  m_pagesObjNumber : Z;
  m_contentsObjNumber : Z;
  m_xobjectObjNumber : Z;
  m_pageObjectNumbers : list Z;
  m_contentStream : PDFStreamAccumulator;
  m_images : list PDFImage;
  m_compressImages : bool;
  m_compressContent : bool;
  closed_files : list (list byte)
}.

(** A default-constructed object.  The counters [m_objNumber] and the sizes
    of the vectors are unbounded integers: before a 64-bit counter could
    wrap, the vectors that hold one record per object would have outgrown
    the address space. *)
Definition initial : Draw2pdf :=
  mkDraw2pdf None (mkPoint dbl_0 dbl_0) (mkPoint dbl_0 dbl_0)
    PDFLineStyle.default PDFFillStyle.default PDFTextStyle.default
    [] 1 0 0 0 0 [] Accumulator.empty [] false false [].

(** Assignment to one member. *)
Definition set_file (v : option (list byte)) (st : Draw2pdf) : Draw2pdf :=
  mkDraw2pdf
    v (m_pageMinimumPoints st) (m_pageMaximumPoints st) (m_lineStyle st)
    (m_fillStyle st) (m_textStyle st) (m_crossRefs st) (m_objNumber st)
    (m_catalogObjNumber st) (m_pagesObjNumber st) (m_contentsObjNumber st)
    (m_xobjectObjNumber st) (m_pageObjectNumbers st) (m_contentStream st)
    (m_images st) (m_compressImages st) (m_compressContent st)
    (closed_files st).

Definition set_pageMinimumPoints (v : PDFPoint) (st : Draw2pdf) : Draw2pdf :=
  mkDraw2pdf
    (m_file st) v (m_pageMaximumPoints st) (m_lineStyle st) (m_fillStyle st)
    (m_textStyle st) (m_crossRefs st) (m_objNumber st) (m_catalogObjNumber st)
    (m_pagesObjNumber st) (m_contentsObjNumber st) (m_xobjectObjNumber st)
    (m_pageObjectNumbers st) (m_contentStream st) (m_images st)
    (m_compressImages st) (m_compressContent st) (closed_files st).

Definition set_pageMaximumPoints (v : PDFPoint) (st : Draw2pdf) : Draw2pdf :=
  mkDraw2pdf
    (m_file st) (m_pageMinimumPoints st) v (m_lineStyle st) (m_fillStyle st)
    (m_textStyle st) (m_crossRefs st) (m_objNumber st) (m_catalogObjNumber st)
    (m_pagesObjNumber st) (m_contentsObjNumber st) (m_xobjectObjNumber st)
    (m_pageObjectNumbers st) (m_contentStream st) (m_images st)
    (m_compressImages st) (m_compressContent st) (closed_files st).

Definition set_lineStyle (v : PDFLineStyle.t) (st : Draw2pdf) : Draw2pdf :=
  mkDraw2pdf
    (m_file st) (m_pageMinimumPoints st) (m_pageMaximumPoints st) v
    (m_fillStyle st) (m_textStyle st) (m_crossRefs st) (m_objNumber st)
    (m_catalogObjNumber st) (m_pagesObjNumber st) (m_contentsObjNumber st)
    (m_xobjectObjNumber st) (m_pageObjectNumbers st) (m_contentStream st)
    (m_images st) (m_compressImages st) (m_compressContent st)
    (closed_files st).

Definition set_fillStyle (v : PDFFillStyle.t) (st : Draw2pdf) : Draw2pdf :=
  mkDraw2pdf
    (m_file st) (m_pageMinimumPoints st) (m_pageMaximumPoints st)
    (m_lineStyle st) v (m_textStyle st) (m_crossRefs st) (m_objNumber st)
    (m_catalogObjNumber st) (m_pagesObjNumber st) (m_contentsObjNumber st)
    (m_xobjectObjNumber st) (m_pageObjectNumbers st) (m_contentStream st)
    (m_images st) (m_compressImages st) (m_compressContent st)
    (closed_files st).

Definition set_textStyle (v : PDFTextStyle.t) (st : Draw2pdf) : Draw2pdf :=
  mkDraw2pdf
    (m_file st) (m_pageMinimumPoints st) (m_pageMaximumPoints st)
    (m_lineStyle st) (m_fillStyle st) v (m_crossRefs st) (m_objNumber st)
    (m_catalogObjNumber st) (m_pagesObjNumber st) (m_contentsObjNumber st)
    (m_xobjectObjNumber st) (m_pageObjectNumbers st) (m_contentStream st)
    (m_images st) (m_compressImages st) (m_compressContent st)
    (closed_files st).

Definition set_crossRefs (v : list PDFCrossRef) (st : Draw2pdf) : Draw2pdf :=
  mkDraw2pdf
    (m_file st) (m_pageMinimumPoints st) (m_pageMaximumPoints st)
    (m_lineStyle st) (m_fillStyle st) (m_textStyle st) v (m_objNumber st)
    (m_catalogObjNumber st) (m_pagesObjNumber st) (m_contentsObjNumber st)
    (m_xobjectObjNumber st) (m_pageObjectNumbers st) (m_contentStream st)
    (m_images st) (m_compressImages st) (m_compressContent st)
    (closed_files st).

Definition set_objNumber (v : Z) (st : Draw2pdf) : Draw2pdf :=
  mkDraw2pdf
    (m_file st) (m_pageMinimumPoints st) (m_pageMaximumPoints st)
    (m_lineStyle st) (m_fillStyle st) (m_textStyle st) (m_crossRefs st) v
    (m_catalogObjNumber st) (m_pagesObjNumber st) (m_contentsObjNumber st)
    (m_xobjectObjNumber st) (m_pageObjectNumbers st) (m_contentStream st)
    (m_images st) (m_compressImages st) (m_compressContent st)
    (closed_files st).

Definition set_catalogObjNumber (v : Z) (st : Draw2pdf) : Draw2pdf :=
  mkDraw2pdf
    (m_file st) (m_pageMinimumPoints st) (m_pageMaximumPoints st)
    (m_lineStyle st) (m_fillStyle st) (m_textStyle st) (m_crossRefs st)
    (m_objNumber st) v (m_pagesObjNumber st) (m_contentsObjNumber st)
    (m_xobjectObjNumber st) (m_pageObjectNumbers st) (m_contentStream st)
    (m_images st) (m_compressImages st) (m_compressContent st)
    (closed_files st).

Definition set_pagesObjNumber (v : Z) (st : Draw2pdf) : Draw2pdf :=
  mkDraw2pdf
    (m_file st) (m_pageMinimumPoints st) (m_pageMaximumPoints st)
    (m_lineStyle st) (m_fillStyle st) (m_textStyle st) (m_crossRefs st)
    (m_objNumber st) (m_catalogObjNumber st) v (m_contentsObjNumber st)
    (m_xobjectObjNumber st) (m_pageObjectNumbers st) (m_contentStream st)
    (m_images st) (m_compressImages st) (m_compressContent st)
    (closed_files st).

Definition set_contentsObjNumber (v : Z) (st : Draw2pdf) : Draw2pdf :=
  mkDraw2pdf
    (m_file st) (m_pageMinimumPoints st) (m_pageMaximumPoints st)
    (m_lineStyle st) (m_fillStyle st) (m_textStyle st) (m_crossRefs st)
    (m_objNumber st) (m_catalogObjNumber st) (m_pagesObjNumber st) v
    (m_xobjectObjNumber st) (m_pageObjectNumbers st) (m_contentStream st)
    (m_images st) (m_compressImages st) (m_compressContent st)
    (closed_files st).

Definition set_xobjectObjNumber (v : Z) (st : Draw2pdf) : Draw2pdf :=
  mkDraw2pdf
    (m_file st) (m_pageMinimumPoints st) (m_pageMaximumPoints st)
    (m_lineStyle st) (m_fillStyle st) (m_textStyle st) (m_crossRefs st)
    (m_objNumber st) (m_catalogObjNumber st) (m_pagesObjNumber st)
    (m_contentsObjNumber st) v (m_pageObjectNumbers st) (m_contentStream st)
    (m_images st) (m_compressImages st) (m_compressContent st)
    (closed_files st).

Definition set_pageObjectNumbers (v : list Z) (st : Draw2pdf) : Draw2pdf :=
  mkDraw2pdf
    (m_file st) (m_pageMinimumPoints st) (m_pageMaximumPoints st)
    (m_lineStyle st) (m_fillStyle st) (m_textStyle st) (m_crossRefs st)
    (m_objNumber st) (m_catalogObjNumber st) (m_pagesObjNumber st)
    (m_contentsObjNumber st) (m_xobjectObjNumber st) v (m_contentStream st)
    (m_images st) (m_compressImages st) (m_compressContent st)
    (closed_files st).

Definition set_contentStream (v : PDFStreamAccumulator) (st : Draw2pdf) : Draw2pdf :=
  mkDraw2pdf
    (m_file st) (m_pageMinimumPoints st) (m_pageMaximumPoints st)
    (m_lineStyle st) (m_fillStyle st) (m_textStyle st) (m_crossRefs st)
    (m_objNumber st) (m_catalogObjNumber st) (m_pagesObjNumber st)
    (m_contentsObjNumber st) (m_xobjectObjNumber st) (m_pageObjectNumbers st)
    v (m_images st) (m_compressImages st) (m_compressContent st)
    (closed_files st).

Definition set_images (v : list PDFImage) (st : Draw2pdf) : Draw2pdf :=
  mkDraw2pdf
    (m_file st) (m_pageMinimumPoints st) (m_pageMaximumPoints st)
    (m_lineStyle st) (m_fillStyle st) (m_textStyle st) (m_crossRefs st)
    (m_objNumber st) (m_catalogObjNumber st) (m_pagesObjNumber st)
    (m_contentsObjNumber st) (m_xobjectObjNumber st) (m_pageObjectNumbers st)
    (m_contentStream st) v (m_compressImages st) (m_compressContent st)
    (closed_files st).

Definition set_compressImages (v : bool) (st : Draw2pdf) : Draw2pdf :=
  mkDraw2pdf
    (m_file st) (m_pageMinimumPoints st) (m_pageMaximumPoints st)
    (m_lineStyle st) (m_fillStyle st) (m_textStyle st) (m_crossRefs st)
    (m_objNumber st) (m_catalogObjNumber st) (m_pagesObjNumber st)
    (m_contentsObjNumber st) (m_xobjectObjNumber st) (m_pageObjectNumbers st)
    (m_contentStream st) (m_images st) v (m_compressContent st)
    (closed_files st).

Definition set_compressContent (v : bool) (st : Draw2pdf) : Draw2pdf :=
  mkDraw2pdf
    (m_file st) (m_pageMinimumPoints st) (m_pageMaximumPoints st)
    (m_lineStyle st) (m_fillStyle st) (m_textStyle st) (m_crossRefs st)
    (m_objNumber st) (m_catalogObjNumber st) (m_pagesObjNumber st)
    (m_contentsObjNumber st) (m_xobjectObjNumber st) (m_pageObjectNumbers st)
    (m_contentStream st) (m_images st) (m_compressImages st) v
    (closed_files st).

Definition set_closed_files (v : list (list byte)) (st : Draw2pdf) : Draw2pdf :=
  mkDraw2pdf
    (m_file st) (m_pageMinimumPoints st) (m_pageMaximumPoints st)
    (m_lineStyle st) (m_fillStyle st) (m_textStyle st) (m_crossRefs st)
    (m_objNumber st) (m_catalogObjNumber st) (m_pagesObjNumber st)
    (m_contentsObjNumber st) (m_xobjectObjNumber st) (m_pageObjectNumbers st)
    (m_contentStream st) (m_images st) (m_compressImages st)
    (m_compressContent st) v.

(** *** Writing to the file

    [fprintf] and [fwrite] append to the open file.  Every path to them goes
    through [Open], through the test of [m_file] in [Close], or through
    [NextPage], which reports the null [FILE*]; below that they leave a null
    file as it is. *)
Definition fprintf (text : list byte) (st : Draw2pdf) : Draw2pdf :=
  set_file (option_map (fun f => f ++ text) (m_file st)) st.

Definition fwrite (data : list byte) (st : Draw2pdf) : Draw2pdf :=
  fprintf data st.

(** [ftell]: the number of bytes written so far, as the [long] that the
    function returns.  A position above [LONG_MAX] is not returned; what is
    returned then is the runtime's, as a [long]. *)
Definition ftell (st : Draw2pdf) : Z :=
  match m_file st with
  | Some f =>
      let position := Z.of_nat (List.length f) in
      if position <=? LONG_MAX then position else long (ftell_beyond position)
  | None => -1
  end.

(** [m_crossRefs.push_back(PDFCrossRef(objnum,
    static_cast<size_t>(ftell(m_file))))]. *)
Definition push_crossRef (objnum : Z) (st : Draw2pdf) : Draw2pdf :=
  set_crossRefs (m_crossRefs st ++ [mkCrossRef objnum (size_t (ftell st))]) st.

(** [m_contentStream.Printf(...)], given the rendered text. *)
Definition content_Printf (text : list byte) (st : Draw2pdf) : Draw2pdf :=
  set_contentStream (Printf text (m_contentStream st)) st.

Definition sp : list byte := [x20].

(** *** DeflateData *)

(** The status that [compress] returns to [DeflateData]. *)
Definition deflate_status (data : list byte) : Z :=
  let numBytes := Z.of_nat (List.length data) in
  let '(errcode, _, _) :=
    compress (uLong (numBytes + 8192))
             (firstn (Z.to_nat (uLong numBytes)) data) in
  errcode.

Definition DeflateData (data : list byte) : list byte :=
  let numBytes := Z.of_nat (List.length data) in
  let capacity := uLong (numBytes + 8192) in
  let '(errcode, numCompressedBytes, output) :=
    compress capacity (firstn (Z.to_nat (uLong numBytes)) data) in
  let numCompressedBytes :=
    if negb (errcode =? Z_OK) then 0 else numCompressedBytes in
  resize numCompressedBytes output.

(** *** The style setters *)

Definition SetLineStyle (style : PDFLineStyle.t) (st : Draw2pdf) : Draw2pdf :=
  let st := set_lineStyle style st in
  (* Set the line color. *)
  let c := PDFLineStyle.m_color (m_lineStyle st) in
  let st := content_Printf
    (fmt_lf (m_red c) ++ sp ++ fmt_lf (m_green c) ++ sp ++ fmt_lf (m_blue c)
     ++ line " RG") st in
  (* Set the line width. *)
  content_Printf (fmt_lf (PDFLineStyle.m_width (m_lineStyle st)) ++ line " w") st.

Definition SetFillStyle (style : PDFFillStyle.t) (st : Draw2pdf) : Draw2pdf :=
  let st := set_fillStyle style st in
  (* Set the fill color. *)
  let c := PDFFillStyle.m_color (m_fillStyle st) in
  content_Printf
    (fmt_lf (m_red c) ++ sp ++ fmt_lf (m_green c) ++ sp ++ fmt_lf (m_blue c)
     ++ line " rg") st.

Definition SetTextStyle (style : PDFTextStyle.t) (st : Draw2pdf) : Draw2pdf :=
  set_textStyle style st.

(** *** Lines and polygons *)

(** The loop shared by [DrawPolyline] and [DrawPolygon]: a moveto ([m]) for
    the first point and a lineto ([l]) for each later one. *)
Fixpoint path_loop (first : bool) (points : list PDFPoint) (st : Draw2pdf)
  : Draw2pdf :=
  match points with
  | [] => st
  | point :: rest =>
      let st := content_Printf
        (fmt_lf (x point) ++ sp ++ fmt_lf (y point) ++ sp
         ++ [if first then x6d else x6c] ++ crlf) st in
      path_loop false rest st
  end.

Definition line_is (p : PDFLineStyle.LinePattern) (st : Draw2pdf) : bool :=
  PDFLineStyle.pattern_eqb (PDFLineStyle.m_pattern (m_lineStyle st)) p.

Definition fill_is (p : PDFFillStyle.FillPattern) (st : Draw2pdf) : bool :=
  PDFFillStyle.pattern_eqb (PDFFillStyle.m_pattern (m_fillStyle st)) p.

Definition DrawPolyline (points : list PDFPoint) (st : Draw2pdf) : Draw2pdf :=
  if line_is PDFLineStyle.LINE_NULL st
  then st
  else
    let st := path_loop true points st in
    (* Stroke the polyline. *)
    content_Printf (line "S") st.

Definition DrawLine (pt1 pt2 : PDFPoint) (st : Draw2pdf) : Draw2pdf :=
  DrawPolyline [pt1; pt2] st.

Definition DrawPolygon (points : list PDFPoint) (st : Draw2pdf) : Draw2pdf :=
  if line_is PDFLineStyle.LINE_NULL st && fill_is PDFFillStyle.FILL_NULL st
  then st
  else
    let st := path_loop true points st in
    (* Close the polygon's path. *)
    let st := content_Printf (line "h") st in
    (* Stroke and/or fill the polygon. *)
    if line_is PDFLineStyle.LINE_SOLID st && fill_is PDFFillStyle.FILL_SOLID st
    then content_Printf (line "B*") st
    else if fill_is PDFFillStyle.FILL_SOLID st
    then content_Printf (line "f*") st
    else if line_is PDFLineStyle.LINE_SOLID st
    then content_Printf (line "S") st
    else st.

Definition DrawRectangle (box : PDFBox) (st : Draw2pdf) : Draw2pdf :=
  let points :=
    [ mkPoint (x (m_min box)) (y (m_min box));
      mkPoint (x (m_max box)) (y (m_min box));
      mkPoint (x (m_max box)) (y (m_max box));
      mkPoint (x (m_min box)) (y (m_max box)) ] in
  DrawPolygon points st.

(** *** Text *)

Definition DrawTextString (point : PDFPoint) (text : wstring) (st : Draw2pdf)
  : Draw2pdf :=
  let st := content_Printf (line "q") st in
  let st := content_Printf (line "BT") st in
  let st := content_Printf
    (str "/F1 " ++ fmt_lf (PDFTextStyle.m_height (m_textStyle st))
     ++ line " Tf") st in
  let c := PDFTextStyle.m_color (m_textStyle st) in
  let st := content_Printf
    (fmt_lf (m_red c) ++ sp ++ fmt_lf (m_green c) ++ sp ++ fmt_lf (m_blue c)
     ++ line " rg") st in
  let text2 := WideToNarrow text in
  let st := content_Printf
    (fmt_lf (x point) ++ sp ++ fmt_lf (y point) ++ line " Td") st in
  let st := content_Printf (str "(" ++ c_str text2 ++ line ") Tj") st in
  let st := content_Printf (line "ET") st in
  content_Printf (line "Q") st.

(** *** Images *)

Definition DrawImage (image : PDFImage) (destX destY destWidth destHeight : double)
  (st : Draw2pdf) : Draw2pdf :=
  (* Store the image and reserve a PDF object number for it. *)
  let st := set_images (m_images st ++ [set_image_objNum (m_objNumber st) image]) st in
  let st := set_objNumber (m_objNumber st + 1) st in
  let st := content_Printf (line "q") st in
  let scaleX := destWidth in
  let scaleY := destHeight in
  let offsetX := destX in
  let offsetY := destY in
  let st := content_Printf
    (fmt_lf scaleX ++ sp ++ fmt_lf dbl_0 ++ sp ++ fmt_lf dbl_0 ++ sp
     ++ fmt_lf scaleY ++ sp ++ fmt_lf offsetX ++ sp ++ fmt_lf offsetY
     ++ line " cm") st in
  let st := content_Printf
    (str "/Im" ++ dec (Z.of_nat (List.length (m_images st)) - 1) ++ line " Do") st in
  content_Printf (line "Q") st.

(** The overload that takes the pixels and their layout: it copies
    [numY * stride] bytes of the caller's buffer. *)
Definition DrawImage_pixels (pixels : list byte) (numX numY bpp stride : Z)
  (destX destY destWidth destHeight : double) (st : Draw2pdf) : Draw2pdf :=
  let image :=
    mkImage numX numY bpp stride 0 (resize (size_t (numY * stride)) pixels) in
  DrawImage image destX destY destWidth destHeight st.

(** The packing loop of [DoWriteImage].  [rawData] is created with
    [numY * numX * bpp / 8] zero bytes; [inpixel] and [outpixel] are the
    positions of the two pointers in [m_pixels] and in [rawData].  An access
    beyond the end of a vector is undefined in C++; here a read gives 0 and a
    write is dropped. *)
Definition store (i : Z) (v : byte) (l : list byte) : list byte :=
  if (0 <=? i) && (i <? Z.of_nat (List.length l))
  then firstn (Z.to_nat i) l ++ v :: skipn (S (Z.to_nat i)) l
  else l.

Definition load (i : Z) (l : list byte) : byte := nth (Z.to_nat i) l x00.

(** [for (channel = 0; channel < outChannels; ++channel)
       *outpixel++ = *inpixel++;] *)
Fixpoint copy_channels (channels : nat) (pixels : list byte)
  (s : list byte * Z * Z) : list byte * Z * Z :=
  match channels with
  | O => s
  | S k =>
      let '(rawData, inpixel, outpixel) := s in
      copy_channels k pixels
        (store outpixel (load inpixel pixels) rawData, inpixel + 1, outpixel + 1)
  end.

(** [for (x = 0; x < numX; ++x)]: the channels of a pixel, then the alpha
    byte of a 32-bit pixel is stepped over. *)
Fixpoint copy_row (numX : nat) (image : PDFImage) (outChannels : Z)
  (s : list byte * Z * Z) : list byte * Z * Z :=
  match numX with
  | O => s
  | S k =>
      let '(rawData, inpixel, outpixel) :=
        copy_channels (Z.to_nat outChannels) (m_pixels image) s in
      let inpixel := if m_bpp image =? 32 then inpixel + 1 else inpixel in
      copy_row k image outChannels (rawData, inpixel, outpixel)
  end.

Definition pack_pixels (image : PDFImage) : list byte :=
  let rawData :=
    repeat x00
      (Z.to_nat (size_t (size_t (m_numY image * m_numX image) * m_bpp image) / 8)) in
  let outChannels := if m_bpp image =? 8 then 1 else 3 in
  fold_left
    (fun rawData y =>
       let y := Z.of_nat y in
       let inpixel := size_t (y * m_stride image) in
       let outpixel := size_t (size_t (y * m_numX image) * m_bpp image) / 8 in
       let '(rawData, _, _) :=
         copy_row (Z.to_nat (m_numX image)) image outChannels
                  (rawData, inpixel, outpixel) in
       rawData)
    (seq 0 (Z.to_nat (m_numY image))) rawData.

(** The encoding step of [DoWriteImage]: the filter name that is written
    and the encoded data. *)
Definition encode_image (compress : bool) (rawData : list byte)
  : list byte * list byte :=
  if compress
  then (line "/Filter /FlateDecode", DeflateData rawData)
  else (line "/Filter /ASCII85Decode", Ascii85.encode rawData).

(** [DoWriteImage(index, compress)].  The loop of [DoEndPage] only passes
    indices below [m_images.size()]; beyond that [m_images[index]] is
    undefined, and a default image stands for it here. *)
Definition DoWriteImage (index : Z) (compress : bool) (st : Draw2pdf) : Draw2pdf :=
  let image := nth (Z.to_nat index) (m_images st) default_image in
  let st := fprintf crlf st in
  let st := push_crossRef (m_objNum image) st in
  let st := fprintf (dec (m_objNum image) ++ line " 0 obj") st in
  let st := fprintf (line "<<") st in
  let st := fprintf (line "/Type /XObject") st in
  let st := fprintf (line "/Subtype /Image") st in
  let st := fprintf (str "/Name /Im" ++ dec index ++ crlf) st in
  let st := fprintf (str "/Width " ++ dec (m_numX image) ++ crlf) st in
  let st := fprintf (str "/Height " ++ dec (m_numY image) ++ crlf) st in
  let st := fprintf (line "/BitsPerComponent 8") st in
  let st := if m_bpp image =? 8
            then fprintf (line "/ColorSpace /DeviceGray") st
            else fprintf (line "/ColorSpace /DeviceRGB") st in
  (* Pack the image pixel data so there's no padding between scanlines. *)
  let rawData := pack_pixels image in
  (* Encode the image data. *)
  let '(filter, encodedData) := encode_image compress rawData in
  let st := fprintf filter st in
  let st := fprintf (str "/Length " ++ dec (Z.of_nat (List.length encodedData)) ++ crlf) st in
  let st := fprintf (line ">>") st in
  let st := fprintf (line "stream") st in
  let st := fwrite encodedData st in
  let st := fprintf crlf st in
  let st := fprintf (line "endstream") st in
  fprintf (line "endobj") st.

(** *** Pages *)

Definition DoBeginPage (st : Draw2pdf) : Draw2pdf :=
  let pageObjNumber := m_objNumber st in
  let st := set_objNumber (m_objNumber st + 1) st in
  let st := set_pageObjectNumbers (m_pageObjectNumbers st ++ [pageObjNumber]) st in
  let st := fprintf crlf st in
  let st := push_crossRef pageObjNumber st in
  let st := fprintf (dec pageObjNumber ++ line " 0 obj") st in
  let st := fprintf (line "<<") st in
  let st := fprintf (line "/Type /Page") st in
  let st := fprintf (str "/Parent " ++ dec (m_pagesObjNumber st) ++ line " 0 R") st in
  let st := fprintf
    (str "/MediaBox [ "
     ++ fmt_lf (x (m_pageMinimumPoints st)) ++ sp
     ++ fmt_lf (y (m_pageMinimumPoints st)) ++ sp
     ++ fmt_lf (x (m_pageMaximumPoints st)) ++ sp
     ++ fmt_lf (y (m_pageMaximumPoints st)) ++ line " ]") st in
  let st := set_contentsObjNumber (m_objNumber st) st in
  let st := set_objNumber (m_objNumber st + 1) st in
  let st := fprintf (str "/Contents " ++ dec (m_contentsObjNumber st) ++ line " 0 R") st in
  let st := fprintf (line "/Resources") st in
  let st := fprintf (line "<<") st in
  let st := fprintf (line "/ProcSet [ /PDF /Text /ImageB /ImageC /ImageI ]") st in
  let st := set_xobjectObjNumber (m_objNumber st) st in
  let st := set_objNumber (m_objNumber st + 1) st in
  let st := fprintf (str "/XObject " ++ dec (m_xobjectObjNumber st) ++ line " 0 R") st in
  let st := fprintf (line ">>") st in
  let st := fprintf (line ">>") st in
  fprintf (line "endobj") st.

(** [for (index = 0; index < m_images.size(); ++index)]. *)
Definition for_images (body : Z -> Draw2pdf -> Draw2pdf) (st : Draw2pdf)
  : Draw2pdf :=
  fold_left (fun st index => body (Z.of_nat index) st)
            (seq 0 (List.length (m_images st))) st.

Definition DoEndPage (st : Draw2pdf) : Draw2pdf :=
  (* Write the graphics content stream. *)
  let st := fprintf crlf st in
  let st := push_crossRef (m_contentsObjNumber st) st in
  let st := fprintf (dec (m_contentsObjNumber st) ++ line " 0 obj") st in
  let st := fprintf (line "<<") st in
  let st :=
    if negb (m_compressContent st) then
      let st := fprintf (str "/Length " ++ dec (size (m_contentStream st)) ++ crlf) st in
      let st := fprintf (line ">>") st in
      let st := fprintf (line "stream") st in
      let st := fwrite (data (m_contentStream st)) st in
      let st := fprintf crlf st in
      let st := fprintf (line "endstream") st in
      fprintf (line "endobj") st
    else
      let encodedData := DeflateData (data (m_contentStream st)) in
      let st := fprintf (line "/Filter /FlateDecode") st in
      let st := fprintf (str "/Length " ++ dec (Z.of_nat (List.length encodedData)) ++ crlf) st in
      let st := fprintf (line ">>") st in
      let st := fprintf (line "stream") st in
      let st := fwrite encodedData st in
      let st := fprintf crlf st in
      let st := fprintf (line "endstream") st in
      fprintf (line "endobj") st in
  (* Write the object containing the XObjects table. *)
  let st := fprintf crlf st in
  let st := push_crossRef (m_xobjectObjNumber st) st in
  let st := fprintf (dec (m_xobjectObjNumber st) ++ line " 0 obj") st in
  let st := fprintf (line "<<") st in
  let st := for_images
    (fun index st =>
       fprintf (str "/Im" ++ dec index ++ sp
                ++ dec (m_objNum (nth (Z.to_nat index) (m_images st) default_image))
                ++ line " 0 R") st) st in
  let st := fprintf (line ">>") st in
  let st := fprintf (line "endobj") st in
  (* Write the objects that contain the image pixel data. *)
  let st := for_images (fun index st => DoWriteImage index (m_compressImages st) st) st in
  (* Prepare for next page, if any. *)
  let st := set_contentStream (clear (m_contentStream st)) st in
  set_images [] st.

(** [NextPage].  [DoEndPage] starts by writing to [m_file]; without an open
    file that is undefined behaviour, reported here as [NullFile]. *)
Definition NextPage (st : Draw2pdf) : result Draw2pdf :=
  match m_file st with
  | None => Err NullFile
  | Some _ => Ok (DoBeginPage (DoEndPage st))
  end.

(** *** Close *)

(** [std::sort] with the comparison [a.m_objnum < b.m_objnum], as an
    insertion sort.  The order in which [std::sort] leaves records of equal
    object number is unspecified; records of different numbers have one
    sorted order. *)
Fixpoint insert_crossRef (a : PDFCrossRef) (l : list PDFCrossRef)
  : list PDFCrossRef :=
  match l with
  | [] => [a]
  | b :: rest =>
      if m_objnum a <? m_objnum b then a :: l else b :: insert_crossRef a rest
  end.

Definition sort_crossRefs (l : list PDFCrossRef) : list PDFCrossRef :=
  fold_right insert_crossRef [] l.

(** The part of [Close] that writes the "Pages" object. *)
Definition write_pages_object (st : Draw2pdf) : Draw2pdf :=
  let st := fprintf crlf st in
  let st := push_crossRef (m_pagesObjNumber st) st in
  let st := fprintf (dec (m_pagesObjNumber st) ++ line " 0 obj") st in
  let st := fprintf (line "<<") st in
  let st := fprintf (str "/Type /Pages /Kids [") st in
  let st := fold_left (fun st objnum => fprintf (dec objnum ++ str " 0 R ") st)
                      (m_pageObjectNumbers st) st in
  let st := fprintf (line "]") st in
  let st := fprintf (str "/Count "
                     ++ dec (Z.of_nat (List.length (m_pageObjectNumbers st)))
                     ++ crlf) st in
  let st := fprintf (line ">>") st in
  fprintf (line "endobj") st.

(** The first line of the table: [fprintf(m_file, "0 %zu\r\n",
    m_crossRefs.size() + 1)]. *)
Definition xref_count_line (table : list PDFCrossRef) : list byte :=
  str "0 " ++ dec (Z.of_nat (List.length table) + 1) ++ crlf.

Definition xref_entry (xref : PDFCrossRef) : list byte :=
  dec_pad 10 (m_offset xref) ++ line " 00000 n".

(** The part of [Close] that writes the cross reference table. *)
Definition write_xref_table (st : Draw2pdf) : Draw2pdf :=
  let st := fprintf (line "xref") st in
  let st := fprintf (xref_count_line (m_crossRefs st)) st in
  let st := fprintf (line "0000000000 65535 f") st in
  fold_left (fun st xref => fprintf (xref_entry xref) st) (m_crossRefs st) st.

(** The part of [Close] from the trailer to the end-of-file marker;
    [id] is the sum of the time and of [rand()]. *)
Definition write_trailer (id xrefTableOffset : Z) (st : Draw2pdf) : Draw2pdf :=
  let st := fprintf (line "trailer") st in
  let st := fprintf (line "<< ") st in
  let st := fprintf (str "/ID[<" ++ sdec_pad 32 id ++ str "><"
                     ++ sdec_pad 32 id ++ line ">]") st in
  let st := fprintf (str "/Size " ++ dec (Z.of_nat (List.length (m_crossRefs st)) + 1)
                     ++ line " /Root 1 0 R >>") st in
  let st := fprintf (line "startxref") st in
  let st := fprintf (sdec xrefTableOffset ++ crlf) st in
  fprintf (line "%%EOF") st.

(** [Close] up to [fclose]: the last page, the "Pages" object, the sorted
    cross reference table, the trailer. *)
Definition finish_file (id : Z) (st : Draw2pdf) : Draw2pdf :=
  let st := DoEndPage st in
  let st := write_pages_object st in
  (* The entries in the cross reference table must be written in
     object-number order, so sort the table by object number. *)
  let st := set_crossRefs (sort_crossRefs (m_crossRefs st)) st in
  let st := fprintf crlf st in
  let xrefTableOffset := ftell st in
  let st := write_xref_table st in
  write_trailer id xrefTableOffset st.

(** [fclose(m_file); m_file = nullptr;]. *)
Definition fclose (st : Draw2pdf) : Draw2pdf :=
  match m_file st with
  | Some f => set_file None (set_closed_files (f :: closed_files st) st)
  | None => st
  end.

(** The end of [Close]: members back to their defaults. *)
Definition reset_members (st : Draw2pdf) : Draw2pdf :=
  let st := set_lineStyle PDFLineStyle.default st in
  let st := set_fillStyle PDFFillStyle.default st in
  let st := set_textStyle PDFTextStyle.default st in
  let st := set_crossRefs [] st in
  let st := set_objNumber 1 st in
  let st := set_catalogObjNumber 0 st in
  let st := set_pagesObjNumber 0 st in
  let st := set_pageObjectNumbers [] st in
  let st := set_contentStream (clear (m_contentStream st)) st in
  set_images [] st.

Definition Close (id : Z) (st : Draw2pdf) : Draw2pdf :=
  match m_file st with
  | None => st
  | Some _ => reset_members (fclose (finish_file id st))
  end.

(** *** Open

    [can_open] tells whether [_wfopen_s] succeeds; [id] is for the [Close]
    that [Open] starts with. *)
Definition Open (can_open : bool) (id : Z) (filename : wstring)
  (pageMinimumPoints pageMaximumPoints : PDFPoint) (st : Draw2pdf)
  : result Draw2pdf :=
  let st := Close id st in
  let st := set_pageMinimumPoints pageMinimumPoints st in
  let st := set_pageMaximumPoints pageMaximumPoints st in
  if negb can_open
  then Err (PDFException "Failed opening file for writing:  " filename)
  else
    let st := set_file (Some []) st in
    (* Write the PDF file signature to the beginning of the file. *)
    let st := fprintf (line "%PDF-1.4") st in
    let st := fprintf ([x25; xc0; xe1; xd2; xc3; xb4] ++ crlf) st in
    let st := fprintf (line "%PDF file generated by draw2pdf.lib") st in
    (* Write the first object in the PDF file, the catalog object. *)
    let st := set_catalogObjNumber (m_objNumber st) st in
    let st := set_objNumber (m_objNumber st + 1) st in
    let st := set_pagesObjNumber (m_objNumber st) st in
    let st := set_objNumber (m_objNumber st + 1) st in
    let st := fprintf crlf st in
    let st := push_crossRef (m_catalogObjNumber st) st in
    let st := fprintf (dec (m_catalogObjNumber st) ++ line " 0 obj") st in
    let st := fprintf (line "<<") st in
    let st := fprintf (line "/Type /Catalog") st in
    let st := fprintf (str "/Pages " ++ dec (m_pagesObjNumber st) ++ line " 0 R") st in
    let st := fprintf (line ">>") st in
    let st := fprintf (line "endobj") st in
    Ok (DoBeginPage st).

Definition EnableImageCompression (enable : bool) (st : Draw2pdf) : Draw2pdf :=
  set_compressImages enable st.

Definition EnableContentCompression (enable : bool) (st : Draw2pdf) : Draw2pdf :=
  set_compressContent enable st.

(** *** Sessions

    The calls a client makes between [Open] and [Close]. *)
Inductive call :=
  | CallSetLineStyle (style : PDFLineStyle.t)
  | CallSetFillStyle (style : PDFFillStyle.t)
  | CallSetTextStyle (style : PDFTextStyle.t)
  | CallDrawLine (pt1 pt2 : PDFPoint)
  | CallDrawPolyline (points : list PDFPoint)
  | CallDrawPolygon (points : list PDFPoint)
  | CallDrawRectangle (box : PDFBox)
  | CallDrawTextString (point : PDFPoint) (text : wstring)
  | CallDrawImage (image : PDFImage) (destX destY destWidth destHeight : double)
  | CallDrawImagePixels (pixels : list byte) (numX numY bpp stride : Z)
      (destX destY destWidth destHeight : double)
  | CallNextPage
  | CallEnableImageCompression (enable : bool)
  | CallEnableContentCompression (enable : bool).

Definition do_call (c : call) (st : Draw2pdf) : result Draw2pdf :=
  match c with
  | CallSetLineStyle s => Ok (SetLineStyle s st)
  | CallSetFillStyle s => Ok (SetFillStyle s st)
  | CallSetTextStyle s => Ok (SetTextStyle s st)
  | CallDrawLine p q => Ok (DrawLine p q st)
  | CallDrawPolyline ps => Ok (DrawPolyline ps st)
  | CallDrawPolygon ps => Ok (DrawPolygon ps st)
  | CallDrawRectangle b => Ok (DrawRectangle b st)
  | CallDrawTextString p t => Ok (DrawTextString p t st)
  | CallDrawImage i dx dy dw dh => Ok (DrawImage i dx dy dw dh st)
  | CallDrawImagePixels px nx ny bpp stride dx dy dw dh =>
      Ok (DrawImage_pixels px nx ny bpp stride dx dy dw dh st)
  | CallNextPage => NextPage st
  | CallEnableImageCompression b => Ok (EnableImageCompression b st)
  | CallEnableContentCompression b => Ok (EnableContentCompression b st)
  end.

Fixpoint do_calls (calls : list call) (st : Draw2pdf) : result Draw2pdf :=
  match calls with
  | [] => Ok st
  | c :: rest =>
      match do_call c st with
      | Ok st' => do_calls rest st'
      | Err e => Err e
      end
  end.

(** A session: [Open] on a new object, the calls, and [Close] up to
    [fclose], before the members are reset. *)
Definition session (id : Z) (filename : wstring)
  (pageMinimumPoints pageMaximumPoints : PDFPoint) (calls : list call)
  : result Draw2pdf :=
  match Open true id filename pageMinimumPoints pageMaximumPoints initial with
  | Ok st =>
      match do_calls calls st with
      | Ok st' => Ok (fclose (finish_file id st'))
      | Err e => Err e
      end
  | Err e => Err e
  end.

End WithRuntime.
End Writer.

(* ------------------------------------------------------------------ *)
(** ** The tables of the specification

    Definitions that follow the words of the specification, to compare the
    code with: the operators of a path, the fill-rule table of polygons, the
    rule for polylines, and the object numbers below a counter. *)

Module Spec.
Import Accumulator.

Section WithRuntime.
Context {RT : Runtime}.

(** What formatted-append leaves of one rendered operator. *)
Definition operator (text : list byte) : list byte := Printf_buffer text.

(** "move-to first point; line-to each subsequent point". *)
Fixpoint path_operators (first : bool) (points : list PDFPoint) : list byte :=
  match points with
  | [] => []
  | p :: rest =>
      operator (fmt_lf (x p) ++ [x20] ++ fmt_lf (y p) ++ [x20]
                ++ [if first then x6d else x6c] ++ crlf)
      ++ path_operators false rest
  end.

(** The polygon fill-rule decision table. *)
Definition polygon_operators (lp : PDFLineStyle.LinePattern)
  (fp : PDFFillStyle.FillPattern) (points : list PDFPoint) : list byte :=
  match lp, fp with
  | PDFLineStyle.LINE_NULL, PDFFillStyle.FILL_NULL =>
      []                                   (* emit nothing *)
  | PDFLineStyle.LINE_SOLID, PDFFillStyle.FILL_SOLID =>
      path_operators true points ++ line "h" ++ line "B*"
                                           (* close, stroke and fill even-odd *)
  | PDFLineStyle.LINE_NULL, PDFFillStyle.FILL_SOLID =>
      path_operators true points ++ line "h" ++ line "f*"
                                           (* close, fill only, even-odd *)
  | PDFLineStyle.LINE_SOLID, PDFFillStyle.FILL_NULL =>
      path_operators true points ++ line "h" ++ line "S"
                                           (* close, stroke only *)
  end.

(** Polylines: nothing for a null line, else the path and a stroke. *)
Definition polyline_operators (lp : PDFLineStyle.LinePattern)
  (points : list PDFPoint) : list byte :=
  match lp with
  | PDFLineStyle.LINE_NULL => []
  | PDFLineStyle.LINE_SOLID => path_operators true points ++ line "S"
  end.

End WithRuntime.

(** The object numbers [1], [2], ..., [n - 1]: the ones handed out when the
    counter [m_objNumber], which starts at 1 and only moves by
    [m_objNumber++], stands at [n]. *)
Definition numbers_below (n : Z) : list Z :=
  map Z.of_nat (seq 1 (Z.to_nat (n - 1))).

(** The largest object number of a table (0 for an empty one). *)
Definition max_objnum (table : list PDFCrossRef) : Z :=
  fold_right Z.max 0 (map m_objnum table).

(** The tightly packed pixels of the specification: [channels] bytes for
    each of the [width] pixels of each of the [height] rows, rows taken
    [stride] bytes apart and pixels [pixel_bytes] apart. *)
Definition packed_rows (width height channels pixel_bytes stride : nat)
  (pixels : list byte) : list byte :=
  flat_map
    (fun row =>
       flat_map
         (fun col =>
            firstn channels (skipn (row * stride + col * pixel_bytes) pixels))
         (seq 0 width))
    (seq 0 height).

End Spec.

(* ------------------------------------------------------------------ *)
(** ** What the numbering argument keeps of a state

    The object numbers that have a cross reference record, the counter, the
    numbers reserved for the objects that are still to be written, the
    images waiting for the end of the page, and whether the file is open;
    and how the page and image operations change them. *)

Module Shapes.
Import Accumulator Writer Spec.

Record shape := mkShape {
  s_objnums  : list Z;
  s_next     : Z;
  s_contents : Z;
  s_xobject  : Z;
  s_pages    : Z;
  s_images   : list PDFImage;
  s_open     : bool
}.

Definition add_objnums (l : list Z) (s : shape) : shape :=
  mkShape (s_objnums s ++ l) (s_next s) (s_contents s) (s_xobject s)
    (s_pages s) (s_images s) (s_open s).

Definition no_images (s : shape) : shape :=
  mkShape (s_objnums s) (s_next s) (s_contents s) (s_xobject s) (s_pages s)
    [] (s_open s).

Definition add_image (image : PDFImage) (s : shape) : shape :=
  mkShape (s_objnums s) (s_next s + 1) (s_contents s) (s_xobject s) (s_pages s)
    (s_images s ++ [set_image_objNum (s_next s) image]) (s_open s).

Definition begin_page (s : shape) : shape :=
  mkShape (s_objnums s ++ [s_next s]) (s_next s + 1 + 1 + 1)
    (s_next s + 1) (s_next s + 1 + 1) (s_pages s) (s_images s) (s_open s).

Definition end_page (s : shape) : shape :=
  mkShape (s_objnums s ++ [s_contents s; s_xobject s] ++ map m_objNum (s_images s))
    (s_next s) (s_contents s) (s_xobject s) (s_pages s) [] (s_open s).

(** Every object number below the counter either has its cross reference
    record or is reserved for an object that the end of the page or [Close]
    will write: the contents and the resources of the page, its images, and
    the "Pages" object. *)
Definition reserved (s : shape) : list Z :=
  s_contents s :: s_xobject s :: map m_objNum (s_images s) ++ [s_pages s].

Definition numbered (s : shape) : Prop :=
  s_open s = true /\ 1 <= s_next s /\
  Permutation (s_objnums s ++ reserved s) (numbers_below (s_next s)).

(** The step of the loop over the rows of an image, as [pack_pixels] has
    it, and the bytes that one row of an 8-bit image contributes. *)
Definition row_step (image : PDFImage) (rawData : list byte) (y : nat)
  : list byte :=
  let y := Z.of_nat y in
  let inpixel := size_t (y * m_stride image) in
  let outpixel := size_t (size_t (y * m_numX image) * m_bpp image) / 8 in
  let '(rawData, _, _) :=
    copy_row (Z.to_nat (m_numX image)) image
             (if m_bpp image =? 8 then 1 else 3) (rawData, inpixel, outpixel) in
  rawData.

Definition row_bytes (pixels : list byte) (start : Z) (n : nat) : list byte :=
  map (fun k => load (start + Z.of_nat k) pixels) (seq 0 n).

Section WithRuntime.
Context {RT : Runtime}.

Definition content (st : Draw2pdf) : list byte := m_data (m_contentStream st).

Definition objnums (st : Draw2pdf) : list Z := map m_objnum (m_crossRefs st).

Definition is_open (st : Draw2pdf) : bool :=
  match m_file st with Some _ => true | None => false end.

Definition shape_of (st : Draw2pdf) : shape :=
  mkShape (objnums st) (m_objNumber st) (m_contentsObjNumber st)
    (m_xobjectObjNumber st) (m_pagesObjNumber st) (m_images st) (is_open st).

Definition styles_of (st : Draw2pdf)
  : PDFLineStyle.t * PDFFillStyle.t * PDFTextStyle.t :=
  (m_lineStyle st, m_fillStyle st, m_textStyle st).

End WithRuntime.
End Shapes.

(* ------------------------------------------------------------------ *)
(** ** A runtime to run examples with

    Coordinates are whole numbers printed with six zero decimals, and the
    compressor reports [Z_BUF_ERROR] (-5) whatever it is given. *)

Module Example.
Import Writer.

Definition runtime : Runtime := {|
  double := Z;
  dbl_0 := 0;
  dbl_1 := 1;
  dbl_10 := 10;
  fmt_lf := fun z => sdec z ++ str ".000000";
  compress := fun capacity _ => (-5, capacity, repeat x00 (Z.to_nat capacity));
  ftell_beyond := fun _ => -1
|}.

(** A 32-bit image of one column and two rows, four bytes to the row. *)
Definition image32 : PDFImage :=
  mkImage 1 2 32 4 0 [x01; x02; x03; x04; x05; x06; x07; x08].

(** An open document with [image32] drawn on its first page and image
    compression switched on. *)
Definition with_image : @Draw2pdf runtime :=
  Eval vm_compute in
  match Open (RT := runtime) true 7 []
             (mkPoint (RT := runtime) 0 0) (mkPoint (RT := runtime) 612 792)
             initial with
  | Ok st =>
      match do_calls [CallEnableImageCompression true;
                      CallDrawImage (RT := runtime) image32 0 0 10 10] st with
      | Ok st' => st'
      | Err _ => initial
      end
  | Err _ => initial
  end.

End Example.

(* ------------------------------------------------------------------ *)
(** ** The text of an encoding, line breaks apart

    What [EncodeToAscii85] writes when the line breaks are left out, group
    by group: [z] for a full group of value zero, five digits for another
    full group, and one digit more than it has bytes for the last, partial
    group.  The digit of rank [k], counted from the most significant one,
    of a value [v] is [v / 85^(4-k) mod 85], written as the character 33
    above it.  This is the format as the reference of [ascii85.h] describes
    it, written down apart from the code, for the encoder to be compared
    with. *)

Module Plain.
Import Ascii85 ZShortcut Lines.

Definition digit (v : Z) (k : nat) : byte :=
  chr (v / 85 ^ Z.of_nat (4 - k) mod 85 + 33).

(** The first [n] digits of a value. *)
Definition group_text (v : Z) (n : nat) : list byte := map (digit v) (seq 0 n).

Fixpoint plain_text (data : list byte) : list byte :=
  match data with
  | a :: b :: c :: d :: rest =>
      (if group_value a b c d =? 0 then [x7a]
       else group_text (group_value a b c d) 5) ++ plain_text rest
  | [a; b; c] => group_text (group_value a b c x00) 4
  | [a; b] => group_text (group_value a b x00 x00) 3
  | [a] => group_text (group_value a x00 x00 x00) 2
  | [] => []
  end.

(** A text without its line breaks. *)
Definition strip_breaks (text : list byte) : list byte :=
  filter (fun c => negb (is_break c)) text.

(** A text in lines of 73 characters: a line break after every 73rd
    character, none after a shorter last line. *)
Definition broken (text : list byte) : list byte :=
  flat_map (fun k => firstn 73 (skipn (73 * k) text) ++ crlf)
           (seq 0 (List.length text / 73))
  ++ skipn (73 * (List.length text / 73)) text.

(** The output of an encoder is in such lines, and its column is the length
    of the last of them. *)
Definition in_lines (e : Ascii85Encoder) : Prop :=
  m_output e = broken (strip_breaks (m_output e)) /\
  m_column e
  = Z.of_nat (List.length (strip_breaks (m_output e)) mod 73).

(** The characters that the encoder writes: the digits [!] to [u], [z],
    [~], [>] (a digit as well), CR and LF. *)
Definition in_alphabet (c : byte) : bool :=
  let v := u8 c in
  ((33 <=? v) && (v <=? 117))
  || (v =? 122) || (v =? 126) || (v =? 13) || (v =? 10).

End Plain.

(* ------------------------------------------------------------------ *)
(** ** Where the objects of a file are

    The first line of an object, and the test that a cross reference record
    gives the position of that line: a line break ends at the offset and the
    object's header follows it. *)

Module Layout.
Import Writer.

Definition header (n : Z) : list byte := dec n ++ line " 0 obj".

Fixpoint starts_with (prefix l : list byte) : bool :=
  match prefix, l with
  | [], _ => true
  | _ :: _, [] => false
  | a :: prefix', b :: l' => Byte.eqb a b && starts_with prefix' l'
  end.

Definition object_at (file : list byte) (r : PDFCrossRef) : bool :=
  (2 <=? m_offset r)
  && starts_with (crlf ++ header (m_objnum r))
                 (skipn (Z.to_nat (m_offset r - 2)) file).

Section WithRuntime.
Context {RT : Runtime}.

(** The calls of a session that end a page, and those that draw an image. *)
Definition is_next_page (c : call) : bool :=
  match c with CallNextPage => true | _ => false end.

(** What has gone to disk so far: the open file, the records of the objects
    in it, the files closed before, and the numbers of the catalog, of the
    page tree and of its pages. *)
Definition written (st : Draw2pdf)
  : option (list byte) * list PDFCrossRef * list (list byte) * Z * Z * list Z :=
  (m_file st, m_crossRefs st, closed_files st,
   m_catalogObjNumber st, m_pagesObjNumber st, m_pageObjectNumbers st).

(** The page tree of a state: the number of the "Pages" object and the
    numbers of the pages begun so far. *)
Definition pages_of (st : Draw2pdf) : Z * list Z :=
  (m_pagesObjNumber st, m_pageObjectNumbers st).

Definition count_next_page (calls : list call) : nat :=
  List.length (filter is_next_page calls).

Definition is_draw_image (c : call) : bool :=
  match c with
  | CallDrawImage _ _ _ _ _ => true
  | CallDrawImagePixels _ _ _ _ _ _ _ _ _ => true
  | _ => false
  end.

Definition count_images (calls : list call) : nat :=
  List.length (filter is_draw_image calls).

(** What a record of [file] holds: the position of its object, or, when
    the object began at a position above [LONG_MAX], what [ftell] returned
    there, cast from [long] to [size_t]. *)
Definition recorded (file : list byte) (r : PDFCrossRef) : Prop :=
  object_at file r = true \/
  exists position,
    LONG_MAX < position <= Z.of_nat (List.length file) /\
    m_offset r = long (ftell_beyond position) mod 2 ^ 64.

(** [st'] continues the open file of [st]: the bytes and the records of
    [st] are still there, and every new record is as [recorded] has it. *)
Definition grows (st st' : Draw2pdf) : Prop :=
  exists f t new,
    m_file st = Some f /\ m_file st' = Some (f ++ t) /\
    m_crossRefs st' = m_crossRefs st ++ new /\
    Forall (recorded (f ++ t)) new.

Definition offsets_ok (st : Draw2pdf) : Prop :=
  exists f, m_file st = Some f /\ Forall (recorded f) (m_crossRefs st).

End WithRuntime.
End Layout.

(* ------------------------------------------------------------------ *)
(** ** draw2pdf.h: the helpers of [PDFBox]

    The comparison [a < b] of two doubles is a parameter, as the type
    [double] is; [a > b] is [b < a]. *)

Class Comparison {RT : Runtime} := { dbl_lt : double -> double -> bool }.

Module Box.
Section WithRuntime.
Context {RT : Runtime} {CMP : Comparison}.

Definition dbl_gt (a b : double) : bool := dbl_lt b a.

(** Assignment to one coordinate of a box. *)
Definition set_min_x (v : double) (box : PDFBox) : PDFBox :=
  mkBox (mkPoint v (y (m_min box))) (m_max box).
Definition set_min_y (v : double) (box : PDFBox) : PDFBox :=
  mkBox (mkPoint (x (m_min box)) v) (m_max box).
Definition set_max_x (v : double) (box : PDFBox) : PDFBox :=
  mkBox (m_min box) (mkPoint v (y (m_max box))).
Definition set_max_y (v : double) (box : PDFBox) : PDFBox :=
  mkBox (m_min box) (mkPoint (x (m_max box)) v).

(** [ExtendBy(const PDFPoint &pt)]. *)
Definition ExtendBy (pt : PDFPoint) (box : PDFBox) : PDFBox :=
  let box := if dbl_lt (x pt) (x (m_min box)) then set_min_x (x pt) box else box in
  let box := if dbl_lt (y pt) (y (m_min box)) then set_min_y (y pt) box else box in
  let box := if dbl_gt (x pt) (x (m_max box)) then set_max_x (x pt) box else box in
  if dbl_gt (y pt) (y (m_max box)) then set_max_y (y pt) box else box.

(** [ExtendBy(const std::vector<PDFPoint> &pts)]. *)
Definition ExtendBy_points (pts : list PDFPoint) (box : PDFBox) : PDFBox :=
  fold_left (fun box pt => ExtendBy pt box) pts box.

(** [Normalize]: [std::swap] of the two ends of a side that is reversed. *)
Definition Normalize (box : PDFBox) : PDFBox :=
  let box :=
    if dbl_gt (x (m_min box)) (x (m_max box))
    then set_max_x (x (m_min box)) (set_min_x (x (m_max box)) box)
    else box in
  if dbl_gt (y (m_min box)) (y (m_max box))
  then set_max_y (y (m_min box)) (set_min_y (y (m_max box)) box)
  else box.

(** A point is outside a box when [ExtendBy] would move a side for it. *)
Definition outside (pt : PDFPoint) (box : PDFBox) : bool :=
  dbl_lt (x pt) (x (m_min box)) || dbl_lt (y pt) (y (m_min box))
  || dbl_gt (x pt) (x (m_max box)) || dbl_gt (y pt) (y (m_max box)).

(** A side of the box is reversed. *)
Definition reversed (box : PDFBox) : bool :=
  dbl_gt (x (m_min box)) (x (m_max box))
  || dbl_gt (y (m_min box)) (y (m_max box)).

End WithRuntime.
End Box.

(** The comparison of the example runtime, whose doubles are integers. *)
Definition example_comparison : @Comparison Example.runtime :=
  @Build_Comparison Example.runtime Z.ltb.

(* ------------------------------------------------------------------ *)
(** * Properties *)

(** ** Bytes and their numeric values *)

(** Decide the comparisons of a goal whose operands [lia] can settle. *)
Ltac zbool :=
  repeat match goal with
  | |- context [?a =? ?b] =>
      first [ replace (a =? b) with true by (symmetry; apply Z.eqb_eq; lia)
            | replace (a =? b) with false by (symmetry; apply Z.eqb_neq; lia) ]
  | |- context [?a <=? ?b] =>
      first [ replace (a <=? b) with true by (symmetry; apply Z.leb_le; lia)
            | replace (a <=? b) with false by (symmetry; apply Z.leb_gt; lia) ]
  | |- context [?a <? ?b] =>
      first [ replace (a <? b) with true by (symmetry; apply Z.ltb_lt; lia)
            | replace (a <? b) with false by (symmetry; apply Z.ltb_ge; lia) ]
  end; cbn [orb andb].

Module BytesFacts.

Lemma u8_range (b : byte) : 0 <= u8 b < 256.
Proof.
  unfold u8. pose proof (Byte.to_N_bounded b). lia.
Qed.

Lemma chr_u8 (b : byte) : chr (u8 b) = b.
Proof.
  unfold chr. rewrite Z.mod_small by apply u8_range.
  unfold u8. now rewrite N2Z.id, Byte.of_to_N.
Qed.

Lemma u8_chr (z : Z) : 0 <= z < 256 -> u8 (chr z) = z.
Proof.
  intros Hz. unfold chr, u8. rewrite Z.mod_small by assumption.
  destruct (Byte.of_N (Z.to_N z)) as [b|] eqn:E.
  - apply Byte.to_of_N in E. rewrite E. lia.
  - apply Byte.of_N_None_iff in E. lia.
Qed.

Lemma u8_inj (a b : byte) : u8 a = u8 b -> a = b.
Proof.
  intros H. rewrite <- (chr_u8 a), <- (chr_u8 b). now rewrite H.
Qed.

Lemma u8_zero (b : byte) : u8 b = 0 -> b = x00.
Proof. intros H. apply u8_inj. now rewrite H. Qed.

(** A value shifted left and a smaller one below it do not overlap, so the
    bitwise or adds them. *)
Lemma lor_shiftl_low (x lo n : Z) :
  0 <= n -> 0 <= lo < 2 ^ n -> Z.lor (Z.shiftl x n) lo = x * 2 ^ n + lo.
Proof.
  intros Hn Hlo.
  assert (Hland : Z.land (Z.shiftl x n) lo = 0).
  { apply Z.bits_inj'. intros m Hm.
    rewrite Z.land_spec, Z.bits_0.
    destruct (Z.lt_ge_cases m n) as [Hlt|Hge].
    - now rewrite Z.shiftl_spec_low.
    - rewrite <- (Z.mod_small lo (2 ^ n)) by assumption.
      rewrite Z.mod_pow2_bits_high by lia. apply andb_false_r. }
  pose proof (Z.add_lor_land (Z.shiftl x n) lo) as H.
  rewrite Hland, Z.shiftl_mul_pow2 in H by assumption.
  rewrite Z.shiftl_mul_pow2 by assumption. lia.
Qed.

(** The tuple that four calls of [EncodeByte] build with shifts and ors. *)
Lemma pack4 (a b c d : Z) :
  0 <= a < 256 -> 0 <= b < 256 -> 0 <= c < 256 -> 0 <= d < 256 ->
  Z.lor (Z.lor (Z.lor (Z.lor 0 (Z.shiftl a 24)) (Z.shiftl b 16)) (Z.shiftl c 8)) d
  = a * 2 ^ 24 + b * 2 ^ 16 + c * 2 ^ 8 + d.
Proof.
  intros Ha Hb Hc Hd. rewrite Z.lor_0_l.
  replace (Z.shiftl a 24) with (Z.shiftl (Z.shiftl a 8) 16)
    by (rewrite Z.shiftl_shiftl by lia; reflexivity).
  rewrite <- Z.shiftl_lor, (lor_shiftl_low a b 8) by lia.
  replace (Z.shiftl (a * 2 ^ 8 + b) 16)
    with (Z.shiftl (Z.shiftl (a * 2 ^ 8 + b) 8) 8)
    by (rewrite Z.shiftl_shiftl by lia; reflexivity).
  rewrite <- Z.shiftl_lor, (lor_shiftl_low _ c 8) by lia.
  rewrite lor_shiftl_low by lia. lia.
Qed.

Lemma pack3 (a b c : Z) :
  0 <= a < 256 -> 0 <= b < 256 -> 0 <= c < 256 ->
  Z.lor (Z.lor (Z.lor 0 (Z.shiftl a 24)) (Z.shiftl b 16)) (Z.shiftl c 8)
  = a * 2 ^ 24 + b * 2 ^ 16 + c * 2 ^ 8.
Proof.
  intros Ha Hb Hc.
  pose proof (pack4 a b c 0 Ha Hb Hc ltac:(lia)) as H.
  rewrite Z.lor_0_r in H. lia.
Qed.

Lemma pack2 (a b : Z) :
  0 <= a < 256 -> 0 <= b < 256 ->
  Z.lor (Z.lor 0 (Z.shiftl a 24)) (Z.shiftl b 16) = a * 2 ^ 24 + b * 2 ^ 16.
Proof.
  intros Ha Hb.
  pose proof (pack3 a b 0 Ha Hb ltac:(lia)) as H.
  rewrite Z.shiftl_0_l, Z.lor_0_r in H. lia.
Qed.

Lemma pack1 (a : Z) :
  0 <= a < 256 -> Z.lor 0 (Z.shiftl a 24) = a * 2 ^ 24.
Proof.
  intros Ha. rewrite Z.lor_0_l, Z.shiftl_mul_pow2 by lia. reflexivity.
Qed.

End BytesFacts.

(** ** The ASCII-85 encoder *)

Module Ascii85Facts.
Import Ascii85 A85Reader ZShortcut BytesFacts.

Lemma list_ind4 {A : Type} (P : list A -> Prop) :
  P [] -> (forall a, P [a]) -> (forall a b, P [a; b]) ->
  (forall a b c, P [a; b; c]) ->
  (forall a b c d l, P l -> P (a :: b :: c :: d :: l)) ->
  forall l, P l.
Proof.
  intros H0 H1 H2 H3 H4.
  assert (H : forall l, P l /\ (forall a, P (a :: l))
                        /\ (forall a b, P (a :: b :: l))
                        /\ (forall a b c, P (a :: b :: c :: l))).
  { induction l as [|x l (IH0 & IH1 & IH2 & IH3)]; auto 10. }
  intros l. apply H.
Qed.

Lemma chr_eq (z : Z) (b : byte) : z mod 256 = u8 b -> chr z = b.
Proof.
  intros H. unfold chr. rewrite H. unfold u8. now rewrite N2Z.id, Byte.of_to_N.
Qed.

(** *** The digits of a tuple *)

Lemma expand_range (n : nat) (v : Z) :
  Forall (fun d => 0 <= d < 85) (expand n v).
Proof.
  revert v. induction n as [|n IH]; intros v; simpl; constructor.
  - apply Z.mod_pos_bound. lia.
  - apply IH.
Qed.

Lemma dig_range (v : Z) (i : nat) : 0 <= dig v i < 85.
Proof.
  unfold dig. destruct (Nat.lt_ge_cases i (List.length (expand 5 v))) as [H|H].
  - pose proof (expand_range 5 v) as F. rewrite Forall_forall in F.
    apply F, nth_In, H.
  - rewrite nth_overflow by assumption. lia.
Qed.

Lemma dig_sum (v : Z) :
  0 <= v < 2 ^ 32 ->
  (((dig v 4 * 85 + dig v 3) * 85 + dig v 2) * 85 + dig v 1) * 85 + dig v 0 = v.
Proof.
  intros Hv. unfold dig. cbn [expand nth].
  change (2 ^ 32) with 4294967296 in Hv.
  Z.div_mod_to_equations. lia.
Qed.

(** *** How the reader sees what the encoder writes *)

Lemma step_white (r : reader) (c : byte) : is_white c = true -> step r c = r.
Proof. intros H. unfold step. now rewrite H. Qed.

Lemma run_app (a b : list byte) : run (a ++ b) = fold_left step b (run a).
Proof. unfold run. apply fold_left_app. Qed.

Lemma run_put_char (c : byte) (e : Ascii85Encoder) :
  run (m_output (put_char c e)) = step (run (m_output e)) c.
Proof.
  unfold put_char. destruct (lineWidth <=? m_column e); cbn [m_output].
  - rewrite !run_app. reflexivity.
  - rewrite run_app. reflexivity.
Qed.

Lemma run_push_back (c : byte) (e : Ascii85Encoder) :
  run (m_output (push_back c e)) = step (run (m_output e)) c.
Proof. unfold push_back; cbn [m_output]. now rewrite run_app. Qed.

Lemma step_digit (d v : Z) (n : nat) (bs : list byte) :
  0 <= d < 85 ->
  step (mkReader Digits v n bs) (chr (d + 33)) =
  match n with
  | S (S (S (S _))) =>
      if v * 85 + d <? 2 ^ 32
      then mkReader Digits 0 0 (bs ++ word_bytes (v * 85 + d))
      else bad (mkReader Digits v n bs)
  | _ => mkReader Digits (v * 85 + d) (S n) bs
  end.
Proof.
  intros Hd. unfold step, is_white. rewrite u8_chr by lia. zbool.
  cbn [r_mode r_value r_digits r_bytes].
  replace (d + 33 - 33) with d by lia.
  destruct n as [|[|[|[|n]]]]; reflexivity.
Qed.

Lemma EncodeTuple_chars (v k : Z) (e : Ascii85Encoder) :
  EncodeTuple v k e =
  fold_left (fun e i => put_char (chr (dig v (4 - i) + 33)) e)
            (seq 0 (Z.to_nat (k + 1))) e.
Proof. reflexivity. Qed.

Lemma run_fold_put (f : nat -> byte) (l : list nat) (e : Ascii85Encoder) :
  run (m_output (fold_left (fun e i => put_char (f i) e) l e))
  = fold_left step (map f l) (run (m_output e)).
Proof.
  revert e. induction l as [|i l IH]; intros e; cbn [fold_left map].
  - reflexivity.
  - now rewrite IH, run_put_char.
Qed.

Lemma run_EncodeTuple (v k : Z) (e : Ascii85Encoder) :
  run (m_output (EncodeTuple v k e))
  = fold_left step
      (map (fun i => chr (dig v (4 - i) + 33)) (seq 0 (Z.to_nat (k + 1))))
      (run (m_output e)).
Proof. rewrite EncodeTuple_chars. apply run_fold_put. Qed.

Lemma EncodeTuple_fields (v k : Z) (e : Ascii85Encoder) :
  m_tuple (EncodeTuple v k e) = m_tuple e /\
  m_count (EncodeTuple v k e) = m_count e.
Proof.
  unfold EncodeTuple. generalize (seq 0 (Z.to_nat (k + 1))). intros l.
  revert e. induction l as [|i l IH]; intros e; cbn [fold_left].
  - auto.
  - destruct (IH (put_char (chr (nth (4 - i) (expand 5 v) 0 + 33)) e)) as [Ht Hc].
    rewrite Ht, Hc. unfold put_char.
    destruct (lineWidth <=? m_column e); auto.
Qed.

(** *** One full group of four bytes *)

Lemma EncodeByte4 (out : list byte) (col : Z) (a b c d : byte) :
  fold_left EncodeByte [a; b; c; d] (mkEncoder out col 0 0) =
  let t := Z.lor (Z.lor (Z.lor (Z.lor 0 (Z.shiftl (u8 a) 24))
                               (Z.shiftl (u8 b) 16))
                        (Z.shiftl (u8 c) 8)) (u8 d) in
  let e := mkEncoder out col t 4 in
  set_count 0 (set_tuple 0
    (if t =? 0 then put_char x7a e else EncodeTuple (to_uint t) 4 e)).
Proof. reflexivity. Qed.

Lemma group_value_pack (a b c d : byte) :
  Z.lor (Z.lor (Z.lor (Z.lor 0 (Z.shiftl (u8 a) 24)) (Z.shiftl (u8 b) 16))
               (Z.shiftl (u8 c) 8)) (u8 d) = group_value a b c d.
Proof. apply pack4; apply u8_range. Qed.

Lemma group_value_range (a b c d : byte) : 0 <= group_value a b c d < 2 ^ 32.
Proof.
  unfold group_value.
  pose proof (u8_range a). pose proof (u8_range b).
  pose proof (u8_range c). pose proof (u8_range d). lia.
Qed.

Lemma word_bytes_group (a b c d : byte) :
  word_bytes (group_value a b c d) = [a; b; c; d].
Proof.
  unfold word_bytes, group_value.
  pose proof (u8_range a). pose proof (u8_range b).
  pose proof (u8_range c). pose proof (u8_range d).
  change (2 ^ 24) with 16777216. change (2 ^ 16) with 65536.
  change (2 ^ 8) with 256.
  repeat f_equal; apply chr_eq; Z.div_mod_to_equations; lia.
Qed.

Lemma group_value_zero (a b c d : byte) :
  group_value a b c d = 0 -> [a; b; c; d] = [x00; x00; x00; x00].
Proof.
  intros H. unfold group_value in H.
  pose proof (u8_range a). pose proof (u8_range b).
  pose proof (u8_range c). pose proof (u8_range d).
  repeat f_equal; apply u8_zero; lia.
Qed.

Lemma run_group4 (e : Ascii85Encoder) (a b c d : byte) (bs : list byte) :
  m_count e = 0 -> m_tuple e = 0 ->
  run (m_output e) = mkReader Digits 0 0 bs ->
  let e' := fold_left EncodeByte [a; b; c; d] e in
  m_count e' = 0 /\ m_tuple e' = 0 /\
  run (m_output e') = mkReader Digits 0 0 (bs ++ [a; b; c; d]).
Proof.
  destruct e as [out col t k]. cbn [m_count m_tuple m_output].
  intros -> -> Hrun. rewrite EncodeByte4, group_value_pack.
  cbv zeta. split; [reflexivity|]. split; [reflexivity|].
  cbn [set_count set_tuple m_output].
  destruct (group_value a b c d =? 0) eqn:Ez.
  - apply Z.eqb_eq in Ez. rewrite run_put_char. cbn [m_output].
    rewrite Hrun, (group_value_zero _ _ _ _ Ez). reflexivity.
  - apply Z.eqb_neq in Ez. pose proof (group_value_range a b c d) as Hr.
    unfold to_uint. rewrite Z.mod_small by exact Hr.
    rewrite run_EncodeTuple. cbn [m_output]. rewrite Hrun.
    change (Z.to_nat (4 + 1)) with 5%nat. cbn [seq map fold_left Nat.sub].
    rewrite !step_digit by apply dig_range.
    replace (0 * 85 + dig (group_value a b c d) 4)
      with (dig (group_value a b c d) 4) by lia.
    rewrite dig_sum by exact Hr.
    replace (group_value a b c d <? 2 ^ 32) with true
      by (symmetry; apply Z.ltb_lt; lia).
    now rewrite word_bytes_group.
Qed.

(** *** The last, partial group and the end-of-data marker *)

Lemma step_tilde (v : Z) (n : nat) (bs : list byte) :
  step (mkReader Digits v n bs) x7e =
  match flush (mkReader Digits v n bs) with
  | Some bs' => mkReader Tilde 0 0 bs'
  | None => bad (mkReader Digits v n bs)
  end.
Proof. reflexivity. Qed.

Lemma step_gt (bs : list byte) :
  step (mkReader Tilde 0 0 bs) x3e = mkReader Done 0 0 bs.
Proof. reflexivity. Qed.

Lemma run_terminate (e : Ascii85Encoder) :
  run (m_output (terminate e)) =
  step (step (run (m_output
                (if 0 <? m_count e
                 then EncodeTuple (to_uint (m_tuple e)) (m_count e) e
                 else e))) x7e) x3e.
Proof.
  unfold terminate. cbv zeta. rewrite !run_push_back.
  rewrite (step_white _ LF), (step_white _ CR) by reflexivity.
  match goal with |- context [if ?b then _ else _] =>
    match b with (lineWidth <? _) => destruct b end end.
  - rewrite !run_push_back.
    rewrite (step_white _ LF), (step_white _ CR) by reflexivity. reflexivity.
  - reflexivity.
Qed.

(** The leading digits of a tuple are a quotient of it. *)
Lemma top_digits2 (t : Z) :
  0 <= t < 2 ^ 32 -> (0 * 85 + dig t 4) * 85 + dig t 3 = t / 614125.
Proof.
  intros Ht. change (2 ^ 32) with 4294967296 in Ht.
  unfold dig. cbn [expand nth]. Z.div_mod_to_equations. lia.
Qed.

Lemma top_digits3 (t : Z) :
  0 <= t < 2 ^ 32 ->
  ((0 * 85 + dig t 4) * 85 + dig t 3) * 85 + dig t 2 = t / 7225.
Proof.
  intros Ht. change (2 ^ 32) with 4294967296 in Ht.
  unfold dig. cbn [expand nth]. Z.div_mod_to_equations. lia.
Qed.

Lemma top_digits4 (t : Z) :
  0 <= t < 2 ^ 32 ->
  (((0 * 85 + dig t 4) * 85 + dig t 3) * 85 + dig t 2) * 85 + dig t 1 = t / 85.
Proof.
  intros Ht. change (2 ^ 32) with 4294967296 in Ht.
  unfold dig. cbn [expand nth]. Z.div_mod_to_equations. lia.
Qed.

(** Filling a cut tuple up with the largest digits gives a value between the
    tuple and the tuple plus what was cut. *)
Lemma pad_u3_bounds (t : Z) :
  let v := pad_u 3 (t / 614125) in t <= v < t + 614125.
Proof. cbn [pad_u]. Z.div_mod_to_equations. lia. Qed.

Lemma pad_u2_bounds (t : Z) :
  let v := pad_u 2 (t / 7225) in t <= v < t + 7225.
Proof. cbn [pad_u]. Z.div_mod_to_equations. lia. Qed.

Lemma pad_u1_bounds (t : Z) :
  let v := pad_u 1 (t / 85) in t <= v < t + 85.
Proof. cbn [pad_u]. Z.div_mod_to_equations. lia. Qed.

Lemma partial1 (a : byte) :
  let t := u8 a * 2 ^ 24 in
  let v := pad_u 3 ((0 * 85 + dig t 4) * 85 + dig t 3) in
  (v <? 2 ^ 32) = true /\ firstn 1 (word_bytes v) = [a].
Proof.
  cbv zeta. pose proof (u8_range a) as Ha.
  rewrite top_digits2 by lia.
  pose proof (pad_u3_bounds (u8 a * 2 ^ 24)) as Hv. cbv zeta in Hv.
  revert Hv. generalize (pad_u 3 (u8 a * 2 ^ 24 / 614125)). intros v Hv.
  change (2 ^ 24) with 16777216 in *. change (2 ^ 32) with 4294967296.
  unfold word_bytes. cbn [firstn]. split.
  - apply Z.ltb_lt. lia.
  - f_equal. apply chr_eq. change (2 ^ 24) with 16777216.
    Z.div_mod_to_equations. lia.
Qed.

Lemma partial2 (a b : byte) :
  let t := u8 a * 2 ^ 24 + u8 b * 2 ^ 16 in
  let v := pad_u 2 (((0 * 85 + dig t 4) * 85 + dig t 3) * 85 + dig t 2) in
  (v <? 2 ^ 32) = true /\ firstn 2 (word_bytes v) = [a; b].
Proof.
  cbv zeta. pose proof (u8_range a) as Ha. pose proof (u8_range b) as Hb.
  rewrite top_digits3 by lia.
  pose proof (pad_u2_bounds (u8 a * 2 ^ 24 + u8 b * 2 ^ 16)) as Hv.
  cbv zeta in Hv. revert Hv.
  generalize (pad_u 2 ((u8 a * 2 ^ 24 + u8 b * 2 ^ 16) / 7225)). intros v Hv.
  change (2 ^ 24) with 16777216 in *. change (2 ^ 16) with 65536 in *.
  change (2 ^ 32) with 4294967296.
  unfold word_bytes. cbn [firstn]. split.
  - apply Z.ltb_lt. lia.
  - change (2 ^ 24) with 16777216. change (2 ^ 16) with 65536.
    f_equal; [|f_equal]; apply chr_eq; Z.div_mod_to_equations; lia.
Qed.

Lemma partial3 (a b c : byte) :
  let t := u8 a * 2 ^ 24 + u8 b * 2 ^ 16 + u8 c * 2 ^ 8 in
  let v := pad_u 1 ((((0 * 85 + dig t 4) * 85 + dig t 3) * 85 + dig t 2) * 85
                    + dig t 1) in
  (v <? 2 ^ 32) = true /\ firstn 3 (word_bytes v) = [a; b; c].
Proof.
  cbv zeta. pose proof (u8_range a) as Ha. pose proof (u8_range b) as Hb.
  pose proof (u8_range c) as Hc.
  rewrite top_digits4 by lia.
  pose proof (pad_u1_bounds (u8 a * 2 ^ 24 + u8 b * 2 ^ 16 + u8 c * 2 ^ 8))
    as Hv.
  cbv zeta in Hv. revert Hv.
  generalize (pad_u 1 ((u8 a * 2 ^ 24 + u8 b * 2 ^ 16 + u8 c * 2 ^ 8) / 85)).
  intros v Hv.
  change (2 ^ 24) with 16777216 in *. change (2 ^ 16) with 65536 in *.
  change (2 ^ 8) with 256 in *. change (2 ^ 32) with 4294967296.
  unfold word_bytes. cbn [firstn]. split.
  - apply Z.ltb_lt. lia.
  - change (2 ^ 24) with 16777216. change (2 ^ 16) with 65536.
    change (2 ^ 8) with 256.
    f_equal; [|f_equal; [|f_equal]]; apply chr_eq; Z.div_mod_to_equations; lia.
Qed.

(** The reader after the whole output: it has seen [~>] and holds the data. *)
Lemma run_encoded (data : list byte) :
  forall (e : Ascii85Encoder) (bs : list byte),
  m_count e = 0 -> m_tuple e = 0 ->
  run (m_output e) = mkReader Digits 0 0 bs ->
  run (m_output (terminate (fold_left EncodeByte data e)))
  = mkReader Done 0 0 (bs ++ data).
Proof.
  induction data as [|a|a b|a b c|a b c d data IH] using list_ind4;
    intros e bs Hc Ht Hrun.
  - cbn [fold_left]. rewrite run_terminate, Hc. cbn [Z.ltb Z.compare].
    rewrite Hrun, step_tilde. cbn [flush r_digits r_bytes].
    now rewrite step_gt, app_nil_r.
  - destruct e as [out col t k]. cbn [m_count m_tuple m_output] in *. subst.
    rewrite run_terminate.
    change (fold_left EncodeByte [a] (mkEncoder out col 0 0))
      with (mkEncoder out col (Z.lor 0 (Z.shiftl (u8 a) 24)) 1).
    cbn [m_count m_tuple Z.ltb Z.compare].
    rewrite pack1 by apply u8_range.
    destruct (partial1 a) as [Hlt Hb]. cbv zeta in Hlt, Hb.
    unfold to_uint. pose proof (u8_range a).
    rewrite Z.mod_small by lia.
    rewrite run_EncodeTuple. cbn [m_output]. rewrite Hrun.
    change (Z.to_nat (1 + 1)) with 2%nat. cbn [seq map fold_left Nat.sub].
    rewrite !step_digit by apply dig_range.
    rewrite step_tilde. cbn [flush r_digits r_value r_bytes Nat.sub].
    rewrite Hlt, Hb. now rewrite step_gt.
  - destruct e as [out col t k]. cbn [m_count m_tuple m_output] in *. subst.
    rewrite run_terminate.
    change (fold_left EncodeByte [a; b] (mkEncoder out col 0 0))
      with (mkEncoder out col
              (Z.lor (Z.lor 0 (Z.shiftl (u8 a) 24)) (Z.shiftl (u8 b) 16)) 2).
    cbn [m_count m_tuple Z.ltb Z.compare].
    rewrite pack2 by apply u8_range.
    destruct (partial2 a b) as [Hlt Hb]. cbv zeta in Hlt, Hb.
    unfold to_uint. pose proof (u8_range a). pose proof (u8_range b).
    rewrite Z.mod_small by lia.
    rewrite run_EncodeTuple. cbn [m_output]. rewrite Hrun.
    change (Z.to_nat (2 + 1)) with 3%nat. cbn [seq map fold_left Nat.sub].
    rewrite !step_digit by apply dig_range.
    rewrite step_tilde. cbn [flush r_digits r_value r_bytes Nat.sub].
    rewrite Hlt, Hb. now rewrite step_gt.
  - destruct e as [out col t k]. cbn [m_count m_tuple m_output] in *. subst.
    rewrite run_terminate.
    change (fold_left EncodeByte [a; b; c] (mkEncoder out col 0 0))
      with (mkEncoder out col
              (Z.lor (Z.lor (Z.lor 0 (Z.shiftl (u8 a) 24))
                            (Z.shiftl (u8 b) 16)) (Z.shiftl (u8 c) 8)) 3).
    cbn [m_count m_tuple Z.ltb Z.compare].
    rewrite pack3 by apply u8_range.
    destruct (partial3 a b c) as [Hlt Hb]. cbv zeta in Hlt, Hb.
    unfold to_uint. pose proof (u8_range a). pose proof (u8_range b).
    pose proof (u8_range c).
    rewrite Z.mod_small by lia.
    rewrite run_EncodeTuple. cbn [m_output]. rewrite Hrun.
    change (Z.to_nat (3 + 1)) with 4%nat. cbn [seq map fold_left Nat.sub].
    rewrite !step_digit by apply dig_range.
    rewrite step_tilde. cbn [flush r_digits r_value r_bytes Nat.sub].
    rewrite Hlt, Hb. now rewrite step_gt.
  - change (fold_left EncodeByte (a :: b :: c :: d :: data) e)
      with (fold_left EncodeByte data (fold_left EncodeByte [a; b; c; d] e)).
    destruct (run_group4 e a b c d bs Hc Ht Hrun) as (Hc' & Ht' & Hrun').
    rewrite (IH _ _ Hc' Ht' Hrun'). now rewrite <- app_assoc.
Qed.

(** Every input but the empty one comes back; the empty input gives an
    empty text, which has no [~>] and is refused. *)
Lemma decode_eod_encode (b : byte) (data : list byte) :
  decode_eod (encode (b :: data)) = Some (b :: data).
Proof.
  unfold decode_eod, encode, EncodeToAscii85.
  rewrite (run_encoded (b :: data) fresh []) by reflexivity. reflexivity.
Qed.

Lemma decode_eod_empty : decode_eod (encode []) = None.
Proof. reflexivity. Qed.

(** *** Where the shortcut [z] is written *)

Lemma count_z_app (a b : list byte) :
  count_z (a ++ b) = (count_z a + count_z b)%nat.
Proof. apply count_occ_app. Qed.

Lemma count_z_put_char (c : byte) (e : Ascii85Encoder) :
  count_z (m_output (put_char c e))
  = (count_z (m_output e) + count_z [c])%nat.
Proof.
  unfold put_char. destruct (lineWidth <=? m_column e); cbn [m_output].
  - rewrite !count_z_app. change (count_z [CR]) with 0%nat.
    change (count_z [LF]) with 0%nat. lia.
  - now rewrite count_z_app.
Qed.

Lemma count_z_push_back (c : byte) (e : Ascii85Encoder) :
  count_z (m_output (push_back c e))
  = (count_z (m_output e) + count_z [c])%nat.
Proof. unfold push_back; cbn [m_output]. now rewrite count_z_app. Qed.

Lemma count_z_digit (d : Z) : 0 <= d < 85 -> count_z [chr (d + 33)] = 0%nat.
Proof.
  intros Hd. unfold count_z. cbn [count_occ].
  destruct (byte_eq_dec (chr (d + 33)) x7a) as [E|E]; [|reflexivity].
  apply (f_equal u8) in E. rewrite u8_chr in E by lia.
  change (u8 x7a) with 122 in E. lia.
Qed.

(** The digits of a tuple never contain [z], whatever the count. *)
Lemma count_z_EncodeTuple (v k : Z) (e : Ascii85Encoder) :
  count_z (m_output (EncodeTuple v k e)) = count_z (m_output e).
Proof.
  rewrite EncodeTuple_chars. generalize (seq 0 (Z.to_nat (k + 1))). intros l.
  revert e. induction l as [|i l IH]; intros e; cbn [fold_left].
  - reflexivity.
  - rewrite IH, count_z_put_char, count_z_digit by apply dig_range. lia.
Qed.

Lemma count_z_terminate (e : Ascii85Encoder) :
  count_z (m_output (terminate e)) = count_z (m_output e).
Proof.
  unfold terminate. cbv zeta. rewrite !count_z_push_back.
  match goal with |- context [if ?b then _ else _] =>
    match b with (lineWidth <? _) => destruct b end end;
  rewrite ?count_z_push_back;
  destruct (0 <? m_count e); rewrite ?count_z_EncodeTuple;
  change (count_z [LF]) with 0%nat; change (count_z [CR]) with 0%nat;
  change (count_z [x3e]) with 0%nat; change (count_z [x7e]) with 0%nat; lia.
Qed.

Lemma partial_fields (l : list byte) (e : Ascii85Encoder) :
  (List.length l < 4)%nat -> m_count e = 0 ->
  m_output (fold_left EncodeByte l e) = m_output e.
Proof.
  intros Hl Hc. destruct e as [out col t k]. cbn [m_count] in Hc. subst k.
  destruct l as [|a [|b [|c [|d l]]]]; try reflexivity.
  cbn [List.length] in Hl. lia.
Qed.

Lemma fields_group4 (e : Ascii85Encoder) (a b c d : byte) :
  m_count e = 0 -> m_tuple e = 0 ->
  m_count (fold_left EncodeByte [a; b; c; d] e) = 0 /\
  m_tuple (fold_left EncodeByte [a; b; c; d] e) = 0.
Proof.
  destruct e as [out col t k]. cbn [m_count m_tuple].
  intros -> ->. rewrite EncodeByte4. split; reflexivity.
Qed.

Lemma count_z_group4 (e : Ascii85Encoder) (a b c d : byte) :
  m_count e = 0 -> m_tuple e = 0 ->
  count_z (m_output (fold_left EncodeByte [a; b; c; d] e))
  = Nat.add (count_z (m_output e))
            (if group_value a b c d =? 0 then 1%nat else 0%nat).
Proof.
  destruct e as [out col t k]. cbn [m_count m_tuple m_output].
  intros -> ->. rewrite EncodeByte4, group_value_pack. cbv zeta.
  cbn [set_count set_tuple m_output].
  destruct (group_value a b c d =? 0).
  - now rewrite count_z_put_char.
  - rewrite count_z_EncodeTuple. cbn [m_output]. lia.
Qed.

Lemma count_z_encoded (data : list byte) :
  forall e : Ascii85Encoder,
  m_count e = 0 -> m_tuple e = 0 ->
  count_z (m_output (terminate (fold_left EncodeByte data e)))
  = (count_z (m_output e) + zero_groups data)%nat.
Proof.
  induction data as [|a|a b|a b c|a b c d data IH] using list_ind4;
    intros e Hc Ht;
    try (rewrite count_z_terminate, partial_fields
           by (assumption || (cbn [List.length]; lia));
         cbn [zero_groups]; lia).
  change (fold_left EncodeByte (a :: b :: c :: d :: data) e)
    with (fold_left EncodeByte data (fold_left EncodeByte [a; b; c; d] e)).
  destruct (fields_group4 e a b c d Hc Ht) as (Hc' & Ht').
  rewrite (IH _ Hc' Ht'), count_z_group4 by assumption.
  cbn [zero_groups]. lia.
Qed.

Lemma count_z_encode (data : list byte) :
  count_z (encode data) = zero_groups data.
Proof.
  destruct data as [|b data]; [reflexivity|].
  unfold encode, EncodeToAscii85.
  now rewrite (count_z_encoded (b :: data) fresh).
Qed.

(** *** The reader and the encoder on known texts *)

(** The first four bytes of the example of the reference: "Man " is
    [9jqo^]. *)
Example encode_Man : encode (str "Man ") = str "9jqo^~>" ++ crlf.
Proof. reflexivity. Qed.

Example decode_Man : decode_eod (str "9jqo^~>") = Some (str "Man ").
Proof. reflexivity. Qed.

(** Three zero bytes are four digits [!], not a [z]. *)
Example encode_three_zeros :
  encode [x00; x00; x00] = str "!!!!~>" ++ crlf.
Proof. reflexivity. Qed.

(** The reader refuses a [z] inside a group, a character that is no digit,
    a group of one digit, a group above [2^32 - 1], and a text that does not
    end with [~>]. *)
Example decode_refuses :
  decode_eod (str "!!z~>") = None /\ decode_eod (str "v~>") = None /\
  decode_eod (str "!~>") = None /\ decode_eod (str "uuuuu~>") = None /\
  decode_eod (str "9jqo^") = None.
Proof. repeat split; reflexivity. Qed.

End Ascii85Facts.

(** ** The lines of the encoder's output *)

Module LinesFacts.
Import Ascii85 Lines BytesFacts.

Lemma longest_from_ge (text : list byte) (cur : Z) :
  cur <= longest_from cur text.
Proof.
  revert cur. induction text as [|c text IH]; intros cur; cbn [longest_from].
  - lia.
  - destruct (is_break c); [lia|]. specialize (IH (cur + 1)). lia.
Qed.

Lemma longest_from_app (a b : list byte) (cur : Z) :
  longest_from cur (a ++ b)
  = Z.max (longest_from cur a) (longest_from (trail cur a) b).
Proof.
  revert cur. induction a as [|c a IH]; intros cur;
    cbn [app longest_from trail].
  - pose proof (longest_from_ge b cur). lia.
  - destruct (is_break c); rewrite IH; lia.
Qed.

Lemma trail_app (a b : list byte) (cur : Z) :
  trail cur (a ++ b) = trail (trail cur a) b.
Proof.
  revert cur. induction a as [|c a IH]; intros cur; cbn [app trail].
  - reflexivity.
  - destruct (is_break c); apply IH.
Qed.

Lemma put_char_lines (c : byte) (e : Ascii85Encoder) :
  is_break c = false -> lines_ok e -> lines_ok (put_char c e).
Proof.
  intros Hc (Hl & Ht & Hcol). unfold lines_ok, put_char, longest_line in *.
  destruct (Z.leb_spec lineWidth (m_column e)) as [H|H];
    unfold lineWidth in H; cbn [m_output m_column].
  - rewrite !longest_from_app, !trail_app, Ht.
    cbn [longest_from trail]. rewrite Hc.
    change (is_break CR) with true. change (is_break LF) with true.
    cbn [longest_from trail]. lia.
  - rewrite longest_from_app, trail_app, Ht.
    cbn [longest_from trail]. rewrite Hc. lia.
Qed.

Lemma digit_not_break (d : Z) : 0 <= d < 85 -> is_break (chr (d + 33)) = false.
Proof.
  intros Hd. unfold is_break, CR, LF.
  apply orb_false_iff. split;
    match goal with |- Byte.eqb ?a ?b = false =>
      destruct (Byte.eqb a b) eqn:E; [|reflexivity];
      apply Byte.byte_dec_bl, (f_equal u8) in E;
      rewrite u8_chr in E by lia end.
  - change (u8 x0d) with 13 in E. lia.
  - change (u8 x0a) with 10 in E. lia.
Qed.

Lemma EncodeTuple_lines (v k : Z) (e : Ascii85Encoder) :
  lines_ok e -> lines_ok (EncodeTuple v k e).
Proof.
  unfold EncodeTuple. cbv zeta.
  generalize (seq 0 (Z.to_nat (k + 1))). intros l. revert e.
  induction l as [|i l IH]; intros e He; cbn [fold_left]; [exact He|].
  apply IH. apply put_char_lines; [|exact He].
  apply digit_not_break. apply (Ascii85Facts.dig_range v (4 - i)).
Qed.

Lemma EncodeByte_lines (e : Ascii85Encoder) (c : byte) :
  lines_ok e -> lines_ok (EncodeByte e c).
Proof.
  intros He. unfold EncodeByte. cbv zeta.
  repeat match goal with |- context [if ?b then _ else _] => destruct b end;
    try exact He.
  - change (lines_ok (put_char x7a
             (set_tuple (Z.lor (m_tuple e) (u8 c)) (set_count (m_count e + 1) e)))).
    apply put_char_lines; [reflexivity | exact He].
  - unfold set_count, set_tuple. cbn [m_output m_column m_tuple m_count].
    match goal with |- lines_ok (mkEncoder (m_output ?x) (m_column ?x) 0 0) =>
      assert (Hx : lines_ok x) by (apply EncodeTuple_lines; exact He);
      exact Hx end.
Qed.

Lemma terminate_lines (e : Ascii85Encoder) :
  lines_ok e -> longest_line (m_output (terminate e)) <= 73.
Proof.
  intros He. unfold terminate. cbv zeta.
  assert (H1 : lines_ok (if 0 <? m_count e
                         then EncodeTuple (to_uint (m_tuple e)) (m_count e) e
                         else e))
    by (destruct (0 <? m_count e); [now apply EncodeTuple_lines | exact He]).
  revert H1.
  generalize (if 0 <? m_count e
              then EncodeTuple (to_uint (m_tuple e)) (m_count e) e else e).
  clear e He. intros e (Hl & Ht & Hcol). unfold longest_line in *.
  destruct (Z.ltb_spec lineWidth (m_column e + 2)) as [H|H];
    unfold lineWidth in H; unfold push_back; cbn [m_output m_column];
    rewrite !longest_from_app, !trail_app, Ht;
    change (is_break CR) with true; change (is_break LF) with true;
    cbn [longest_from trail is_break Byte.eqb orb];
    change (is_break CR) with true; change (is_break LF) with true;
    change (is_break x7e) with false; change (is_break x3e) with false;
    cbn [longest_from trail]; lia.
Qed.

Lemma fold_EncodeByte_lines (data : list byte) (e : Ascii85Encoder) :
  lines_ok e -> lines_ok (fold_left EncodeByte data e).
Proof.
  revert e. induction data as [|c data IH]; intros e He; cbn [fold_left].
  - exact He.
  - apply IH. now apply EncodeByte_lines.
Qed.

(** No line of the encoder's output is longer than 73 characters. *)
Lemma encode_lines (data : list byte) : longest_line (encode data) <= 73.
Proof.
  destruct data as [|b data].
  - vm_compute. discriminate.
  - unfold encode, EncodeToAscii85. apply terminate_lines.
    apply fold_EncodeByte_lines. unfold lines_ok, fresh, longest_line.
    cbn [m_output m_column longest_from trail]. lia.
Qed.

End LinesFacts.

(** ** The stream accumulator *)

Module AccumulatorFacts.
Import Accumulator.

Lemma c_str_app_nul (l r : list byte) : c_str (l ++ x00 :: r) = c_str l.
Proof.
  induction l as [|c l IH]; cbn [c_str app].
  - reflexivity.
  - destruct (Byte.eqb c x00); [reflexivity | now rewrite IH].
Qed.

Lemma resize_fits (n : Z) (text : list byte) :
  Z.of_nat (List.length text) < n ->
  c_str (resize n text) = c_str text.
Proof.
  intros H. unfold resize. cbv zeta.
  rewrite firstn_all2 by lia.
  destruct (Z.to_nat n - List.length text)%nat as [|k] eqn:E; [lia|].
  cbn [repeat]. apply c_str_app_nul.
Qed.

(** One round of the loop of [Printf]: the text fits, or the size doubles. *)
Lemma Printf_loop_hit (fuel : nat) (bufferSize : Z) (text : list byte) :
  bufferSize < 16384 -> Z.of_nat (List.length text) < bufferSize ->
  Printf_loop (S fuel) bufferSize text = (c_str text, [bufferSize]).
Proof.
  intros Hb Hn. cbn [Printf_loop]. unfold vsnprintf_s. zbool.
  cbn [negb]. now rewrite resize_fits.
Qed.

Lemma Printf_loop_miss (fuel : nat) (bufferSize : Z) (text : list byte) :
  bufferSize < 16384 -> bufferSize <= Z.of_nat (List.length text) ->
  fst (Printf_loop (S fuel) bufferSize text)
    = fst (Printf_loop fuel (bufferSize * 2) text) /\
  snd (Printf_loop (S fuel) bufferSize text)
    = bufferSize :: snd (Printf_loop fuel (bufferSize * 2) text).
Proof.
  intros Hb Hn. cbn [Printf_loop]. unfold vsnprintf_s. zbool.
  cbn [Z.eqb negb].
  now destruct (Printf_loop fuel (bufferSize * 2) text).
Qed.

Lemma Printf_loop_end (fuel : nat) (bufferSize : Z) (text : list byte) :
  16384 <= bufferSize -> Printf_loop fuel bufferSize text = ([], []).
Proof.
  intros Hb. destruct fuel as [|fuel]; cbn [Printf_loop]; [reflexivity|].
  now zbool.
Qed.

(** One round in a goal about [Printf_loop]: split on whether the text fits
    the current size, close the case where it does, and move to the next
    size in the other. *)
Ltac printf_round :=
  match goal with
  | |- context [Printf_loop (S ?f) ?b ?t] =>
      destruct (Z.ltb_spec (Z.of_nat (List.length t)) b);
      [ rewrite !Printf_loop_hit by lia; cbn [fst snd]; zbool; reflexivity
      | rewrite ?(proj1 (Printf_loop_miss f b t ltac:(lia) ltac:(lia))),
                ?(proj2 (Printf_loop_miss f b t ltac:(lia) ltac:(lia)));
        cbn [Z.mul Pos.mul] ]
  end.

Lemma Printf_buffer_result (text : list byte) :
  Printf_buffer text
  = if Z.of_nat (List.length text) <? 8192 then c_str text else [].
Proof.
  unfold Printf_buffer. do 9 printf_round.
  rewrite Printf_loop_end by lia. zbool. reflexivity.
Qed.

(** A text without a NUL byte that is shorter than the largest buffer is
    appended as it is. *)
Lemma c_str_plain (text : list byte) :
  forallb (fun b => negb (Byte.eqb b x00)) text = true -> c_str text = text.
Proof.
  induction text as [|b text IH]; cbn [forallb c_str]; [reflexivity|].
  intros H. apply andb_true_iff in H. destruct H as [Hb Ht].
  apply negb_true_iff in Hb. rewrite Hb. now rewrite IH.
Qed.

Lemma kept_plain (text : list byte) :
  (Z.of_nat (List.length text) <? 8192)
  && forallb (fun b => negb (Byte.eqb b x00)) text = true ->
  (if Z.of_nat (List.length text) <? 8192 then c_str text else []) = text.
Proof.
  intros H. apply andb_true_iff in H. destruct H as [Hl Ht].
  rewrite Hl. now apply c_str_plain.
Qed.

Lemma Printf_sizes_result (text : list byte) :
  Printf_sizes text
  = firstn (S (List.length
                 (filter (fun b => b <=? Z.of_nat (List.length text)) all_sizes)))
           all_sizes.
Proof.
  unfold Printf_sizes, all_sizes. cbn [filter]. do 9 printf_round.
  rewrite Printf_loop_end by lia. zbool. reflexivity.
Qed.

(** The counter of [Printf_loop] is never what stops it: from 32 the guard
    [bufferSize < 16384] fails in the tenth round, whatever is left of the
    counter. *)
Lemma Printf_loop_fuel (fuel : nat) (text : list byte) :
  fst (Printf_loop (10 + fuel) 32 text) = Printf_buffer text /\
  snd (Printf_loop (10 + fuel) 32 text) = Printf_sizes text.
Proof.
  unfold Printf_buffer, Printf_sizes.
  change (10 + fuel)%nat with (S (S (S (S (S (S (S (S (S (S fuel)))))))))).
  split.
  - do 9 (match goal with
          | |- context [Printf_loop (S ?f) ?b ?t] =>
              destruct (Z.ltb_spec (Z.of_nat (List.length t)) b);
              [ now rewrite !Printf_loop_hit by lia
              | rewrite !(fun k => proj1 (Printf_loop_miss k b t
                                    ltac:(lia) ltac:(lia)));
                cbn [Z.mul Pos.mul] ]
          end).
    now rewrite !Printf_loop_end by lia.
  - do 9 (match goal with
          | |- context [Printf_loop (S ?f) ?b ?t] =>
              destruct (Z.ltb_spec (Z.of_nat (List.length t)) b);
              [ now rewrite !Printf_loop_hit by lia
              | rewrite !(fun k => proj2 (Printf_loop_miss k b t
                                    ltac:(lia) ltac:(lia)));
                cbn [Z.mul Pos.mul] ]
          end).
    now rewrite !Printf_loop_end by lia.
Qed.

End AccumulatorFacts.

(** ** The document writer *)

Module WriterFacts.
Import Accumulator Writer Spec Shapes.

Section WithRuntime.
Context {RT : Runtime}.

(** *** Drawing calls only append to the content stream *)

Lemma content_Printf_content (text : list byte) (st : Draw2pdf) :
  content (content_Printf text st) = content st ++ operator text.
Proof. reflexivity. Qed.

Lemma operator_h : operator (line "h") = line "h".
Proof. reflexivity. Qed.

Lemma operator_S : operator (line "S") = line "S".
Proof. reflexivity. Qed.

Lemma operator_B : operator (line "B*") = line "B*".
Proof. reflexivity. Qed.

Lemma operator_f : operator (line "f*") = line "f*".
Proof. reflexivity. Qed.

Lemma path_loop_content (first : bool) (points : list PDFPoint) (st : Draw2pdf) :
  content (path_loop first points st)
  = content st ++ path_operators first points.
Proof.
  revert first st. induction points as [|p points IH]; intros first st.
  - cbn [path_loop path_operators]. now rewrite app_nil_r.
  - cbn [path_loop path_operators]. rewrite IH, content_Printf_content.
    now rewrite <- app_assoc.
Qed.

Lemma path_loop_styles (first : bool) (points : list PDFPoint) (st : Draw2pdf) :
  m_lineStyle (path_loop first points st) = m_lineStyle st /\
  m_fillStyle (path_loop first points st) = m_fillStyle st.
Proof.
  revert first st. induction points as [|p points IH]; intros first st.
  - split; reflexivity.
  - cbn [path_loop]. destruct (IH false
      (content_Printf
         (fmt_lf (x p) ++ sp ++ fmt_lf (y p) ++ sp
          ++ [if first then x6d else x6c] ++ crlf) st)) as [H1 H2].
    rewrite H1, H2. split; reflexivity.
Qed.

Lemma DrawPolygon_content (points : list PDFPoint) (st : Draw2pdf) :
  content (DrawPolygon points st)
  = content st
    ++ polygon_operators (PDFLineStyle.m_pattern (m_lineStyle st))
                         (PDFFillStyle.m_pattern (m_fillStyle st)) points.
Proof.
  unfold DrawPolygon, line_is, fill_is. cbv zeta.
  cbn [m_lineStyle m_fillStyle content_Printf set_contentStream].
  destruct (path_loop_styles true points st) as [Hl Hf]. rewrite Hl, Hf.
  destruct (PDFLineStyle.m_pattern (m_lineStyle st)),
           (PDFFillStyle.m_pattern (m_fillStyle st));
    cbn [PDFLineStyle.pattern_eqb PDFFillStyle.pattern_eqb andb
         polygon_operators];
    rewrite ?app_nil_r; try reflexivity;
    rewrite !content_Printf_content, path_loop_content;
    rewrite ?operator_h, ?operator_S, ?operator_B, ?operator_f;
    now rewrite <- !app_assoc.
Qed.

Lemma DrawPolyline_content (points : list PDFPoint) (st : Draw2pdf) :
  content (DrawPolyline points st)
  = content st
    ++ polyline_operators (PDFLineStyle.m_pattern (m_lineStyle st)) points.
Proof.
  unfold DrawPolyline, line_is.
  destruct (PDFLineStyle.m_pattern (m_lineStyle st));
    cbn [PDFLineStyle.pattern_eqb polyline_operators].
  - rewrite content_Printf_content, path_loop_content, operator_S.
    now rewrite <- app_assoc.
  - now rewrite app_nil_r.
Qed.

(** *** The object numbers of a state *)

Ltac fields :=
  cbn [m_file m_crossRefs m_objNumber m_contentsObjNumber m_xobjectObjNumber
       m_pagesObjNumber m_images m_compressImages m_compressContent
       m_lineStyle m_fillStyle m_textStyle m_contentStream
       m_pageObjectNumbers closed_files m_catalogObjNumber
       fprintf fwrite push_crossRef content_Printf
       set_file set_crossRefs set_objNumber set_pageObjectNumbers
       set_contentsObjNumber set_xobjectObjNumber set_contentStream
       set_images set_lineStyle set_fillStyle set_textStyle
       set_compressImages set_compressContent set_catalogObjNumber
       set_pagesObjNumber set_closed_files set_pageMinimumPoints
       set_pageMaximumPoints].

Ltac fields_in H :=
  cbn [m_file m_crossRefs m_objNumber m_contentsObjNumber m_xobjectObjNumber
       m_pagesObjNumber m_images m_compressImages m_compressContent
       m_lineStyle m_fillStyle m_textStyle m_contentStream
       m_pageObjectNumbers closed_files m_catalogObjNumber
       fprintf fwrite push_crossRef content_Printf
       set_file set_crossRefs set_objNumber set_pageObjectNumbers
       set_contentsObjNumber set_xobjectObjNumber set_contentStream
       set_images set_lineStyle set_fillStyle set_textStyle
       set_compressImages set_compressContent set_catalogObjNumber
       set_pagesObjNumber set_closed_files set_pageMinimumPoints
       set_pageMaximumPoints] in H.

Ltac shape_by_fields :=
  intros;
  let f := fresh "f" in
  match goal with st : Draw2pdf |- _ =>
    destruct st as [f ? ? ? ? ? ? ? ? ? ? ? ? ? ? ? ? ?] end;
  unfold shape_of, add_objnums, objnums, is_open; cbv zeta; fields;
  rewrite ?map_app, ?app_nil_r; destruct f; reflexivity.

Lemma shape_fprintf text st : shape_of (fprintf text st) = shape_of st.
Proof. shape_by_fields. Qed.

Lemma shape_fwrite text st : shape_of (fwrite text st) = shape_of st.
Proof. shape_by_fields. Qed.

Lemma shape_push_crossRef n st :
  shape_of (push_crossRef n st) = add_objnums [n] (shape_of st).
Proof. shape_by_fields. Qed.

Lemma shape_content_Printf text st :
  shape_of (content_Printf text st) = shape_of st.
Proof. shape_by_fields. Qed.

Lemma shape_set_contentStream v st :
  shape_of (set_contentStream v st) = shape_of st.
Proof. shape_by_fields. Qed.

Lemma shape_SetLineStyle s st : shape_of (SetLineStyle s st) = shape_of st.
Proof. unfold SetLineStyle. shape_by_fields. Qed.

Lemma shape_SetFillStyle s st : shape_of (SetFillStyle s st) = shape_of st.
Proof. unfold SetFillStyle. shape_by_fields. Qed.

Lemma shape_SetTextStyle s st : shape_of (SetTextStyle s st) = shape_of st.
Proof. unfold SetTextStyle. shape_by_fields. Qed.

Lemma shape_Enable_images b st :
  shape_of (EnableImageCompression b st) = shape_of st.
Proof. unfold EnableImageCompression. shape_by_fields. Qed.

Lemma shape_Enable_content b st :
  shape_of (EnableContentCompression b st) = shape_of st.
Proof. unfold EnableContentCompression. shape_by_fields. Qed.

Lemma shape_DrawTextString p t st :
  shape_of (DrawTextString p t st) = shape_of st.
Proof. unfold DrawTextString. shape_by_fields. Qed.

Lemma shape_path_loop first points st :
  shape_of (path_loop first points st) = shape_of st.
Proof.
  revert first st. induction points as [|p points IH]; intros first st;
    cbn [path_loop]; [reflexivity|].
  now rewrite IH, shape_content_Printf.
Qed.

Lemma shape_DrawPolyline points st :
  shape_of (DrawPolyline points st) = shape_of st.
Proof.
  unfold DrawPolyline. destruct (line_is _ st); [reflexivity|].
  now rewrite shape_content_Printf, shape_path_loop.
Qed.

Lemma shape_DrawPolygon points st :
  shape_of (DrawPolygon points st) = shape_of st.
Proof.
  unfold DrawPolygon. cbv zeta.
  repeat match goal with |- context [if ?b then _ else _] => destruct b end;
    rewrite ?shape_content_Printf, ?shape_path_loop; reflexivity.
Qed.

Lemma shape_DrawImage image dx dy dw dh st :
  shape_of (DrawImage image dx dy dw dh st) = add_image image (shape_of st).
Proof. unfold DrawImage, add_image. shape_by_fields. Qed.

Lemma shape_DoBeginPage st : shape_of (DoBeginPage st) = begin_page (shape_of st).
Proof. unfold DoBeginPage, begin_page. shape_by_fields. Qed.

Lemma shape_DoWriteImage i c st :
  shape_of (DoWriteImage i c st) =
  add_objnums [m_objNum (nth (Z.to_nat i) (m_images st) default_image)]
              (shape_of st).
Proof.
  unfold DoWriteImage. cbv zeta.
  destruct (encode_image _ _). destruct (_ =? 8); shape_by_fields.
Qed.

(** The loops over the images of a page. *)
Lemma shape_fold (body : nat -> Draw2pdf -> Draw2pdf) (g : nat -> shape -> shape) :
  (forall i st, shape_of (body i st) = g i (shape_of st)) ->
  forall l st,
  shape_of (fold_left (fun st i => body i st) l st)
  = fold_left (fun s i => g i s) l (shape_of st).
Proof.
  intros H l. induction l as [|i l IH]; intros st; cbn [fold_left].
  - reflexivity.
  - now rewrite IH, H.
Qed.

Lemma fold_add_objnums (f : nat -> list PDFImage -> Z) (l : list nat) (s : shape) :
  fold_left (fun s i => add_objnums [f i (s_images s)] s) l s
  = add_objnums (map (fun i => f i (s_images s)) l) s.
Proof.
  revert s. induction l as [|i l IH]; intros s; cbn [fold_left map].
  - unfold add_objnums. rewrite app_nil_r. now destruct s.
  - rewrite IH. unfold add_objnums. cbn [s_objnums s_images s_next s_contents
      s_xobject s_pages s_open]. now rewrite <- app_assoc.
Qed.

Lemma map_nth_seq {A B : Type} (f : A -> B) (d : A) (l : list A) :
  map (fun i => f (nth i l d)) (seq 0 (List.length l)) = map f l.
Proof.
  induction l as [|a l IH]; cbn [List.length seq map]; [reflexivity|].
  rewrite <- seq_shift, map_map. cbn [nth]. now rewrite IH.
Qed.

Lemma shape_write_images st :
  shape_of (for_images (fun index st => DoWriteImage index (m_compressImages st) st) st)
  = add_objnums (map m_objNum (s_images (shape_of st))) (shape_of st).
Proof.
  unfold for_images.
  rewrite (shape_fold
    (fun i st => DoWriteImage (Z.of_nat i) (m_compressImages st) st)
    (fun i s => add_objnums [m_objNum (nth i (s_images s) default_image)] s)).
  - rewrite (fold_add_objnums (fun i imgs => m_objNum (nth i imgs default_image))).
    cbn [shape_of s_images]. now rewrite map_nth_seq.
  - intros i s. rewrite shape_DoWriteImage, Nat2Z.id. reflexivity.
Qed.

Lemma shape_list_images (g : Z -> Draw2pdf -> list byte) st :
  shape_of (for_images (fun index st => fprintf (g index st) st) st) = shape_of st.
Proof.
  unfold for_images.
  rewrite (shape_fold (fun i st => fprintf (g (Z.of_nat i) st) st) (fun _ s => s)).
  - generalize (seq 0 (List.length (m_images st))). intros l.
    generalize (shape_of st). induction l; intros s; cbn [fold_left]; auto.
  - intros i s. apply shape_fprintf.
Qed.

Lemma shape_set_images_nil st :
  shape_of (set_images [] st) = no_images (shape_of st).
Proof. unfold no_images. shape_by_fields. Qed.

(** Bring a goal about the shape of a chain of writes to the shape of the
    state the chain starts from. *)
Ltac to_shape :=
  repeat first
    [ rewrite shape_fprintf | rewrite shape_fwrite
    | rewrite shape_push_crossRef | rewrite shape_set_contentStream
    | rewrite shape_write_images | rewrite shape_list_images ].

Ltac shape_done :=
  unfold no_images, add_objnums, shape_of;
  cbn [s_objnums s_next s_contents s_xobject s_pages s_images s_open];
  fields; rewrite <- ?app_assoc; reflexivity.

Lemma shape_DoEndPage st : shape_of (DoEndPage st) = end_page (shape_of st).
Proof.
  unfold DoEndPage. cbv zeta. rewrite shape_set_images_nil.
  destruct (negb (m_compressContent _)); to_shape; unfold end_page; shape_done.
Qed.

(** *** Sorting the cross reference records *)

Lemma insert_crossRef_perm (a : PDFCrossRef) (l : list PDFCrossRef) :
  Permutation (insert_crossRef a l) (a :: l).
Proof.
  induction l as [|b l IH]; cbn [insert_crossRef]; [reflexivity|].
  destruct (m_objnum a <? m_objnum b); [reflexivity|].
  rewrite IH. apply perm_swap.
Qed.

Lemma sort_crossRefs_perm (l : list PDFCrossRef) :
  Permutation (sort_crossRefs l) l.
Proof.
  induction l as [|a l IH]; cbn [sort_crossRefs fold_right]; [reflexivity|].
  rewrite insert_crossRef_perm. now constructor.
Qed.

Lemma insert_crossRef_sorted (a : PDFCrossRef) (l : list PDFCrossRef) :
  StronglySorted Z.le (map m_objnum l) ->
  StronglySorted Z.le (map m_objnum (insert_crossRef a l)).
Proof.
  induction l as [|b l IH]; intros Hs; cbn [insert_crossRef map].
  - constructor; constructor.
  - inversion Hs as [|? ? Hs' Hall]; subst.
    destruct (Z.ltb_spec (m_objnum a) (m_objnum b)) as [Hlt|Hge]; cbn [map].
    + constructor; [exact Hs|]. constructor; [lia|].
      eapply Forall_impl; [|exact Hall]. cbn. intros; lia.
    + constructor; [now apply IH|].
      apply (Permutation_Forall
               (Permutation_sym (Permutation_map m_objnum
                                   (insert_crossRef_perm a l)))).
      cbn [map]. now constructor.
Qed.

Lemma sort_crossRefs_sorted (l : list PDFCrossRef) :
  StronglySorted Z.le (map m_objnum (sort_crossRefs l)).
Proof.
  induction l as [|a l IH]; cbn [sort_crossRefs fold_right].
  - constructor.
  - now apply insert_crossRef_sorted.
Qed.

(** Two sorted lists with the same elements are the same list. *)
Lemma sorted_perm_eq (l1 l2 : list Z) :
  StronglySorted Z.le l1 -> StronglySorted Z.le l2 ->
  Permutation l1 l2 -> l1 = l2.
Proof.
  revert l2. induction l1 as [|a l1 IH]; intros l2 H1 H2 HP.
  - apply Permutation_nil in HP. now subst.
  - destruct l2 as [|b l2].
    { apply Permutation_sym, Permutation_nil in HP. discriminate. }
    inversion H1 as [|? ? H1' F1]; inversion H2 as [|? ? H2' F2]; subst.
    assert (Hab : a = b).
    { assert (Ia : In a (b :: l2))
        by (eapply Permutation_in; [exact HP | now left]).
      assert (Ib : In b (a :: l1))
        by (eapply Permutation_in; [exact (Permutation_sym HP) | now left]).
      rewrite Forall_forall in F1, F2.
      destruct Ia as [->|Ia]; [reflexivity|].
      destruct Ib as [->|Ib]; [reflexivity|].
      specialize (F1 _ Ib). specialize (F2 _ Ia). lia. }
    subst b. f_equal. apply IH; try assumption.
    eapply Permutation_cons_inv. exact HP.
Qed.

Lemma seq_sorted (a n : nat) : StronglySorted Z.le (map Z.of_nat (seq a n)).
Proof.
  revert a. induction n as [|n IH]; intros a; cbn [seq map]; constructor.
  - apply IH.
  - rewrite Forall_forall. intros z Hz. apply in_map_iff in Hz.
    destruct Hz as (k & <- & Hk). apply in_seq in Hk. lia.
Qed.

Lemma numbers_below_sorted (n : Z) : StronglySorted Z.le (numbers_below n).
Proof. apply seq_sorted. Qed.

Lemma numbers_below_succ (n : Z) :
  1 <= n -> numbers_below (n + 1) = numbers_below n ++ [n].
Proof.
  intros Hn. unfold numbers_below.
  replace (Z.to_nat (n + 1 - 1)) with (S (Z.to_nat (n - 1))) by lia.
  rewrite seq_S, map_app. cbn [map]. do 2 f_equal. lia.
Qed.

Lemma numbers_below_length (n : Z) :
  1 <= n -> Z.of_nat (List.length (numbers_below n)) = n - 1.
Proof.
  intros Hn. unfold numbers_below. rewrite length_map, length_seq. lia.
Qed.

(** *** The invariant of a session *)
Lemma numbered_Open (id : Z) (filename : wstring) (pmin pmax : PDFPoint) :
  exists st, Open true id filename pmin pmax initial = Ok st /\
             numbered (shape_of st).
Proof.
  eexists. split; [reflexivity|].
  split; [reflexivity|]. split; [cbn; lia|].
  change (Permutation [1; 3; 4; 5; 2] [1; 2; 3; 4; 5]).
  constructor. apply Permutation_sym.
  apply (Permutation_cons_append [3; 4; 5] 2).
Qed.

Lemma numbered_add_image image s : numbered s -> numbered (add_image image s).
Proof.
  intros (Ho & Hn & HP). unfold numbered, reserved, add_image in *.
  cbn [s_open s_next s_objnums s_contents s_xobject s_images s_pages] in *.
  split; [exact Ho|]. split; [lia|].
  rewrite numbers_below_succ by exact Hn.
  rewrite map_app. cbn [map m_objNum set_image_objNum].
  rewrite <- HP.
  rewrite <- (app_assoc (s_objnums s)). apply Permutation_app_head. cbn [app].
  do 2 constructor. rewrite <- !app_assoc. apply Permutation_app_head.
  apply perm_swap.
Qed.

Lemma numbered_next_page s : numbered s -> numbered (begin_page (end_page s)).
Proof.
  intros (Ho & Hn & HP). unfold numbered, reserved, begin_page, end_page in *.
  cbn [s_open s_next s_objnums s_contents s_xobject s_images s_pages map app]
    in *.
  split; [exact Ho|]. split; [lia|].
  rewrite !numbers_below_succ by lia. rewrite <- HP.
  rewrite <- !app_assoc. apply Permutation_app_head. cbn [app].
  do 2 constructor. rewrite <- !app_assoc. apply Permutation_app_head.
  apply (Permutation_app_comm [s_next s; s_next s + 1; s_next s + 1 + 1]
                              [s_pages s]).
Qed.

Lemma numbered_NextPage st :
  numbered (shape_of st) ->
  exists st', NextPage st = Ok st' /\ numbered (shape_of st').
Proof.
  intros H. unfold NextPage.
  destruct (m_file st) as [f|] eqn:Ef.
  - eexists. split; [reflexivity|].
    rewrite shape_DoBeginPage, shape_DoEndPage. now apply numbered_next_page.
  - destruct H as (Ho & _). cbn [shape_of s_open] in Ho.
    unfold is_open in Ho. rewrite Ef in Ho. discriminate.
Qed.

Lemma numbered_do_call (c : call) st :
  numbered (shape_of st) ->
  exists st', do_call c st = Ok st' /\ numbered (shape_of st').
Proof.
  intros H.
  destruct c; cbn [do_call];
    try (eexists; split; [reflexivity|]);
    try (now apply numbered_NextPage).
  - now rewrite shape_SetLineStyle.
  - now rewrite shape_SetFillStyle.
  - now rewrite shape_SetTextStyle.
  - unfold DrawLine. now rewrite shape_DrawPolyline.
  - now rewrite shape_DrawPolyline.
  - now rewrite shape_DrawPolygon.
  - unfold DrawRectangle. cbv zeta. now rewrite shape_DrawPolygon.
  - now rewrite shape_DrawTextString.
  - rewrite shape_DrawImage. now apply numbered_add_image.
  - unfold DrawImage_pixels. cbv zeta. rewrite shape_DrawImage.
    now apply numbered_add_image.
  - now rewrite shape_Enable_images.
  - now rewrite shape_Enable_content.
Qed.

Lemma numbered_do_calls (calls : list call) st :
  numbered (shape_of st) ->
  exists st', do_calls calls st = Ok st' /\ numbered (shape_of st').
Proof.
  revert st. induction calls as [|c calls IH]; intros st H; cbn [do_calls].
  - eauto.
  - destruct (numbered_do_call c st H) as (st1 & -> & H1). now apply IH.
Qed.

(** *** What [Close] writes *)

Lemma seq_strictly_sorted (a n : nat) :
  StronglySorted Z.lt (map Z.of_nat (seq a n)).
Proof.
  revert a. induction n as [|n IH]; intros a; cbn [seq map]; constructor.
  - apply IH.
  - rewrite Forall_forall. intros z Hz. apply in_map_iff in Hz.
    destruct Hz as (k & <- & Hk). apply in_seq in Hk. lia.
Qed.

Lemma max_seq (a n : nat) :
  fold_right Z.max 0 (map Z.of_nat (seq a n))
  = match n with O => 0 | S k => Z.of_nat (a + k) end.
Proof.
  revert a. induction n as [|n IH]; intros a; cbn [seq map fold_right].
  - reflexivity.
  - rewrite IH. destruct n; lia.
Qed.

Lemma max_numbers_below (n : Z) :
  1 <= n -> fold_right Z.max 0 (numbers_below n) = n - 1.
Proof.
  intros Hn. unfold numbers_below. rewrite max_seq.
  destruct (Z.to_nat (n - 1)) as [|k] eqn:E; lia.
Qed.

Lemma fold_fprintf_shape {A : Type} (g : A -> Draw2pdf -> list byte)
  (l : list A) st :
  shape_of (fold_left (fun st a => fprintf (g a st) st) l st) = shape_of st.
Proof.
  revert st. induction l as [|a l IH]; intros st; cbn [fold_left].
  - reflexivity.
  - now rewrite IH, shape_fprintf.
Qed.

Lemma shape_write_pages_object st :
  shape_of (write_pages_object st)
  = add_objnums [s_pages (shape_of st)] (shape_of st).
Proof.
  unfold write_pages_object. cbv zeta.
  rewrite !shape_fprintf.
  rewrite (fold_fprintf_shape (fun objnum _ => dec objnum ++ str " 0 R ")).
  rewrite !shape_fprintf, shape_push_crossRef, shape_fprintf.
  shape_done.
Qed.

(** Writing a list of items with [fprintf] appends their texts in order and
    leaves the cross reference records alone. *)
Lemma fold_fprintf_file {A : Type} (g : A -> list byte) (l : list A) st :
  m_file (fold_left (fun st a => fprintf (g a) st) l st)
  = option_map (fun f => f ++ List.concat (map g l)) (m_file st) /\
  m_crossRefs (fold_left (fun st a => fprintf (g a) st) l st) = m_crossRefs st.
Proof.
  revert st. induction l as [|a l IH]; intros st; cbn [fold_left map List.concat].
  - split; [|reflexivity]. destruct (m_file st); cbn [option_map];
      now rewrite ?app_nil_r.
  - destruct (IH (fprintf (g a) st)) as [Hf Hx]. rewrite Hf, Hx.
    split; [|reflexivity]. fields.
    destruct (m_file st); cbn [option_map]; now rewrite <- ?app_assoc.
Qed.

Lemma write_xref_table_file st :
  m_file (write_xref_table st)
  = option_map
      (fun f => f ++ line "xref" ++ xref_count_line (m_crossRefs st)
                  ++ line "0000000000 65535 f"
                  ++ List.concat (map xref_entry (m_crossRefs st)))
      (m_file st) /\
  m_crossRefs (write_xref_table st) = m_crossRefs st.
Proof.
  unfold write_xref_table. cbv zeta.
  match goal with |- context [fold_left _ _ ?s] =>
    destruct (fold_fprintf_file xref_entry (m_crossRefs st) s) as [Hf Hx] end.
  fields. fields_in Hf. fields_in Hx. rewrite Hf, Hx. split; [|reflexivity].
  destruct (m_file st); cbn [option_map]; now rewrite <- ?app_assoc.
Qed.

Lemma write_trailer_file (id off : Z) st :
  exists trailer,
    m_file (write_trailer id off st)
    = option_map (fun f => f ++ trailer) (m_file st).
Proof.
  unfold write_trailer. cbv zeta. fields.
  destruct (m_file st); cbn [option_map].
  - rewrite <- !app_assoc. eexists. reflexivity.
  - now exists [].
Qed.

Lemma write_trailer_crossRefs (id off : Z) st :
  m_crossRefs (write_trailer id off st) = m_crossRefs st.
Proof. reflexivity. Qed.

(** The table that [Close] sorts and writes, and the file it leaves. *)
Lemma finish_file_table (id : Z) st :
  m_crossRefs (finish_file id st)
  = sort_crossRefs (m_crossRefs (write_pages_object (DoEndPage st))).
Proof.
  unfold finish_file. cbv zeta.
  rewrite write_trailer_crossRefs.
  now rewrite (proj2 (write_xref_table_file _)).
Qed.

Lemma is_open_Some st : is_open st = true -> exists f, m_file st = Some f.
Proof. unfold is_open. destruct (m_file st) as [f|]; [eauto | discriminate]. Qed.

Lemma open_is_open st : m_file st <> None -> is_open st = true.
Proof. unfold is_open. now destruct (m_file st). Qed.

Lemma is_open_shape st : is_open st = s_open (shape_of st).
Proof. reflexivity. Qed.

Lemma objnums_shape st : map m_objnum (m_crossRefs st) = s_objnums (shape_of st).
Proof. reflexivity. Qed.

Lemma open_after_pages st :
  m_file st <> None ->
  exists f, m_file (write_pages_object (DoEndPage st)) = Some f.
Proof.
  intros Hopen. apply is_open_Some.
  rewrite is_open_shape, shape_write_pages_object, shape_DoEndPage.
  unfold add_objnums, end_page. cbn [s_open].
  rewrite <- is_open_shape. now apply open_is_open.
Qed.

Lemma finish_file_file (id : Z) st :
  m_file st <> None ->
  exists body trailer,
    m_file (finish_file id st)
    = Some (body ++ line "xref"
                 ++ xref_count_line (m_crossRefs (finish_file id st))
                 ++ line "0000000000 65535 f"
                 ++ List.concat (map xref_entry (m_crossRefs (finish_file id st)))
                 ++ trailer).
Proof.
  intros Hopen. rewrite finish_file_table.
  destruct (open_after_pages st Hopen) as [f Hf].
  unfold finish_file. cbv zeta.
  revert Hf. generalize (write_pages_object (DoEndPage st)). intros st2 Hf.
  set (table := sort_crossRefs (m_crossRefs st2)).
  set (st3 := fprintf crlf (set_crossRefs table st2)).
  assert (Hx3 : m_crossRefs st3 = table) by reflexivity.
  assert (Hf3 : m_file st3 = Some (f ++ crlf))
    by (unfold st3; fields; now rewrite Hf).
  clearbody st3.
  destruct (write_trailer_file id (ftell st3) (write_xref_table st3))
    as [trailer Ht].
  rewrite Ht, (proj1 (write_xref_table_file st3)), Hf3, Hx3.
  cbn [option_map]. exists (f ++ crlf), trailer.
  now rewrite <- !app_assoc.
Qed.

Lemma finish_file_objnums (id : Z) st :
  numbered (shape_of st) ->
  map m_objnum (m_crossRefs (finish_file id st))
  = numbers_below (m_objNumber st).
Proof.
  intros (Ho & Hn & HP). rewrite finish_file_table.
  apply sorted_perm_eq.
  - apply sort_crossRefs_sorted.
  - apply numbers_below_sorted.
  - rewrite (Permutation_map m_objnum (sort_crossRefs_perm _)).
    rewrite objnums_shape, shape_write_pages_object, shape_DoEndPage.
    unfold reserved in HP. unfold add_objnums, end_page.
    cbn [s_objnums s_pages s_next s_contents s_xobject s_images].
    change (m_objNumber st) with (s_next (shape_of st)).
    rewrite <- HP. rewrite <- !app_assoc. reflexivity.
Qed.

(** *** The styles and the content stream across pages *)

Lemma styles_fprintf text st : styles_of (fprintf text st) = styles_of st.
Proof. reflexivity. Qed.

Lemma styles_DoWriteImage i c st : styles_of (DoWriteImage i c st) = styles_of st.
Proof.
  unfold DoWriteImage. cbv zeta.
  destruct (encode_image _ _). destruct (_ =? 8); reflexivity.
Qed.

Lemma styles_for_images (body : Z -> Draw2pdf -> Draw2pdf) st :
  (forall i s, styles_of (body i s) = styles_of s) ->
  styles_of (for_images body st) = styles_of st.
Proof.
  intros H. unfold for_images.
  generalize (seq 0 (List.length (m_images st))). intros l. revert st.
  induction l as [|i l IH]; intros st; cbn [fold_left]; [reflexivity|].
  now rewrite IH, H.
Qed.

Lemma styles_set_images v st : styles_of (set_images v st) = styles_of st.
Proof. reflexivity. Qed.

Lemma styles_set_contentStream v st :
  styles_of (set_contentStream v st) = styles_of st.
Proof. reflexivity. Qed.

Lemma styles_push_crossRef n st : styles_of (push_crossRef n st) = styles_of st.
Proof. reflexivity. Qed.

Lemma styles_DoEndPage st : styles_of (DoEndPage st) = styles_of st.
Proof.
  unfold DoEndPage. cbv zeta.
  rewrite styles_set_images, styles_set_contentStream.
  rewrite styles_for_images by (intros; apply styles_DoWriteImage).
  rewrite !styles_fprintf.
  rewrite styles_for_images by (intros; apply styles_fprintf).
  rewrite !styles_fprintf, styles_push_crossRef, styles_fprintf.
  destruct (negb (m_compressContent _)); unfold fwrite;
    now rewrite !styles_fprintf, styles_push_crossRef, styles_fprintf.
Qed.

Lemma styles_DoBeginPage st : styles_of (DoBeginPage st) = styles_of st.
Proof. reflexivity. Qed.

Lemma content_set_images v st :
  m_contentStream (set_images v st) = m_contentStream st.
Proof. reflexivity. Qed.

Lemma content_set_contentStream v st :
  m_contentStream (set_contentStream v st) = v.
Proof. reflexivity. Qed.

Lemma content_DoEndPage st : m_data (m_contentStream (DoEndPage st)) = [].
Proof.
  unfold DoEndPage. cbv zeta.
  now rewrite content_set_images, content_set_contentStream.
Qed.

Lemma content_DoBeginPage st :
  m_contentStream (DoBeginPage st) = m_contentStream st.
Proof. reflexivity. Qed.

Lemma styles_of_eq (a b : Draw2pdf) :
  styles_of a = styles_of b ->
  m_lineStyle a = m_lineStyle b /\ m_fillStyle a = m_fillStyle b /\
  m_textStyle a = m_textStyle b.
Proof. unfold styles_of. intros H. injection H as Hl Hf Ht. auto. Qed.

Lemma next_page_state st :
  let st' := DoBeginPage (DoEndPage st) in
  m_data (m_contentStream st') = [] /\
  m_lineStyle st' = m_lineStyle st /\ m_fillStyle st' = m_fillStyle st /\
  m_textStyle st' = m_textStyle st.
Proof.
  cbv zeta. split.
  - rewrite content_DoBeginPage. apply content_DoEndPage.
  - apply styles_of_eq. now rewrite styles_DoBeginPage, styles_DoEndPage.
Qed.

(** *** A compressor that fails *)

Lemma DeflateData_failed (data : list byte) :
  deflate_status data <> Z_OK -> DeflateData data = [].
Proof.
  unfold deflate_status, DeflateData. cbv zeta.
  destruct (compress _ _) as [[errcode n] output].
  intros H. apply Z.eqb_neq in H. rewrite H. reflexivity.
Qed.

Lemma DoWriteImage_file (index : Z) (c : bool) st f :
  m_file st = Some f ->
  exists header,
    m_file (DoWriteImage index c st)
    = Some (f ++ header
              ++ fst (encode_image c (pack_pixels
                        (nth (Z.to_nat index) (m_images st) default_image)))
              ++ str "/Length "
              ++ dec (Z.of_nat (List.length
                   (snd (encode_image c (pack_pixels
                        (nth (Z.to_nat index) (m_images st) default_image))))))
              ++ crlf ++ line ">>" ++ line "stream"
              ++ snd (encode_image c (pack_pixels
                        (nth (Z.to_nat index) (m_images st) default_image)))
              ++ crlf ++ line "endstream" ++ line "endobj").
Proof.
  intros Hf. unfold DoWriteImage. cbv zeta.
  set (image := nth (Z.to_nat index) (m_images st) default_image).
  generalize (pack_pixels image). intros raw.
  destruct (encode_image c raw) as [filter encoded]. cbn [fst snd].
  exists (crlf ++ (dec (m_objNum image) ++ line " 0 obj") ++ line "<<"
          ++ line "/Type /XObject" ++ line "/Subtype /Image"
          ++ (str "/Name /Im" ++ dec index ++ crlf)
          ++ (str "/Width " ++ dec (m_numX image) ++ crlf)
          ++ (str "/Height " ++ dec (m_numY image) ++ crlf)
          ++ line "/BitsPerComponent 8"
          ++ (if m_bpp image =? 8 then line "/ColorSpace /DeviceGray"
              else line "/ColorSpace /DeviceRGB")).
  destruct (m_bpp image =? 8); fields; rewrite Hf; cbn [option_map];
    rewrite <- !app_assoc; reflexivity.
Qed.

(** *** [Close] on an open file *)

Lemma Close_open (id : Z) st :
  m_file st <> None -> Close id st = reset_members (fclose (finish_file id st)).
Proof. unfold Close. now destruct (m_file st). Qed.

Lemma closed_files_reset st : closed_files (reset_members st) = closed_files st.
Proof. reflexivity. Qed.

Lemma closed_files_fclose st f :
  m_file st = Some f -> closed_files (fclose st) = f :: closed_files st.
Proof. intros H. unfold fclose. now rewrite H. Qed.

Lemma numbered_open st : numbered (shape_of st) -> m_file st <> None.
Proof.
  intros (Ho & _). cbn [shape_of s_open] in Ho. unfold is_open in Ho.
  destruct (m_file st); [discriminate | discriminate].
Qed.

Lemma numbered_counter st : numbered (shape_of st) -> 1 <= m_objNumber st.
Proof. intros (_ & Hn & _). exact Hn. Qed.

Lemma numbers_below_strictly_sorted (n : Z) :
  StronglySorted Z.lt (numbers_below n).
Proof. apply seq_strictly_sorted. Qed.

End WithRuntime.
End WriterFacts.

(** ** Packing the pixels of an image *)

Module ImageFacts.
Import Writer Spec Shapes.

Lemma store_middle (A B : list byte) (b v : byte) :
  store (Z.of_nat (List.length A)) v (A ++ b :: B) = A ++ v :: B.
Proof.
  unfold store. rewrite length_app. cbn [List.length].
  replace ((0 <=? Z.of_nat (List.length A))
           && (Z.of_nat (List.length A)
               <? Z.of_nat (List.length A + S (List.length B)))) with true
    by (symmetry; apply andb_true_iff; split;
        [apply Z.leb_le | apply Z.ltb_lt]; lia).
  rewrite Nat2Z.id.
  rewrite firstn_app, firstn_all, Nat.sub_diag. cbn [firstn].
  rewrite app_nil_r. f_equal. f_equal.
  change (S (List.length A)) with (1 + List.length A)%nat.
  rewrite <- skipn_skipn, skipn_app, skipn_all, Nat.sub_diag.
  reflexivity.
Qed.

(** The packing loop only overwrites [rawData]: its size stays what the
    constructor gave it, [numY * numX * bpp / 8]. *)
Lemma store_length (i : Z) (v : byte) (l : list byte) :
  List.length (store i v l) = List.length l.
Proof.
  unfold store.
  destruct ((0 <=? i) && (i <? Z.of_nat (List.length l))) eqn:E;
    [|reflexivity].
  apply andb_true_iff in E. destruct E as [E1 E2].
  apply Z.leb_le in E1. apply Z.ltb_lt in E2.
  rewrite length_app. cbn [List.length]. rewrite length_firstn, length_skipn.
  lia.
Qed.

Lemma copy_channels_length (n : nat) (pixels : list byte) :
  forall (raw : list byte) (i o : Z),
  List.length (fst (fst (copy_channels n pixels (raw, i, o))))
  = List.length raw.
Proof.
  induction n as [|n IH]; intros raw i o; cbn [copy_channels fst].
  - reflexivity.
  - now rewrite IH, store_length.
Qed.

Lemma copy_row_length (n : nat) (image : PDFImage) (channels : Z) :
  forall (raw : list byte) (i o : Z),
  List.length (fst (fst (copy_row n image channels (raw, i, o))))
  = List.length raw.
Proof.
  induction n as [|n IH]; intros raw i o; cbn [copy_row fst].
  - reflexivity.
  - pose proof (copy_channels_length (Z.to_nat channels) (m_pixels image)
                  raw i o) as H.
    destruct (copy_channels (Z.to_nat channels) (m_pixels image) (raw, i, o))
      as [[raw' i'] o'].
    cbn [fst] in H. now rewrite IH.
Qed.

Lemma pack_pixels_length (image : PDFImage) :
  List.length (pack_pixels image)
  = Z.to_nat (size_t (size_t (m_numY image * m_numX image) * m_bpp image) / 8).
Proof.
  unfold pack_pixels. cbv zeta.
  generalize (seq 0 (Z.to_nat (m_numY image))). intros rows.
  rewrite <- (repeat_length x00
    (Z.to_nat (size_t (size_t (m_numY image * m_numX image) * m_bpp image) / 8)))
    at 2.
  generalize (repeat x00
    (Z.to_nat (size_t (size_t (m_numY image * m_numX image) * m_bpp image) / 8))).
  induction rows as [|y rows IH]; intros raw; cbn [fold_left].
  - reflexivity.
  - rewrite IH.
    match goal with |- context [copy_row ?n ?im ?c (?r, ?i, ?o)] =>
      pose proof (copy_row_length n im c r i o) as H;
      destruct (copy_row n im c (r, i, o)) as [[raw' i'] o'] end.
    exact H.
Qed.

(** A 32-bit image, then, is packed into four bytes per pixel, not three. *)
Lemma pack_pixels_32bit_length (image : PDFImage) (w h : nat) :
  m_bpp image = 32 -> m_numX image = Z.of_nat w -> m_numY image = Z.of_nat h ->
  Z.of_nat (h * w) * 32 < 2 ^ 64 ->
  List.length (pack_pixels image) = (4 * w * h)%nat.
Proof.
  intros Hb Hw Hh Hwrap. rewrite pack_pixels_length, Hb, Hw, Hh.
  unfold size_t. rewrite (Z.mod_small (Z.of_nat h * Z.of_nat w)) by nia.
  rewrite Z.mod_small by nia.
  replace (Z.of_nat h * Z.of_nat w * 32) with ((Z.of_nat h * Z.of_nat w * 4) * 8)
    by lia.
  rewrite Z.div_mul by lia. lia.
Qed.

Lemma flat_map_singleton {A B : Type} (f : A -> B) (g : A -> list B)
  (l : list A) :
  (forall a, In a l -> g a = [f a]) -> flat_map g l = map f l.
Proof.
  induction l as [|a l IH]; intros H; cbn [flat_map map]; [reflexivity|].
  rewrite (H a) by now left. cbn [app]. f_equal.
  apply IH. intros b Hb. apply H. now right.
Qed.

Lemma length_flat_map_const {A B : Type} (f : A -> list B) (l : list A)
  (n : nat) :
  (forall a, List.length (f a) = n) ->
  List.length (flat_map f l) = (List.length l * n)%nat.
Proof.
  intros H. induction l as [|a l IH]; cbn [flat_map List.length]; [reflexivity|].
  rewrite length_app, H, IH. lia.
Qed.

Lemma flat_map_ext_on {A B : Type} (f g : A -> list B) (l : list A) :
  (forall a, In a l -> f a = g a) -> flat_map f l = flat_map g l.
Proof.
  induction l as [|a l IH]; intros H; cbn [flat_map]; [reflexivity|].
  rewrite (H a) by now left. f_equal. apply IH. intros b Hb. apply H. now right.
Qed.

Lemma firstn1_skipn {A : Type} (k : nat) (l : list A) (d : A) :
  (k < List.length l)%nat -> firstn 1 (skipn k l) = [nth k l d].
Proof.
  revert l. induction k as [|k IH]; intros [|a l] Hk;
    cbn [List.length] in Hk; try lia.
  - reflexivity.
  - cbn [skipn nth]. apply IH. lia.
Qed.

Lemma row_bytes_S (pixels : list byte) (start : Z) (n : nat) :
  row_bytes pixels start (S n)
  = load start pixels :: row_bytes pixels (start + 1) n.
Proof.
  unfold row_bytes. cbn [seq map]. rewrite Z.add_0_r. f_equal.
  rewrite <- seq_shift, map_map. apply map_ext. intros k.
  f_equal. lia.
Qed.

Section EightBit.
Variable image : PDFImage.
Hypothesis bpp8 : m_bpp image = 8.

Lemma copy_row_8 (n : nat) :
  forall (A B : list byte) (i : Z),
  (n <= List.length B)%nat ->
  copy_row n image 1 (A ++ B, i, Z.of_nat (List.length A))
  = (A ++ row_bytes (m_pixels image) i n ++ skipn n B,
     i + Z.of_nat n, Z.of_nat (List.length A + n)).
Proof.
  induction n as [|n IH]; intros A B i Hn.
  - cbn [copy_row row_bytes seq map skipn app].
    now rewrite Z.add_0_r, Nat.add_0_r.
  - destruct B as [|b B]; [cbn [List.length] in Hn; lia|].
    cbn [copy_row]. change (Z.to_nat 1) with 1%nat. cbn [copy_channels].
    rewrite bpp8. cbn [Z.eqb Pos.eqb].
    rewrite store_middle.
    replace (A ++ load i (m_pixels image) :: B)
      with ((A ++ [load i (m_pixels image)]) ++ B)
      by (now rewrite <- app_assoc).
    replace (Z.of_nat (List.length A) + 1)
      with (Z.of_nat (List.length (A ++ [load i (m_pixels image)])))
      by (rewrite length_app; cbn [List.length]; lia).
    rewrite IH by (cbn [List.length] in Hn; lia).
    rewrite row_bytes_S, length_app. cbn [List.length skipn].
    rewrite <- app_assoc. cbn [app].
    f_equal; [f_equal; lia | f_equal; lia].
Qed.

Lemma pack_pixels_rows :
  pack_pixels image
  = fold_left (row_step image) (seq 0 (Z.to_nat (m_numY image)))
      (repeat x00 (Z.to_nat
         (size_t (size_t (m_numY image * m_numX image) * m_bpp image) / 8))).
Proof. reflexivity. Qed.

Variables w h s : nat.
Hypothesis width : m_numX image = Z.of_nat w.
Hypothesis height : m_numY image = Z.of_nat h.
Hypothesis stride : m_stride image = Z.of_nat s.
Hypothesis no_wrap_out : Z.of_nat (h * w) * 8 < 2 ^ 64.
Hypothesis no_wrap_in : Z.of_nat (h * s) < 2 ^ 64.

Lemma rows_8 (n : nat) :
  forall (y0 : nat) (A : list byte),
  (y0 + n <= h)%nat -> List.length A = (y0 * w)%nat ->
  fold_left (row_step image) (seq y0 n) (A ++ repeat x00 (n * w))
  = A ++ flat_map (fun y => row_bytes (m_pixels image)
                              (Z.of_nat y * Z.of_nat s) w) (seq y0 n).
Proof.
  induction n as [|n IH]; intros y0 A Hy HA.
  - cbn [seq fold_left flat_map Nat.mul repeat]. reflexivity.
  - cbn [seq fold_left flat_map].
    replace (S n * w)%nat with (w + n * w)%nat by lia.
    rewrite repeat_app.
    assert (Hin : size_t (Z.of_nat y0 * m_stride image)
                  = Z.of_nat y0 * Z.of_nat s).
    { rewrite stride. unfold size_t. apply Z.mod_small. nia. }
    assert (Hout : size_t (size_t (Z.of_nat y0 * m_numX image) * m_bpp image) / 8
                   = Z.of_nat (List.length A)).
    { rewrite width, bpp8, HA. unfold size_t.
      rewrite (Z.mod_small (Z.of_nat y0 * Z.of_nat w)) by nia.
      rewrite Z.mod_small by nia.
      rewrite Z.div_mul by lia. lia. }
    unfold row_step at 2. cbv zeta. rewrite Hin, Hout, bpp8, width.
    cbn [Z.eqb Pos.eqb]. rewrite Nat2Z.id.
    rewrite copy_row_8 by (rewrite length_app, repeat_length; lia).
    rewrite skipn_app, repeat_length, skipn_all2, Nat.sub_diag
      by (rewrite repeat_length; lia).
    cbn [skipn app].
    rewrite app_assoc. rewrite IH.
    + now rewrite <- app_assoc.
    + lia.
    + rewrite length_app. unfold row_bytes.
      rewrite length_map, length_seq. lia.
Qed.

Hypothesis stride_wide : (w <= s)%nat.
Hypothesis pixels_long : (h * s <= List.length (m_pixels image))%nat.

Lemma row_bytes_packed (y : nat) :
  (y < h)%nat ->
  row_bytes (m_pixels image) (Z.of_nat y * Z.of_nat s) w
  = flat_map (fun col => firstn 1 (skipn (y * s + col * 1) (m_pixels image)))
             (seq 0 w).
Proof.
  intros Hy. unfold row_bytes. symmetry. apply flat_map_singleton.
  intros col Hcol. apply in_seq in Hcol.
  rewrite (firstn1_skipn _ _ x00) by nia.
  unfold load. do 2 f_equal. lia.
Qed.

(** An 8-bit image whose rows are [stride >= width] bytes apart is packed
    into [width * height] bytes, the first [width] bytes of each row. *)
Lemma pack_pixels_8bit_rows :
  pack_pixels image
  = flat_map (fun y => row_bytes (m_pixels image) (Z.of_nat y * Z.of_nat s) w)
             (seq 0 h).
Proof.
  rewrite pack_pixels_rows, height, width, bpp8, Nat2Z.id.
  replace (Z.to_nat (size_t (size_t (Z.of_nat h * Z.of_nat w) * 8) / 8))
    with (h * w)%nat.
  2:{ unfold size_t. rewrite (Z.mod_small (Z.of_nat h * Z.of_nat w)) by nia.
      rewrite Z.mod_small by nia. rewrite Z.div_mul by lia. lia. }
  change (repeat x00 (h * w)) with ([] ++ repeat x00 (h * w)).
  now rewrite (rows_8 h 0 []) by (cbn [List.length]; lia).
Qed.

(** An 8-bit image whose rows are [stride >= width] bytes apart is packed
    into [width * height] bytes, the first [width] bytes of each row. *)
Lemma pack_pixels_8bit :
  pack_pixels image = packed_rows w h 1 1 s (m_pixels image) /\
  List.length (pack_pixels image) = (w * h)%nat.
Proof.
  rewrite pack_pixels_8bit_rows. split.
  - unfold packed_rows. apply flat_map_ext_on.
    intros y Hy. apply in_seq in Hy. apply row_bytes_packed. lia.
  - rewrite (length_flat_map_const _ _ w).
    + rewrite length_seq. lia.
    + intros y. unfold row_bytes. now rewrite length_map, length_seq.
Qed.

End EightBit.

(** Two rows of two 8-bit pixels, three bytes apart: the third byte of
    each row is left out. *)
Example pack_pixels_8bit_stride_3 :
  pack_pixels (mkImage 2 2 8 3 0 [x01; x02; x03; x04; x05; x06])
  = [x01; x02; x04; x05].
Proof.
  rewrite (proj1 (pack_pixels_8bit
                    (mkImage 2 2 8 3 0 [x01; x02; x03; x04; x05; x06])
                    eq_refl 2 2 3 eq_refl eq_refl eq_refl
                    ltac:(cbn; lia) ltac:(cbn; lia) ltac:(lia)
                    ltac:(cbn; lia))).
  reflexivity.
Qed.

(** Two rows of one 24-bit pixel, four bytes apart, are packed tightly too. *)
Example pack_pixels_24bit_stride_4 :
  pack_pixels (mkImage 1 2 24 4 0 [x01; x02; x03; x04; x05; x06; x07; x08])
  = [x01; x02; x03; x05; x06; x07].
Proof. reflexivity. Qed.

End ImageFacts.

(** ** More on the ASCII-85 encoder *)

Module PlainFacts.
Import Ascii85 A85Reader ZShortcut Lines Plain BytesFacts.

Lemma dig_digit (v : Z) (i : nat) :
  (i <= 4)%nat -> chr (dig v (4 - i) + 33) = digit v i.
Proof.
  intros Hi. unfold digit, dig. f_equal. f_equal.
  destruct i as [|[|[|[|[|i]]]]]; try lia; cbn [Nat.sub expand nth Z.of_nat];
    rewrite ?Z.div_div by lia; try reflexivity.
  now rewrite Z.div_1_r.
Qed.

Lemma strip_app (a b : list byte) :
  strip_breaks (a ++ b) = strip_breaks a ++ strip_breaks b.
Proof. apply filter_app. Qed.

Lemma strip_put_char (c : byte) (e : Ascii85Encoder) :
  is_break c = false ->
  strip_breaks (m_output (put_char c e)) = strip_breaks (m_output e) ++ [c].
Proof.
  intros Hc. unfold put_char.
  destruct (lineWidth <=? m_column e); cbn [m_output];
    rewrite !strip_app; unfold strip_breaks; cbn [filter];
    rewrite Hc; cbn [negb].
  - change (is_break CR) with true. change (is_break LF) with true.
    cbn [negb]. now rewrite !app_nil_r.
  - reflexivity.
Qed.

Lemma strip_push_back (c : byte) (e : Ascii85Encoder) :
  strip_breaks (m_output (push_back c e))
  = strip_breaks (m_output e) ++ strip_breaks [c].
Proof. unfold push_back. cbn [m_output]. apply strip_app. Qed.

Lemma strip_EncodeTuple (v k : Z) (e : Ascii85Encoder) :
  0 <= k <= 4 ->
  strip_breaks (m_output (EncodeTuple v k e))
  = strip_breaks (m_output e) ++ group_text v (Z.to_nat (k + 1)).
Proof.
  intros Hk. rewrite Ascii85Facts.EncodeTuple_chars. unfold group_text.
  assert (Hl : forall i, In i (seq 0 (Z.to_nat (k + 1))) -> (i <= 4)%nat)
    by (intros i Hi; apply in_seq in Hi; lia).
  revert Hl. generalize (seq 0 (Z.to_nat (k + 1))). intros l. revert e.
  induction l as [|i l IH]; intros e Hl; cbn [fold_left map].
  - now rewrite app_nil_r.
  - rewrite IH by (intros j Hj; apply Hl; now right).
    rewrite strip_put_char
      by (apply LinesFacts.digit_not_break, Ascii85Facts.dig_range).
    rewrite dig_digit by (apply Hl; now left).
    now rewrite <- app_assoc.
Qed.

Lemma strip_group4 (e : Ascii85Encoder) (a b c d : byte) :
  m_count e = 0 -> m_tuple e = 0 ->
  strip_breaks (m_output (fold_left EncodeByte [a; b; c; d] e))
  = strip_breaks (m_output e)
    ++ (if group_value a b c d =? 0 then [x7a]
        else group_text (group_value a b c d) 5).
Proof.
  destruct e as [out col t k]. cbn [m_count m_tuple m_output].
  intros -> ->.
  rewrite Ascii85Facts.EncodeByte4, Ascii85Facts.group_value_pack. cbv zeta.
  cbn [set_count set_tuple m_output].
  destruct (group_value a b c d =? 0).
  - now rewrite strip_put_char.
  - rewrite strip_EncodeTuple by lia. cbn [m_output].
    unfold to_uint. pose proof (Ascii85Facts.group_value_range a b c d).
    now rewrite Z.mod_small.
Qed.

Lemma strip_terminate (e : Ascii85Encoder) :
  0 <= m_count e <= 4 ->
  strip_breaks (m_output (terminate e))
  = strip_breaks (m_output e)
    ++ (if 0 <? m_count e
        then group_text (to_uint (m_tuple e)) (Z.to_nat (m_count e + 1))
        else [])
    ++ str "~>".
Proof.
  intros Hk. unfold terminate. cbv zeta. rewrite !strip_push_back.
  change (strip_breaks [LF]) with (@nil byte).
  change (strip_breaks [CR]) with (@nil byte).
  change (strip_breaks [x3e]) with [x3e].
  change (strip_breaks [x7e]) with [x7e].
  rewrite !app_nil_r.
  match goal with |- context [if lineWidth <? ?c then _ else _] =>
    destruct (lineWidth <? c) end;
    rewrite ?strip_push_back;
    change (strip_breaks [LF]) with (@nil byte);
    change (strip_breaks [CR]) with (@nil byte);
    rewrite ?app_nil_r;
    (destruct (0 <? m_count e);
     rewrite ?strip_EncodeTuple by exact Hk; cbn [app];
     rewrite <- ?app_assoc; reflexivity).
Qed.

Lemma plain_encoded (data : list byte) :
  forall e : Ascii85Encoder,
  m_count e = 0 -> m_tuple e = 0 ->
  strip_breaks (m_output (terminate (fold_left EncodeByte data e)))
  = strip_breaks (m_output e) ++ plain_text data ++ str "~>".
Proof.
  induction data as [|a|a b|a b c|a b c d data IH]
    using Ascii85Facts.list_ind4; intros e Hc Ht.
  - cbn [fold_left plain_text]. rewrite strip_terminate by lia.
    rewrite Hc. reflexivity.
  - destruct e as [out col t k]. cbn [m_count m_tuple m_output] in *. subst.
    change (fold_left EncodeByte [a] (mkEncoder out col 0 0))
      with (mkEncoder out col (Z.lor 0 (Z.shiftl (u8 a) 24)) 1).
    rewrite strip_terminate by (cbn [m_count]; lia).
    cbn [m_count m_tuple m_output Z.ltb Z.compare plain_text].
    rewrite pack1 by apply u8_range. unfold to_uint, group_value.
    pose proof (u8_range a). change (u8 x00) with 0.
    rewrite Z.mod_small by lia.
    do 3 f_equal. lia.
  - destruct e as [out col t k]. cbn [m_count m_tuple m_output] in *. subst.
    change (fold_left EncodeByte [a; b] (mkEncoder out col 0 0))
      with (mkEncoder out col
              (Z.lor (Z.lor 0 (Z.shiftl (u8 a) 24)) (Z.shiftl (u8 b) 16)) 2).
    rewrite strip_terminate by (cbn [m_count]; lia).
    cbn [m_count m_tuple m_output Z.ltb Z.compare plain_text].
    rewrite pack2 by apply u8_range. unfold to_uint, group_value.
    pose proof (u8_range a). pose proof (u8_range b). change (u8 x00) with 0.
    rewrite Z.mod_small by lia.
    do 3 f_equal. lia.
  - destruct e as [out col t k]. cbn [m_count m_tuple m_output] in *. subst.
    change (fold_left EncodeByte [a; b; c] (mkEncoder out col 0 0))
      with (mkEncoder out col
              (Z.lor (Z.lor (Z.lor 0 (Z.shiftl (u8 a) 24))
                            (Z.shiftl (u8 b) 16)) (Z.shiftl (u8 c) 8)) 3).
    rewrite strip_terminate by (cbn [m_count]; lia).
    cbn [m_count m_tuple m_output Z.ltb Z.compare plain_text].
    rewrite pack3 by apply u8_range. unfold to_uint, group_value.
    pose proof (u8_range a). pose proof (u8_range b). pose proof (u8_range c).
    change (u8 x00) with 0.
    rewrite Z.mod_small by lia.
    do 3 f_equal. lia.
  - change (fold_left EncodeByte (a :: b :: c :: d :: data) e)
      with (fold_left EncodeByte data (fold_left EncodeByte [a; b; c; d] e)).
    destruct (Ascii85Facts.fields_group4 e a b c d Hc Ht) as (Hc' & Ht').
    rewrite (IH _ Hc' Ht'), strip_group4 by assumption.
    cbn [plain_text]. now rewrite <- !app_assoc.
Qed.

Lemma strip_encode (data : list byte) :
  strip_breaks (encode data)
  = match data with
    | [] => []
    | _ :: _ => plain_text data ++ str "~>"
    end.
Proof.
  destruct data as [|b data]; [reflexivity|].
  unfold encode, EncodeToAscii85.
  now rewrite (plain_encoded (b :: data) fresh).
Qed.

(** *** The characters of the output *)

Lemma alphabet_put_char (c : byte) (e : Ascii85Encoder) :
  in_alphabet c = true ->
  Forall (fun b => in_alphabet b = true) (m_output e) ->
  Forall (fun b => in_alphabet b = true) (m_output (put_char c e)).
Proof.
  intros Hc He. unfold put_char.
  destruct (lineWidth <=? m_column e); cbn [m_output];
    repeat (apply Forall_app; split); auto.
Qed.

Lemma alphabet_push_back (c : byte) (e : Ascii85Encoder) :
  in_alphabet c = true ->
  Forall (fun b => in_alphabet b = true) (m_output e) ->
  Forall (fun b => in_alphabet b = true) (m_output (push_back c e)).
Proof.
  intros Hc He. unfold push_back. cbn [m_output].
  apply Forall_app. split; auto.
Qed.

Lemma alphabet_digit (d : Z) : 0 <= d < 85 -> in_alphabet (chr (d + 33)) = true.
Proof.
  intros Hd. unfold in_alphabet. rewrite u8_chr by lia. cbv zeta.
  replace (33 <=? d + 33) with true by (symmetry; apply Z.leb_le; lia).
  replace (d + 33 <=? 117) with true by (symmetry; apply Z.leb_le; lia).
  reflexivity.
Qed.

Lemma alphabet_EncodeTuple (v k : Z) (e : Ascii85Encoder) :
  Forall (fun b => in_alphabet b = true) (m_output e) ->
  Forall (fun b => in_alphabet b = true) (m_output (EncodeTuple v k e)).
Proof.
  rewrite Ascii85Facts.EncodeTuple_chars.
  generalize (seq 0 (Z.to_nat (k + 1))). intros l. revert e.
  induction l as [|i l IH]; intros e He; cbn [fold_left]; [exact He|].
  apply IH, alphabet_put_char; [|exact He].
  apply alphabet_digit, Ascii85Facts.dig_range.
Qed.

Lemma alphabet_EncodeByte (e : Ascii85Encoder) (c : byte) :
  Forall (fun b => in_alphabet b = true) (m_output e) ->
  Forall (fun b => in_alphabet b = true) (m_output (EncodeByte e c)).
Proof.
  intros He. unfold EncodeByte. cbv zeta.
  repeat match goal with |- context [if ?b then _ else _] => destruct b end;
    try exact He; unfold set_count, set_tuple; cbn [m_output].
  - match goal with |- Forall _ (m_output (put_char x7a ?x)) =>
      apply (alphabet_put_char x7a x eq_refl He) end.
  - match goal with |- Forall _ (m_output (EncodeTuple ?v ?k ?x)) =>
      apply (alphabet_EncodeTuple v k x He) end.
Qed.

Lemma alphabet_encode (data : list byte) :
  Forall (fun b => in_alphabet b = true) (encode data).
Proof.
  destruct data as [|b data]; [constructor|].
  unfold encode, EncodeToAscii85, terminate. cbv zeta.
  assert (H : Forall (fun b => in_alphabet b = true)
                (m_output (fold_left EncodeByte (b :: data) fresh))).
  { generalize (b :: data). intros l.
    assert (H0 : Forall (fun b => in_alphabet b = true) (m_output fresh))
      by constructor.
    revert H0. generalize fresh. induction l as [|c l IH]; intros e He.
    - exact He.
    - cbn [fold_left]. apply IH, alphabet_EncodeByte, He. }
  revert H. generalize (fold_left EncodeByte (b :: data) fresh). intros e He.
  repeat (apply alphabet_push_back; [reflexivity|]).
  match goal with |- context [if lineWidth <? ?c then _ else _] =>
    destruct (lineWidth <? c) end;
    repeat (apply alphabet_push_back; [reflexivity|]);
    (destruct (0 <? m_count e); [now apply alphabet_EncodeTuple | exact He]).
Qed.

(** *** The size of the text *)

Lemma group_text_length (v : Z) (n : nat) : List.length (group_text v n) = n.
Proof. unfold group_text. now rewrite length_map, length_seq. Qed.

Lemma plain_text_length (data : list byte) :
  (List.length (plain_text data) + 4 * zero_groups data
   = List.length data + (List.length data + 3) / 4)%nat.
Proof.
  induction data as [|a|a b|a b c|a b c d data IH]
    using Ascii85Facts.list_ind4;
    try (cbn [plain_text zero_groups List.length];
         rewrite ?group_text_length; reflexivity).
  cbn [plain_text zero_groups List.length]. rewrite length_app.
  replace (S (S (S (S (List.length data)))) + 3)%nat
    with (List.length data + 3 + 1 * 4)%nat by lia.
  rewrite Nat.div_add by lia.
  destruct (group_value a b c d =? 0);
    rewrite ?group_text_length; cbn [List.length]; lia.
Qed.

(** *** Different inputs, different outputs *)

Lemma encode_injective (a b : list byte) : encode a = encode b -> a = b.
Proof.
  intros H. apply (f_equal decode_eod) in H.
  destruct a as [|x a], b as [|y b]; [reflexivity| | |];
    rewrite ?Ascii85Facts.decode_eod_encode, ?Ascii85Facts.decode_eod_empty in H;
    [discriminate | discriminate | congruence].
Qed.

(** *** Where the lines are broken *)

Lemma firstn_app_long {A : Type} (n : nat) (l r : list A) :
  (n <= List.length l)%nat -> firstn n (l ++ r) = firstn n l.
Proof.
  intros H. rewrite firstn_app.
  replace (n - List.length l)%nat with 0%nat by lia.
  cbn [firstn]. now rewrite app_nil_r.
Qed.

Lemma skipn_app_short {A : Type} (n : nat) (l r : list A) :
  (n <= List.length l)%nat -> skipn n (l ++ r) = skipn n l ++ r.
Proof.
  intros H. rewrite skipn_app.
  replace (n - List.length l)%nat with 0%nat by lia. reflexivity.
Qed.

Lemma full_lines_snoc (t : list byte) (c : byte) (q : nat) :
  (73 * q <= List.length t)%nat ->
  flat_map (fun k => firstn 73 (skipn (73 * k) (t ++ [c])) ++ crlf) (seq 0 q)
  = flat_map (fun k => firstn 73 (skipn (73 * k) t) ++ crlf) (seq 0 q).
Proof.
  intros Hq. apply ImageFacts.flat_map_ext_on. intros k Hk.
  apply in_seq in Hk. f_equal.
  rewrite skipn_app_short by lia.
  apply firstn_app_long. rewrite length_skipn. lia.
Qed.

Lemma broken_snoc (t : list byte) (c : byte) :
  broken (t ++ [c])
  = broken t ++ [c]
    ++ (if (List.length t mod 73 =? 72)%nat then crlf else []).
Proof.
  unfold broken. rewrite length_app. cbn [List.length].
  pose proof (Nat.div_mod_eq (List.length t) 73) as Hn.
  pose proof (Nat.mod_upper_bound (List.length t) 73 ltac:(lia)) as Hr.
  set (q := (List.length t / 73)%nat) in *.
  set (r := (List.length t mod 73)%nat) in *.
  destruct (r =? 72)%nat eqn:E.
  - apply Nat.eqb_eq in E.
    replace ((List.length t + 1) / 73)%nat with (S q)
      by (apply (Nat.div_unique _ 73 (S q) 0); lia).
    rewrite seq_S, flat_map_app. cbn [flat_map Nat.add].
    rewrite full_lines_snoc by lia.
    rewrite (skipn_all2 (n := 73 * S q)) by (rewrite length_app; cbn [List.length]; lia).
    rewrite skipn_app_short by lia.
    rewrite firstn_all2 by (rewrite length_app, length_skipn; cbn [List.length]; lia).
    rewrite !app_nil_r, <- !app_assoc. reflexivity.
  - apply Nat.eqb_neq in E.
    replace ((List.length t + 1) / 73)%nat with q
      by (apply (Nat.div_unique _ 73 q (S r)); lia).
    rewrite full_lines_snoc by lia.
    rewrite skipn_app_short by lia.
    rewrite app_nil_r, <- !app_assoc. reflexivity.
Qed.

Lemma in_lines_fresh : in_lines fresh.
Proof. split; reflexivity. Qed.

Lemma in_lines_put_char (c : byte) (e : Ascii85Encoder) :
  is_break c = false -> in_lines e -> in_lines (put_char c e).
Proof.
  intros Hc [Ho Hcol]. unfold in_lines.
  rewrite (strip_put_char c e Hc), broken_snoc, <- Ho, length_app.
  cbn [List.length].
  pose proof (Nat.div_mod_eq (List.length (strip_breaks (m_output e))) 73) as Hn.
  pose proof (Nat.mod_upper_bound (List.length (strip_breaks (m_output e))) 73
                ltac:(lia)) as Hr.
  revert Hcol Hn Hr.
  generalize (List.length (strip_breaks (m_output e)) / 73)%nat.
  generalize (List.length (strip_breaks (m_output e)) mod 73)%nat at 1 2 3 4.
  intros r q Hcol Hn Hr.
  unfold put_char, lineWidth. rewrite Hcol.
  destruct (r =? 72)%nat eqn:E.
  - apply Nat.eqb_eq in E.
    replace (72 <=? Z.of_nat r) with true by (symmetry; apply Z.leb_le; lia).
    cbn [m_output m_column]. split; [now rewrite <- !app_assoc|].
    rewrite Hn. replace (73 * q + r + 1)%nat with (0 + (q + 1) * 73)%nat by lia.
    now rewrite Nat.Div0.mod_add.
  - apply Nat.eqb_neq in E.
    replace (72 <=? Z.of_nat r) with false by (symmetry; apply Z.leb_gt; lia).
    cbn [m_output m_column]. split; [now rewrite app_nil_r|].
    rewrite Hn. replace (73 * q + r + 1)%nat with (r + 1 + q * 73)%nat by lia.
    rewrite Nat.Div0.mod_add, Nat.mod_small by lia. lia.
Qed.

Lemma in_lines_EncodeTuple (v k : Z) (e : Ascii85Encoder) :
  in_lines e -> in_lines (EncodeTuple v k e).
Proof.
  rewrite Ascii85Facts.EncodeTuple_chars.
  generalize (seq 0 (Z.to_nat (k + 1))). intros l. revert e.
  induction l as [|i l IH]; intros e He; cbn [fold_left]; [exact He|].
  apply IH, in_lines_put_char; [|exact He].
  apply LinesFacts.digit_not_break, Ascii85Facts.dig_range.
Qed.

Lemma in_lines_same (e e' : Ascii85Encoder) :
  m_output e' = m_output e -> m_column e' = m_column e ->
  in_lines e -> in_lines e'.
Proof. unfold in_lines. now intros -> ->. Qed.

Lemma in_lines_EncodeByte (e : Ascii85Encoder) (c : byte) :
  in_lines e -> in_lines (EncodeByte e c).
Proof.
  intros He. unfold EncodeByte. cbv zeta.
  destruct (m_count e =? 0); [now apply (in_lines_same e)|].
  destruct (m_count e =? 1); [now apply (in_lines_same e)|].
  destruct (m_count e =? 2); [now apply (in_lines_same e)|].
  destruct (m_count e =? 3); [|now apply (in_lines_same e)].
  match goal with |- in_lines (set_count 0 (set_tuple 0 ?x)) =>
    apply (in_lines_same x); [reflexivity|reflexivity|] end.
  match goal with |- in_lines (if ?b then _ else _) => destruct b end.
  - apply in_lines_put_char; [reflexivity|]. now apply (in_lines_same e).
  - apply in_lines_EncodeTuple. now apply (in_lines_same e).
Qed.

Lemma in_lines_fold (data : list byte) :
  forall e, in_lines e -> in_lines (fold_left EncodeByte data e).
Proof.
  induction data as [|c data IH]; intros e He; cbn [fold_left]; [exact He|].
  apply IH, in_lines_EncodeByte, He.
Qed.

(** The state of [EncodeToAscii85] when the last partial group is out, and
    what is written after it. *)
Lemma terminate_output (e : Ascii85Encoder) :
  let e2 := if 0 <? m_count e
            then EncodeTuple (to_uint (m_tuple e)) (m_count e) e else e in
  m_output (terminate e)
  = m_output e2 ++ (if lineWidth <? m_column e2 + 2 then crlf else [])
    ++ str "~>" ++ crlf.
Proof.
  cbv zeta. unfold terminate. cbv zeta.
  match goal with |- context [if lineWidth <? ?c then _ else _] =>
    destruct (lineWidth <? c) end;
    unfold push_back; cbn [m_output]; rewrite <- !app_assoc; reflexivity.
Qed.

Lemma encode_broken (data : list byte) :
  encode data
  = match data with
    | [] => []
    | _ :: _ =>
        broken (plain_text data)
        ++ (if (71 <=? List.length (plain_text data) mod 73)%nat
            then crlf else [])
        ++ str "~>" ++ crlf
    end.
Proof.
  destruct data as [|b data]; [reflexivity|].
  pose proof (strip_encode (b :: data)) as Hs.
  unfold encode, EncodeToAscii85 in *.
  pose proof (in_lines_fold (b :: data) fresh in_lines_fresh) as He.
  revert Hs He. generalize (fold_left EncodeByte (b :: data) fresh).
  intros e Hs He. rewrite terminate_output in *. cbv zeta in *.
  assert (H2 : in_lines (if 0 <? m_count e
                         then EncodeTuple (to_uint (m_tuple e)) (m_count e) e
                         else e))
    by (destruct (0 <? m_count e); [now apply in_lines_EncodeTuple | exact He]).
  revert Hs H2.
  generalize (if 0 <? m_count e
              then EncodeTuple (to_uint (m_tuple e)) (m_count e) e else e).
  intros e2 Hs [Ho Hc].
  assert (Hp : strip_breaks (m_output e2) = plain_text (b :: data)).
  { rewrite !strip_app in Hs.
    change (strip_breaks crlf) with (@nil byte) in Hs.
    change (strip_breaks (str "~>")) with (str "~>") in Hs.
    destruct (lineWidth <? m_column e2 + 2);
      change (strip_breaks crlf) with (@nil byte) in Hs;
      change (strip_breaks []) with (@nil byte) in Hs;
      cbn [app] in Hs; rewrite app_nil_r in Hs;
      now apply app_inv_tail in Hs. }
  rewrite Hp in Ho, Hc. rewrite Ho, Hc. unfold lineWidth.
  pose proof (Nat.mod_upper_bound (List.length (plain_text (b :: data))) 73
                ltac:(lia)) as Hr.
  revert Hr. generalize (List.length (plain_text (b :: data)) mod 73)%nat.
  intros r Hr.
  destruct (71 <=? r)%nat eqn:E.
  - apply Nat.leb_le in E.
    replace (72 <? Z.of_nat r + 2) with true by (symmetry; apply Z.ltb_lt; lia).
    reflexivity.
  - apply Nat.leb_gt in E.
    replace (72 <? Z.of_nat r + 2) with false by (symmetry; apply Z.ltb_ge; lia).
    reflexivity.
Qed.

End PlainFacts.

(** ** The layout of the packed pixels, for every pixel size *)

Module ImageLayout.
Import Writer Spec Shapes ImageFacts.

Lemma copy_channels_run (k : nat) (pixels : list byte) :
  forall (A B : list byte) (i : Z),
  (k <= List.length B)%nat ->
  copy_channels k pixels (A ++ B, i, Z.of_nat (List.length A))
  = (A ++ row_bytes pixels i k ++ skipn k B,
     i + Z.of_nat k, Z.of_nat (List.length A + k)).
Proof.
  induction k as [|k IH]; intros A B i Hk.
  - cbn [copy_channels row_bytes seq map skipn app].
    now rewrite Z.add_0_r, Nat.add_0_r.
  - destruct B as [|b B]; [cbn [List.length] in Hk; lia|].
    cbn [copy_channels]. rewrite store_middle.
    replace (A ++ load i pixels :: B)
      with ((A ++ [load i pixels]) ++ B)
      by (now rewrite <- app_assoc).
    replace (Z.of_nat (List.length A) + 1)
      with (Z.of_nat (List.length (A ++ [load i pixels])))
      by (rewrite length_app; cbn [List.length]; lia).
    rewrite IH by (cbn [List.length] in Hk; lia).
    rewrite row_bytes_S, length_app. cbn [List.length skipn].
    rewrite <- app_assoc. cbn [app].
    f_equal; [f_equal; lia | f_equal; lia].
Qed.

Lemma row_bytes_length (pixels : list byte) (i : Z) (k : nat) :
  List.length (row_bytes pixels i k) = k.
Proof. unfold row_bytes. now rewrite length_map, length_seq. Qed.

Lemma skipn_repeat_app {A : Type} (a : A) (k : nat) (l : list A) :
  skipn k (repeat a k ++ l) = l.
Proof.
  rewrite skipn_app, repeat_length, Nat.sub_diag.
  rewrite skipn_all2 by (rewrite repeat_length; lia). reflexivity.
Qed.

Lemma row_bytes_firstn (pixels : list byte) (k c : nat) :
  (k + c <= List.length pixels)%nat ->
  row_bytes pixels (Z.of_nat k) c = firstn c (skipn k pixels).
Proof.
  revert k. induction c as [|c IH]; intros k Hk.
  - reflexivity.
  - rewrite row_bytes_S.
    replace (Z.of_nat k + 1) with (Z.of_nat (S k)) by lia.
    rewrite IH by lia.
    unfold load. rewrite Nat2Z.id.
    clear IH. revert k Hk. induction pixels as [|b pixels IHp]; intros k Hk.
    + cbn [List.length] in Hk. lia.
    + destruct k as [|k].
      * reflexivity.
      * cbn [nth skipn]. cbn [List.length] in Hk.
        rewrite <- IHp by lia. reflexivity.
Qed.

Section Layout.
Variable image : PDFImage.
(** [c] channels are copied for a pixel, [a] more bytes are stepped over in
    the input, and [p] bytes are reserved for it in the output. *)
Variables c a p : nat.
Hypothesis channels : (if m_bpp image =? 8 then 1 else 3) = Z.of_nat c.
Hypothesis alpha : (if m_bpp image =? 32 then 1 else 0) = Z.of_nat a.

Lemma copy_row_run (n : nat) :
  forall (x0 : nat) (A B : list byte) (i0 : Z),
  (n * c <= List.length B)%nat ->
  copy_row n image (Z.of_nat c)
    (A ++ B, i0 + Z.of_nat (x0 * (c + a)), Z.of_nat (List.length A))
  = (A ++ flat_map (fun x => row_bytes (m_pixels image)
                               (i0 + Z.of_nat (x * (c + a))) c) (seq x0 n)
       ++ skipn (n * c) B,
     i0 + Z.of_nat ((x0 + n) * (c + a)),
     Z.of_nat (List.length A + n * c)).
Proof.
  induction n as [|n IH]; intros x0 A B i0 Hn.
  - cbn [copy_row seq flat_map Nat.mul skipn app].
    now rewrite !Nat.add_0_r.
  - cbn [copy_row]. rewrite Nat2Z.id.
    rewrite copy_channels_run by lia.
    replace (if m_bpp image =? 32
             then i0 + Z.of_nat (x0 * (c + a)) + Z.of_nat c + 1
             else i0 + Z.of_nat (x0 * (c + a)) + Z.of_nat c)
      with (i0 + Z.of_nat (S x0 * (c + a)))
      by (revert alpha; destruct (m_bpp image =? 32); intros; lia).
    rewrite app_assoc.
    replace (Z.of_nat (List.length A + c))
      with (Z.of_nat (List.length
              (A ++ row_bytes (m_pixels image)
                      (i0 + Z.of_nat (x0 * (c + a))) c)))
      by (now rewrite length_app, row_bytes_length).
    rewrite IH by (rewrite length_skipn; lia).
    cbn [seq flat_map]. rewrite length_app, row_bytes_length.
    rewrite skipn_skipn, <- !app_assoc.
    f_equal; [f_equal|].
    + replace (S n * c)%nat with (n * c + c)%nat by lia. reflexivity.
    + f_equal. f_equal. lia.
    + f_equal. lia.
Qed.

Lemma copy_row_from (n : nat) (A B : list byte) (i0 : Z) :
  (n * c <= List.length B)%nat ->
  fst (fst (copy_row n image (Z.of_nat c)
              (A ++ B, i0, Z.of_nat (List.length A))))
  = A ++ flat_map (fun x => row_bytes (m_pixels image)
                              (i0 + Z.of_nat (x * (c + a))) c) (seq 0 n)
      ++ skipn (n * c) B.
Proof.
  intros Hn. pose proof (copy_row_run n 0 A B i0 Hn) as E.
  cbn [Nat.mul Z.of_nat] in E. rewrite Z.add_0_r in E.
  now rewrite E.
Qed.

Variables w h s : nat.
Hypothesis bpp : m_bpp image = 8 * Z.of_nat p.
Hypothesis fits : (c <= p)%nat.
Hypothesis width : m_numX image = Z.of_nat w.
Hypothesis height : m_numY image = Z.of_nat h.
Hypothesis stride : m_stride image = Z.of_nat s.
Hypothesis no_wrap_out : Z.of_nat (h * w) * (8 * Z.of_nat p) < 2 ^ 64.
Hypothesis no_wrap_in : Z.of_nat (h * s) < 2 ^ 64.

Lemma one_channel : (1 <= p)%nat.
Proof. revert channels. destruct (m_bpp image =? 8); lia. Qed.

Lemma rows_no_wrap (y0 : nat) :
  (y0 <= h)%nat ->
  0 <= Z.of_nat y0 * Z.of_nat w < 2 ^ 64 /\
  0 <= Z.of_nat y0 * Z.of_nat w * (8 * Z.of_nat p) < 2 ^ 64.
Proof.
  intros Hy. pose proof one_channel as Hp.
  assert (H1 : (y0 * w <= h * w)%nat) by (apply Nat.mul_le_mono_r; lia).
  assert (H2 : Z.of_nat (y0 * w) * (8 * Z.of_nat p)
               <= Z.of_nat (h * w) * (8 * Z.of_nat p))
    by (apply Z.mul_le_mono_nonneg_r; lia).
  assert (H3 : Z.of_nat (y0 * w) * 1 <= Z.of_nat (y0 * w) * (8 * Z.of_nat p))
    by (apply Z.mul_le_mono_nonneg_l; lia).
  rewrite Nat2Z.inj_mul in H2, H3. lia.
Qed.

Lemma row_step_run (y0 : nat) (A R : list byte) :
  (y0 < h)%nat -> List.length A = (y0 * (w * p))%nat ->
  row_step image (A ++ repeat x00 (w * p) ++ R) y0
  = A ++ (flat_map (fun x => row_bytes (m_pixels image)
                              (Z.of_nat (y0 * s) + Z.of_nat (x * (c + a))) c)
                   (seq 0 w)
          ++ repeat x00 (w * (p - c))) ++ R.
Proof.
  intros Hy HA.
  assert (Hin : size_t (Z.of_nat y0 * m_stride image) = Z.of_nat (y0 * s)).
  { rewrite stride. unfold size_t. rewrite Z.mod_small; nia. }
  assert (Hout : size_t (size_t (Z.of_nat y0 * m_numX image) * m_bpp image) / 8
                 = Z.of_nat (List.length A)).
  { rewrite width, bpp, HA. unfold size_t.
    destruct (rows_no_wrap y0 ltac:(lia)) as [W1 W2].
    rewrite (Z.mod_small (Z.of_nat y0 * Z.of_nat w)) by exact W1.
    rewrite Z.mod_small by exact W2.
    replace (Z.of_nat y0 * Z.of_nat w * (8 * Z.of_nat p))
      with (Z.of_nat (y0 * (w * p)) * 8) by nia.
    now rewrite Z.div_mul by lia. }
  unfold row_step. cbv zeta. rewrite Hin, Hout, channels, width, Nat2Z.id.
  replace (w * p)%nat with (w * c + w * (p - c))%nat by nia.
  rewrite repeat_app, <- !app_assoc.
  match goal with |- context [copy_row ?n ?im ?ch (?A0 ++ ?B0, ?i, ?o)] =>
    pose proof (copy_row_from n A0 B0 i) as E;
    destruct (copy_row n im ch (A0 ++ B0, i, o)) as [[raw i'] o'] end.
  cbn [fst] in E. rewrite E by (rewrite length_app, repeat_length; lia).
  now rewrite skipn_repeat_app.
Qed.

Lemma rows_run (n : nat) :
  forall (y0 : nat) (A : list byte),
  (y0 + n <= h)%nat -> List.length A = (y0 * (w * p))%nat ->
  fold_left (row_step image) (seq y0 n) (A ++ repeat x00 (n * (w * p)))
  = A ++ flat_map
           (fun y =>
              flat_map (fun x => row_bytes (m_pixels image)
                          (Z.of_nat (y * s) + Z.of_nat (x * (c + a))) c)
                       (seq 0 w)
              ++ repeat x00 (w * (p - c)))
           (seq y0 n).
Proof.
  induction n as [|n IH]; intros y0 A Hy HA.
  - cbn [seq fold_left flat_map Nat.mul repeat]. reflexivity.
  - cbn [seq fold_left flat_map].
    replace (S n * (w * p))%nat with (w * p + n * (w * p))%nat by lia.
    rewrite repeat_app, row_step_run by lia.
    rewrite app_assoc, IH.
    + now rewrite <- app_assoc.
    + lia.
    + rewrite !length_app, repeat_length.
      rewrite (length_flat_map_const _ _ c)
        by (intros x; apply row_bytes_length).
      rewrite length_seq. nia.
Qed.

Hypothesis stride_wide : (w * (c + a) <= s)%nat.
Hypothesis pixels_long : (h * s <= List.length (m_pixels image))%nat.

Lemma pack_pixels_layout :
  pack_pixels image
  = flat_map
      (fun row =>
         flat_map (fun col =>
                     firstn c (skipn (row * s + col * (c + a)) (m_pixels image)))
                  (seq 0 w)
         ++ repeat x00 (w * (p - c)))
      (seq 0 h).
Proof.
  rewrite pack_pixels_rows, height, width, bpp, Nat2Z.id.
  replace (Z.to_nat (size_t (size_t (Z.of_nat h * Z.of_nat w)
                             * (8 * Z.of_nat p)) / 8))
    with (h * (w * p))%nat.
  2:{ unfold size_t. destruct (rows_no_wrap h ltac:(lia)) as [W1 W2].
      rewrite (Z.mod_small (Z.of_nat h * Z.of_nat w)) by exact W1.
      rewrite Z.mod_small by exact W2.
      replace (Z.of_nat h * Z.of_nat w * (8 * Z.of_nat p))
        with (Z.of_nat (h * (w * p)) * 8) by nia.
      rewrite Z.div_mul by lia. lia. }
  change (repeat x00 (h * (w * p))) with ([] ++ repeat x00 (h * (w * p))).
  rewrite (rows_run h 0 []) by (cbn [List.length]; lia).
  cbn [app]. apply flat_map_ext_on. intros y Hy. apply in_seq in Hy.
  f_equal. apply flat_map_ext_on. intros x Hx. apply in_seq in Hx.
  rewrite <- Nat2Z.inj_add. apply row_bytes_firstn.
  assert (H1 : (S x * (c + a) <= w * (c + a))%nat) by (apply Nat.mul_le_mono_r; lia).
  assert (H2 : (S y * s <= h * s)%nat) by (apply Nat.mul_le_mono_r; lia).
  lia.
Qed.

End Layout.

(** A 24-bit image: three bytes for each pixel, rows packed tightly. *)
Lemma pack_pixels_24bit (image : PDFImage) (w h s : nat) :
  m_bpp image = 24 ->
  m_numX image = Z.of_nat w -> m_numY image = Z.of_nat h ->
  m_stride image = Z.of_nat s ->
  Z.of_nat (h * w) * 24 < 2 ^ 64 -> Z.of_nat (h * s) < 2 ^ 64 ->
  (w * 3 <= s)%nat -> (h * s <= List.length (m_pixels image))%nat ->
  pack_pixels image = packed_rows w h 3 3 s (m_pixels image) /\
  List.length (pack_pixels image) = (3 * w * h)%nat.
Proof.
  intros Hb Hw Hh Hs Ho Hi Hsw Hl.
  assert (E : pack_pixels image = packed_rows w h 3 3 s (m_pixels image)).
  { assert (Hc : (if m_bpp image =? 8 then 1 else 3) = Z.of_nat 3)
      by (rewrite Hb; reflexivity).
    assert (Ha : (if m_bpp image =? 32 then 1 else 0) = Z.of_nat 0)
      by (rewrite Hb; reflexivity).
    rewrite (pack_pixels_layout image 3 0 3 Hc Ha w h s)
      by (assumption || lia).
    unfold packed_rows. apply flat_map_ext_on. intros y _.
    rewrite Nat.sub_diag, Nat.mul_0_r. cbn [repeat]. now rewrite app_nil_r. }
  split; [exact E|].
  rewrite pack_pixels_length, Hb, Hw, Hh. unfold size_t.
  rewrite (Z.mod_small (Z.of_nat h * Z.of_nat w)) by nia.
  rewrite Z.mod_small by nia.
  replace (Z.of_nat h * Z.of_nat w * 24) with (Z.of_nat (3 * w * h) * 8) by nia.
  rewrite Z.div_mul by lia. lia.
Qed.

(** A 32-bit image: each row is the three colour bytes of its pixels
    followed by one zero byte for each pixel. *)
Lemma pack_pixels_32bit (image : PDFImage) (w h s : nat) :
  m_bpp image = 32 ->
  m_numX image = Z.of_nat w -> m_numY image = Z.of_nat h ->
  m_stride image = Z.of_nat s ->
  Z.of_nat (h * w) * 32 < 2 ^ 64 -> Z.of_nat (h * s) < 2 ^ 64 ->
  (w * 4 <= s)%nat -> (h * s <= List.length (m_pixels image))%nat ->
  pack_pixels image
  = flat_map
      (fun row => packed_rows w 1 3 4 0 (skipn (row * s) (m_pixels image))
                  ++ repeat x00 w)
      (seq 0 h).
Proof.
  intros Hb Hw Hh Hs Ho Hi Hsw Hl.
  assert (Hc : (if m_bpp image =? 8 then 1 else 3) = Z.of_nat 3)
    by (rewrite Hb; reflexivity).
  assert (Ha : (if m_bpp image =? 32 then 1 else 0) = Z.of_nat 1)
    by (rewrite Hb; reflexivity).
  rewrite (pack_pixels_layout image 3 1 4 Hc Ha w h s) by (assumption || lia).
  apply flat_map_ext_on. intros y _.
  unfold packed_rows. cbn [seq flat_map]. rewrite app_nil_r.
  replace (w * (4 - 3))%nat with w by lia. f_equal.
  apply flat_map_ext_on. intros x _.
  rewrite skipn_skipn. do 2 f_equal. lia.
Qed.

End ImageLayout.

(** ** The file as it grows *)

Module LayoutFacts.
Import Accumulator Writer Spec Shapes Layout WriterFacts.

Ltac members :=
  cbn [m_file m_crossRefs m_objNumber m_contentsObjNumber m_xobjectObjNumber
       m_pagesObjNumber m_images m_compressImages m_compressContent
       m_lineStyle m_fillStyle m_textStyle m_contentStream
       m_pageObjectNumbers closed_files m_catalogObjNumber
       m_pageMinimumPoints m_pageMaximumPoints
       fprintf fwrite push_crossRef content_Printf
       set_file set_crossRefs set_objNumber set_pageObjectNumbers
       set_contentsObjNumber set_xobjectObjNumber set_contentStream
       set_images set_lineStyle set_fillStyle set_textStyle
       set_compressImages set_compressContent set_catalogObjNumber
       set_pagesObjNumber set_closed_files set_pageMinimumPoints
       set_pageMaximumPoints].

Ltac members_in H :=
  cbn [m_file m_crossRefs m_objNumber m_contentsObjNumber m_xobjectObjNumber
       m_pagesObjNumber m_images m_compressImages m_compressContent
       m_lineStyle m_fillStyle m_textStyle m_contentStream
       m_pageObjectNumbers closed_files m_catalogObjNumber
       m_pageMinimumPoints m_pageMaximumPoints
       fprintf fwrite push_crossRef content_Printf
       set_file set_crossRefs set_objNumber set_pageObjectNumbers
       set_contentsObjNumber set_xobjectObjNumber set_contentStream
       set_images set_lineStyle set_fillStyle set_textStyle
       set_compressImages set_compressContent set_catalogObjNumber
       set_pagesObjNumber set_closed_files set_pageMinimumPoints
       set_pageMaximumPoints] in H.

Lemma starts_with_app (p l t : list byte) :
  starts_with p l = true -> starts_with p (l ++ t) = true.
Proof.
  revert l. induction p as [|a p IH]; intros l H; [reflexivity|].
  destruct l as [|b l]; [discriminate|].
  cbn [starts_with app] in *. apply andb_true_iff in H. destruct H as [H1 H2].
  rewrite H1. cbn [andb]. now apply IH.
Qed.

Lemma starts_with_self (p t : list byte) : starts_with p (p ++ t) = true.
Proof.
  induction p as [|a p IH]; [reflexivity|].
  cbn [starts_with app]. rewrite IH, andb_true_r.
  now destruct a.
Qed.

Lemma object_at_app (f t : list byte) (r : PDFCrossRef) :
  object_at f r = true -> object_at (f ++ t) r = true.
Proof.
  unfold object_at. intros H. apply andb_true_iff in H. destruct H as [H1 H2].
  rewrite H1. cbn [andb]. rewrite skipn_app.
  now apply starts_with_app.
Qed.

Lemma object_at_new (f t : list byte) (n : Z) :
  object_at ((f ++ crlf) ++ header n ++ t)
            (mkCrossRef n (Z.of_nat (List.length (f ++ crlf)))) = true.
Proof.
  unfold object_at. cbn [m_offset m_objnum].
  rewrite length_app. cbn [List.length crlf].
  replace (2 <=? Z.of_nat (List.length f + 2)) with true
    by (symmetry; apply Z.leb_le; lia).
  cbn [andb].
  replace (Z.to_nat (Z.of_nat (List.length f + 2) - 2)) with (List.length f)
    by lia.
  rewrite <- app_assoc, skipn_app, skipn_all, Nat.sub_diag.
  cbn [skipn app]. apply (starts_with_self ([CR; LF] ++ header n) t).
Qed.

Lemma some_eq {A : Type} (a b : A) : Some a = Some b -> a = b.
Proof. intros H. now injection H. Qed.

Lemma ok_eq {A : Type} (a b : A) : Ok a = Ok b -> a = b.
Proof. intros H. now injection H. Qed.

Section WithRuntime.
Context {RT : Runtime}.

Lemma recorded_app (file t : list byte) (r : PDFCrossRef) :
  recorded file r -> recorded (file ++ t) r.
Proof.
  intros [H|(p & Hp & Hr)].
  - left. now apply object_at_app.
  - right. exists p. split; [|exact Hr]. rewrite length_app. lia.
Qed.


(** The record that [push_crossRef] makes after a line break, once the
    header of the object is written. *)
Lemma recorded_new (f t : list byte) (n : Z) :
  recorded ((f ++ crlf) ++ header n ++ t)
    (mkCrossRef n
       (size_t (if Z.of_nat (List.length (f ++ crlf)) <=? LONG_MAX
                then Z.of_nat (List.length (f ++ crlf))
                else long (ftell_beyond (Z.of_nat (List.length (f ++ crlf))))))).
Proof.
  destruct (Z.leb_spec (Z.of_nat (List.length (f ++ crlf))) LONG_MAX) as [Hs|Hs].
  - left. unfold size_t. rewrite Z.mod_small.
    + apply object_at_new.
    + unfold LONG_MAX in Hs. lia.
  - right. exists (Z.of_nat (List.length (f ++ crlf))). split; [|reflexivity].
    rewrite (length_app (f ++ crlf)). lia.
Qed.

Lemma grows_refl (st : Draw2pdf) (f : list byte) :
  m_file st = Some f -> grows st st.
Proof.
  intros H. exists f, [], []. rewrite !app_nil_r. repeat split; auto.
Qed.

Lemma grows_trans (a b c : Draw2pdf) : grows a b -> grows b c -> grows a c.
Proof.
  intros (f & t & new & Ha & Hb & Hx & Hn) (f' & t' & new' & Hb' & Hc & Hx' & Hn').
  rewrite Hb in Hb'. injection Hb' as <-.
  exists f, (t ++ t'), (new ++ new'). rewrite app_assoc.
  repeat split; auto.
  - rewrite Hx', Hx. now rewrite app_assoc.
  - apply Forall_app. split; [|exact Hn'].
    eapply Forall_impl; [|exact Hn]. intros r. apply recorded_app.
Qed.

Lemma grows_fprintf (text : list byte) (a s : Draw2pdf) :
  grows a s -> grows a (fprintf text s).
Proof.
  intros (f & t & new & Ha & Hs & Hx & Hn).
  exists f, (t ++ text), new. rewrite app_assoc.
  repeat split; auto.
  - unfold fprintf. cbn [m_file set_file]. now rewrite Hs.
  - eapply Forall_impl; [|exact Hn]. intros r. apply recorded_app.
Qed.

Lemma grows_obj (m n : Z) (a s : Draw2pdf) :
  grows a s -> m = n ->
  grows a (fprintf (dec m ++ line " 0 obj") (push_crossRef n (fprintf crlf s))).
Proof.
  intros (f & t & new & Ha & Hs & Hx & Hn) ->.
  exists f, (t ++ crlf ++ header n),
         (new ++ [mkCrossRef n (size_t (ftell (fprintf crlf s)))]).
  repeat split; auto.
  - unfold fprintf, push_crossRef. cbn [m_file set_file set_crossRefs].
    rewrite Hs. cbn [option_map]. unfold header.
    now rewrite <- !app_assoc.
  - change (m_crossRefs s ++ [mkCrossRef n (size_t (ftell (fprintf crlf s)))]
            = m_crossRefs a
              ++ new ++ [mkCrossRef n (size_t (ftell (fprintf crlf s)))]).
    rewrite Hx. now rewrite app_assoc.
  - apply Forall_app. split.
    + eapply Forall_impl; [|exact Hn]. intros r Hr.
      rewrite app_assoc. now apply recorded_app.
    + constructor; [|constructor].
      unfold ftell, fprintf. cbn [m_file set_file]. rewrite Hs.
      cbn [option_map]. cbv zeta.
      pose proof (recorded_new (f ++ t) [] n) as E.
      rewrite app_nil_r in E.
      replace (f ++ t ++ crlf ++ header n)
        with (((f ++ t) ++ crlf) ++ header n) by now rewrite <- !app_assoc.
      exact E.
Qed.

Lemma grows_same (a s s' : Draw2pdf) :
  m_file s' = m_file s -> m_crossRefs s' = m_crossRefs s ->
  grows a s -> grows a s'.
Proof.
  intros Hf Hx (f & t & new & Ha & Hs & Hx' & Hn).
  exists f, t, new. rewrite Hf, Hx. auto.
Qed.

Lemma grows_fold {A : Type} (body : Draw2pdf -> A -> Draw2pdf) (a : Draw2pdf) :
  (forall x s, grows a s -> grows a (body s x)) ->
  forall l s, grows a s -> grows a (fold_left body l s).
Proof.
  intros H l. induction l as [|x l IH]; intros s Hs; cbn [fold_left]; auto.
Qed.

Lemma grows_for_images (body : Z -> Draw2pdf -> Draw2pdf) (a s : Draw2pdf) :
  (forall i s, grows a s -> grows a (body i s)) ->
  grows a s -> grows a (for_images body s).
Proof.
  intros H Hs. unfold for_images.
  apply (grows_fold (fun st index => body (Z.of_nat index) st)); auto.
Qed.

Lemma grows_set_objNumber v (a s : Draw2pdf) :
  grows a s -> grows a (set_objNumber v s).
Proof. now apply grows_same. Qed.

Lemma grows_set_pageObjectNumbers v (a s : Draw2pdf) :
  grows a s -> grows a (set_pageObjectNumbers v s).
Proof. now apply grows_same. Qed.

Lemma grows_set_contentsObjNumber v (a s : Draw2pdf) :
  grows a s -> grows a (set_contentsObjNumber v s).
Proof. now apply grows_same. Qed.

Lemma grows_set_xobjectObjNumber v (a s : Draw2pdf) :
  grows a s -> grows a (set_xobjectObjNumber v s).
Proof. now apply grows_same. Qed.

Lemma grows_set_contentStream v (a s : Draw2pdf) :
  grows a s -> grows a (set_contentStream v s).
Proof. now apply grows_same. Qed.

Lemma grows_set_images v (a s : Draw2pdf) :
  grows a s -> grows a (set_images v s).
Proof. now apply grows_same. Qed.

Lemma grows_set_catalogObjNumber v (a s : Draw2pdf) :
  grows a s -> grows a (set_catalogObjNumber v s).
Proof. now apply grows_same. Qed.

Lemma grows_set_pagesObjNumber v (a s : Draw2pdf) :
  grows a s -> grows a (set_pagesObjNumber v s).
Proof. now apply grows_same. Qed.

Lemma grows_set_lineStyle v (a s : Draw2pdf) :
  grows a s -> grows a (set_lineStyle v s).
Proof. now apply grows_same. Qed.

Lemma grows_set_fillStyle v (a s : Draw2pdf) :
  grows a s -> grows a (set_fillStyle v s).
Proof. now apply grows_same. Qed.

Lemma grows_set_textStyle v (a s : Draw2pdf) :
  grows a s -> grows a (set_textStyle v s).
Proof. now apply grows_same. Qed.

Lemma grows_set_compressImages v (a s : Draw2pdf) :
  grows a s -> grows a (set_compressImages v s).
Proof. now apply grows_same. Qed.

Lemma grows_set_compressContent v (a s : Draw2pdf) :
  grows a s -> grows a (set_compressContent v s).
Proof. now apply grows_same. Qed.

Lemma grows_set_pageMinimumPoints v (a s : Draw2pdf) :
  grows a s -> grows a (set_pageMinimumPoints v s).
Proof. now apply grows_same. Qed.

Lemma grows_set_pageMaximumPoints v (a s : Draw2pdf) :
  grows a s -> grows a (set_pageMaximumPoints v s).
Proof. now apply grows_same. Qed.

Lemma grows_obj_contentsObjNumber (a s : Draw2pdf) :
  grows a s ->
  grows a (fprintf
             (dec (m_contentsObjNumber
                     (push_crossRef (m_contentsObjNumber (fprintf crlf s)) (fprintf crlf s)))
              ++ line " 0 obj")
             (push_crossRef (m_contentsObjNumber (fprintf crlf s)) (fprintf crlf s))).
Proof. intros H. now apply grows_obj. Qed.

Lemma grows_obj_xobjectObjNumber (a s : Draw2pdf) :
  grows a s ->
  grows a (fprintf
             (dec (m_xobjectObjNumber
                     (push_crossRef (m_xobjectObjNumber (fprintf crlf s)) (fprintf crlf s)))
              ++ line " 0 obj")
             (push_crossRef (m_xobjectObjNumber (fprintf crlf s)) (fprintf crlf s))).
Proof. intros H. now apply grows_obj. Qed.

Lemma grows_obj_pagesObjNumber (a s : Draw2pdf) :
  grows a s ->
  grows a (fprintf
             (dec (m_pagesObjNumber
                     (push_crossRef (m_pagesObjNumber (fprintf crlf s)) (fprintf crlf s)))
              ++ line " 0 obj")
             (push_crossRef (m_pagesObjNumber (fprintf crlf s)) (fprintf crlf s))).
Proof. intros H. now apply grows_obj. Qed.

Lemma grows_obj_catalogObjNumber (a s : Draw2pdf) :
  grows a s ->
  grows a (fprintf
             (dec (m_catalogObjNumber
                     (push_crossRef (m_catalogObjNumber (fprintf crlf s)) (fprintf crlf s)))
              ++ line " 0 obj")
             (push_crossRef (m_catalogObjNumber (fprintf crlf s)) (fprintf crlf s))).
Proof. intros H. now apply grows_obj. Qed.

Lemma grows_obj_same (n : Z) (a s : Draw2pdf) :
  grows a s ->
  grows a (fprintf (dec n ++ line " 0 obj") (push_crossRef n (fprintf crlf s))).
Proof. intros H. now apply grows_obj. Qed.

Ltac grow_step :=
  lazymatch goal with
  | |- grows _ (fprintf _ (push_crossRef _ (fprintf _ _))) =>
      first [ apply grows_obj_same | apply grows_obj_contentsObjNumber
            | apply grows_obj_xobjectObjNumber | apply grows_obj_pagesObjNumber
            | apply grows_obj_catalogObjNumber ]
  | |- grows _ (fprintf _ _) => apply grows_fprintf
  | |- grows _ (fwrite _ _) => apply grows_fprintf
  | |- grows _ (if ?b then _ else _) => destruct b
  | |- grows _ (set_objNumber _ _) => apply grows_set_objNumber
  | |- grows _ (set_pageObjectNumbers _ _) => apply grows_set_pageObjectNumbers
  | |- grows _ (set_contentsObjNumber _ _) => apply grows_set_contentsObjNumber
  | |- grows _ (set_xobjectObjNumber _ _) => apply grows_set_xobjectObjNumber
  | |- grows _ (set_contentStream _ _) => apply grows_set_contentStream
  | |- grows _ (set_images _ _) => apply grows_set_images
  | |- grows _ (set_catalogObjNumber _ _) => apply grows_set_catalogObjNumber
  | |- grows _ (set_pagesObjNumber _ _) => apply grows_set_pagesObjNumber
  | |- grows _ (set_lineStyle _ _) => apply grows_set_lineStyle
  | |- grows _ (set_fillStyle _ _) => apply grows_set_fillStyle
  | |- grows _ (set_textStyle _ _) => apply grows_set_textStyle
  | |- grows _ (set_compressImages _ _) => apply grows_set_compressImages
  | |- grows _ (set_compressContent _ _) => apply grows_set_compressContent
  | |- grows _ (set_pageMinimumPoints _ _) => apply grows_set_pageMinimumPoints
  | |- grows _ (set_pageMaximumPoints _ _) => apply grows_set_pageMaximumPoints
  end.

Lemma grows_DoBeginPage (a s : Draw2pdf) : grows a s -> grows a (DoBeginPage s).
Proof.
  intros H. unfold DoBeginPage. cbv zeta. repeat grow_step. exact H.
Qed.

Lemma grows_DoWriteImage (index : Z) (c : bool) (a s : Draw2pdf) :
  grows a s -> grows a (DoWriteImage index c s).
Proof.
  intros H. unfold DoWriteImage. cbv zeta.
  destruct (encode_image _ _) as [filter encoded].
  repeat grow_step; exact H.
Qed.

Lemma grows_DoEndPage (a s : Draw2pdf) : grows a s -> grows a (DoEndPage s).
Proof.
  intros H. unfold DoEndPage. cbv zeta.
  do 2 grow_step.
  apply grows_for_images; [intros i s' Hs'; now apply grows_DoWriteImage|].
  do 2 grow_step.
  apply grows_for_images; [intros i s' Hs'; now apply grows_fprintf|].
  repeat grow_step; exact H.
Qed.

Lemma grows_write_pages_object (a s : Draw2pdf) :
  grows a s -> grows a (write_pages_object s).
Proof.
  intros H. unfold write_pages_object. cbv zeta.
  do 4 grow_step.
  apply grows_fold; [intros x s' Hs'; now apply grows_fprintf|].
  repeat grow_step. exact H.
Qed.

(** *** What the file and the records are after a call *)

Lemma grows_open (a s : Draw2pdf) : grows a s -> exists f, m_file s = Some f.
Proof. intros (f & t & new & _ & H & _). eauto. Qed.

Lemma grows_file (a s : Draw2pdf) (f : list byte) :
  grows a s -> m_file a = Some f ->
  exists t new,
    m_file s = Some (f ++ t) /\ m_crossRefs s = m_crossRefs a ++ new.
Proof.
  intros (f' & t & new & Ha & Hs & Hx & _) Hf.
  rewrite Hf in Ha. injection Ha as <-. eauto.
Qed.

Lemma offsets_grows (a s : Draw2pdf) : grows a s -> offsets_ok a -> offsets_ok s.
Proof.
  intros (f & t & new & Ha & Hs & Hx & Hn) (f' & Hf' & Hall).
  rewrite Ha in Hf'. injection Hf' as <-.
  exists (f ++ t). split; [exact Hs|]. rewrite Hx.
  apply Forall_app. split; [|exact Hn].
  eapply Forall_impl; [|exact Hall]. intros r. apply recorded_app.
Qed.

Lemma written_content_Printf (text : list byte) (st : Draw2pdf) :
  written (content_Printf text st) = written st.
Proof. reflexivity. Qed.

Lemma written_path_loop (first : bool) (points : list PDFPoint) (st : Draw2pdf) :
  written (path_loop first points st) = written st.
Proof.
  revert first st. induction points as [|p points IH]; intros first st;
    cbn [path_loop]; [reflexivity|].
  now rewrite IH, written_content_Printf.
Qed.

Lemma written_DrawPolyline (points : list PDFPoint) (st : Draw2pdf) :
  written (DrawPolyline points st) = written st.
Proof.
  unfold DrawPolyline. destruct (line_is _ st); [reflexivity|].
  now rewrite written_content_Printf, written_path_loop.
Qed.

Lemma written_DrawPolygon (points : list PDFPoint) (st : Draw2pdf) :
  written (DrawPolygon points st) = written st.
Proof.
  unfold DrawPolygon. cbv zeta.
  repeat match goal with |- context [if ?b then _ else _] => destruct b end;
    rewrite ?written_content_Printf, ?written_path_loop; reflexivity.
Qed.

Lemma written_DrawTextString (p : PDFPoint) (t : wstring) (st : Draw2pdf) :
  written (DrawTextString p t st) = written st.
Proof. unfold DrawTextString. cbv zeta. now rewrite !written_content_Printf. Qed.

Lemma written_DrawImage (image : PDFImage) (dx dy dw dh : double) (st : Draw2pdf) :
  written (DrawImage image dx dy dw dh st) = written st.
Proof. unfold DrawImage. cbv zeta. now rewrite !written_content_Printf. Qed.

Lemma written_SetLineStyle (style : PDFLineStyle.t) (st : Draw2pdf) :
  written (SetLineStyle style st) = written st.
Proof. unfold SetLineStyle. cbv zeta. now rewrite !written_content_Printf. Qed.

Lemma written_SetFillStyle (style : PDFFillStyle.t) (st : Draw2pdf) :
  written (SetFillStyle style st) = written st.
Proof. unfold SetFillStyle. cbv zeta. now rewrite !written_content_Printf. Qed.

Lemma written_do_call (c : call) (st : Draw2pdf) :
  is_next_page c = false ->
  exists st', do_call c st = Ok st' /\ written st' = written st.
Proof.
  intros Hc. destruct c; try discriminate; cbn [do_call];
    (eexists; split; [reflexivity|]).
  - apply written_SetLineStyle.
  - apply written_SetFillStyle.
  - reflexivity.
  - unfold DrawLine. apply written_DrawPolyline.
  - apply written_DrawPolyline.
  - apply written_DrawPolygon.
  - unfold DrawRectangle. cbv zeta. apply written_DrawPolygon.
  - apply written_DrawTextString.
  - apply written_DrawImage.
  - unfold DrawImage_pixels. cbv zeta. apply written_DrawImage.
  - reflexivity.
  - reflexivity.
Qed.

Lemma written_grows (st st' : Draw2pdf) (f : list byte) :
  written st' = written st -> m_file st = Some f -> grows st st'.
Proof.
  intros H Hf.
  assert (H1 : m_file st' = m_file st)
    by exact (f_equal (fun w => fst (fst (fst (fst (fst w))))) H).
  assert (H2 : m_crossRefs st' = m_crossRefs st)
    by exact (f_equal (fun w => snd (fst (fst (fst (fst w))))) H).
  apply (grows_same st st st' H1 H2). now apply (grows_refl st f).
Qed.

Lemma grows_NextPage (st : Draw2pdf) (f : list byte) :
  m_file st = Some f ->
  exists st', NextPage st = Ok st' /\ grows st st'.
Proof.
  intros Hf. unfold NextPage. rewrite Hf. eexists. split; [reflexivity|].
  apply grows_DoBeginPage, grows_DoEndPage. now apply (grows_refl st f).
Qed.

Lemma grows_do_call (c : call) (st : Draw2pdf) (f : list byte) :
  m_file st = Some f ->
  exists st', do_call c st = Ok st' /\ grows st st'.
Proof.
  intros Hf. destruct (is_next_page c) eqn:E.
  - destruct c; try discriminate. now apply (grows_NextPage st f).
  - destruct (written_do_call c st E) as (st' & H1 & H2).
    exists st'. split; [exact H1|]. now apply (written_grows st st' f).
Qed.

Lemma grows_do_calls (calls : list call) :
  forall (st : Draw2pdf) (f : list byte),
  m_file st = Some f ->
  exists st', do_calls calls st = Ok st' /\ grows st st'.
Proof.
  induction calls as [|c calls IH]; intros st f Hf; cbn [do_calls].
  - exists st. split; [reflexivity|]. now apply (grows_refl st f).
  - destruct (grows_do_call c st f Hf) as (st1 & -> & H1).
    destruct (grows_open st st1 H1) as [f1 Hf1].
    destruct (IH st1 f1 Hf1) as (st2 & H2 & H3).
    exists st2. split; [exact H2|]. now apply (grows_trans st st1 st2).
Qed.

(** *** The file that [Open] starts *)

Lemma grows_Open (id : Z) (filename : wstring) (pmin pmax : PDFPoint) :
  exists st,
    Open true id filename pmin pmax initial = Ok st /\
    grows (set_file (Some [])
             (set_pageMaximumPoints pmax (set_pageMinimumPoints pmin initial)))
          st.
Proof.
  unfold Open. cbv zeta. cbn [negb].
  change (Close id initial) with initial.
  eexists. split; [reflexivity|].
  apply grows_DoBeginPage. repeat grow_step.
  now apply (grows_refl _ []).
Qed.

Lemma offsets_Open (id : Z) (filename : wstring) (pmin pmax : PDFPoint) :
  exists st,
    Open true id filename pmin pmax initial = Ok st /\ offsets_ok st.
Proof.
  destruct (grows_Open id filename pmin pmax) as (st & H & Hg).
  exists st. split; [exact H|].
  apply (offsets_grows _ _ Hg). exists []. split; [reflexivity|constructor].
Qed.

(** *** The end of the file *)

Lemma sdec_nonneg (z : Z) : 0 <= z -> sdec z = dec z.
Proof.
  intros H. unfold sdec, sdec_pad.
  replace (z <? 0) with false by (symmetry; apply Z.ltb_ge; lia).
  reflexivity.
Qed.

Lemma write_trailer_text (id off : Z) (st : Draw2pdf) :
  m_file (write_trailer id off st)
  = option_map
      (fun f =>
         f ++ line "trailer" ++ line "<< "
           ++ (str "/ID[<" ++ sdec_pad 32 id ++ str "><" ++ sdec_pad 32 id
               ++ line ">]")
           ++ (str "/Size " ++ dec (Z.of_nat (List.length (m_crossRefs st)) + 1)
               ++ line " /Root 1 0 R >>")
           ++ line "startxref" ++ (sdec off ++ crlf) ++ line "%%EOF")
      (m_file st).
Proof.
  unfold write_trailer. cbv zeta. members.
  destruct (m_file st); cbn [option_map]; [|reflexivity].
  now rewrite <- !app_assoc.
Qed.

Lemma finish_file_text (id : Z) (st : Draw2pdf) (f : list byte) :
  m_file (write_pages_object (DoEndPage st)) = Some f ->
  m_file (finish_file id st)
  = Some ((f ++ crlf)
          ++ line "xref"
          ++ (str "0 "
              ++ dec (Z.of_nat (List.length (m_crossRefs (finish_file id st))) + 1)
              ++ crlf)
          ++ line "0000000000 65535 f"
          ++ List.concat
               (map (fun r => dec_pad 10 (m_offset r) ++ line " 00000 n")
                    (m_crossRefs (finish_file id st)))
          ++ line "trailer" ++ line "<< "
          ++ (str "/ID[<" ++ sdec_pad 32 id ++ str "><" ++ sdec_pad 32 id
              ++ line ">]")
          ++ (str "/Size "
              ++ dec (Z.of_nat (List.length (m_crossRefs (finish_file id st))) + 1)
              ++ line " /Root 1 0 R >>")
          ++ line "startxref"
          ++ (sdec (if Z.of_nat (List.length (f ++ crlf)) <=? LONG_MAX
                    then Z.of_nat (List.length (f ++ crlf))
                    else long (ftell_beyond (Z.of_nat (List.length (f ++ crlf)))))
              ++ crlf)
          ++ line "%%EOF").
Proof.
  intros Hf. rewrite finish_file_table.
  unfold finish_file. cbv zeta.
  revert Hf. generalize (write_pages_object (DoEndPage st)). intros st2 Hf.
  set (table := sort_crossRefs (m_crossRefs st2)).
  set (st3 := fprintf crlf (set_crossRefs table st2)).
  assert (Hx3 : m_crossRefs st3 = table) by reflexivity.
  assert (Hf3 : m_file st3 = Some (f ++ crlf))
    by (unfold st3; members; now rewrite Hf).
  assert (Ht3 : ftell st3
                = if Z.of_nat (List.length (f ++ crlf)) <=? LONG_MAX
                  then Z.of_nat (List.length (f ++ crlf))
                  else long (ftell_beyond (Z.of_nat (List.length (f ++ crlf)))))
    by (unfold ftell; now rewrite Hf3).
  clearbody st3.
  rewrite write_trailer_text, (proj1 (write_xref_table_file st3)).
  rewrite (proj2 (write_xref_table_file st3)), Hf3, Hx3, Ht3.
  cbn [option_map]. unfold xref_count_line.
  change (map xref_entry table)
    with (map (fun r => dec_pad 10 (m_offset r) ++ line " 00000 n") table).
  now rewrite <- !app_assoc.
Qed.

Lemma finish_file_extends (id : Z) (st : Draw2pdf) (f : list byte) :
  m_file (write_pages_object (DoEndPage st)) = Some f ->
  exists t, m_file (finish_file id st) = Some (f ++ t).
Proof.
  intros Hf. rewrite (finish_file_text id st f Hf).
  rewrite <- app_assoc. eexists. reflexivity.
Qed.

Lemma offsets_finish_file (id : Z) (st : Draw2pdf) :
  offsets_ok st -> offsets_ok (finish_file id st).
Proof.
  intros Hok.
  assert (H2 : offsets_ok (write_pages_object (DoEndPage st))).
  { destruct Hok as (f & Hf & Hall).
    apply (offsets_grows st); [|now exists f].
    apply grows_write_pages_object, grows_DoEndPage.
    now apply (grows_refl st f). }
  destruct H2 as (f2 & Hf2 & Hall2).
  destruct (finish_file_extends id st f2 Hf2) as [t Ht].
  exists (f2 ++ t). split; [exact Ht|].
  rewrite finish_file_table.
  apply (Permutation_Forall (Permutation_sym (sort_crossRefs_perm _))).
  eapply Forall_impl; [|exact Hall2]. intros r Hr.
  now apply recorded_app.
Qed.

(** *** What the writing of a page and of the trailer leaves alone *)

Section Frame.
Context {A : Type}.
Variable pr : Draw2pdf -> A.
Hypothesis pr_file : forall v s, pr (set_file v s) = pr s.
Hypothesis pr_crossRefs : forall v s, pr (set_crossRefs v s) = pr s.
Hypothesis pr_contentStream : forall v s, pr (set_contentStream v s) = pr s.
Hypothesis pr_images : forall v s, pr (set_images v s) = pr s.

Lemma frame_fprintf (text : list byte) (s : Draw2pdf) : pr (fprintf text s) = pr s.
Proof. unfold fprintf. apply pr_file. Qed.

Lemma frame_fwrite (text : list byte) (s : Draw2pdf) : pr (fwrite text s) = pr s.
Proof. apply frame_fprintf. Qed.

Lemma frame_push_crossRef (n : Z) (s : Draw2pdf) : pr (push_crossRef n s) = pr s.
Proof. unfold push_crossRef. apply pr_crossRefs. Qed.

Lemma frame_fold {B : Type} (body : Draw2pdf -> B -> Draw2pdf) :
  (forall x s, pr (body s x) = pr s) ->
  forall l s, pr (fold_left body l s) = pr s.
Proof.
  intros H l. induction l as [|x l IH]; intros s; cbn [fold_left];
    [reflexivity|]. now rewrite IH, H.
Qed.

Lemma frame_for_images (body : Z -> Draw2pdf -> Draw2pdf) (s : Draw2pdf) :
  (forall i s, pr (body i s) = pr s) -> pr (for_images body s) = pr s.
Proof.
  intros H. unfold for_images.
  apply (frame_fold (fun st index => body (Z.of_nat index) st)).
  intros x s'. apply H.
Qed.

Ltac frame_step :=
  first [ rewrite frame_fprintf | rewrite frame_fwrite
        | rewrite frame_push_crossRef | rewrite pr_contentStream
        | rewrite pr_images | rewrite pr_crossRefs ].

Lemma frame_DoWriteImage (index : Z) (c : bool) (s : Draw2pdf) :
  pr (DoWriteImage index c s) = pr s.
Proof.
  unfold DoWriteImage. cbv zeta.
  destruct (encode_image _ _) as [filter encoded].
  destruct (_ =? 8); repeat frame_step; reflexivity.
Qed.

Lemma frame_DoEndPage (s : Draw2pdf) : pr (DoEndPage s) = pr s.
Proof.
  unfold DoEndPage. cbv zeta.
  do 2 frame_step.
  rewrite frame_for_images by (intros; apply frame_DoWriteImage).
  do 2 frame_step.
  rewrite frame_for_images by (intros; apply frame_fprintf).
  do 4 frame_step.
  destruct (negb (m_compressContent _)); repeat frame_step; reflexivity.
Qed.

Lemma frame_write_pages_object (s : Draw2pdf) : pr (write_pages_object s) = pr s.
Proof.
  unfold write_pages_object. cbv zeta.
  do 4 frame_step.
  rewrite frame_fold by (intros; apply frame_fprintf).
  repeat frame_step. reflexivity.
Qed.

Lemma frame_finish_file (id : Z) (s : Draw2pdf) : pr (finish_file id s) = pr s.
Proof.
  unfold finish_file, write_trailer, write_xref_table. cbv zeta.
  do 7 frame_step.
  rewrite frame_fold by (intros; apply frame_fprintf).
  repeat frame_step.
  now rewrite frame_write_pages_object, frame_DoEndPage.
Qed.

End Frame.

(** *** The page tree *)

Lemma pages_DoEndPage (s : Draw2pdf) : pages_of (DoEndPage s) = pages_of s.
Proof. now apply frame_DoEndPage. Qed.

Lemma pages_DoBeginPage (s : Draw2pdf) :
  pages_of (DoBeginPage s)
  = (m_pagesObjNumber s, m_pageObjectNumbers s ++ [m_objNumber s]).
Proof. reflexivity. Qed.

Lemma pages_of_eq (a b : Draw2pdf) :
  pages_of a = pages_of b ->
  m_pagesObjNumber a = m_pagesObjNumber b /\
  m_pageObjectNumbers a = m_pageObjectNumbers b.
Proof.
  intros H. split; [exact (f_equal fst H) | exact (f_equal snd H)].
Qed.

Lemma pages_of_eq_values (a : Draw2pdf) (n : Z) (l : list Z) :
  pages_of a = (n, l) -> m_pagesObjNumber a = n /\ m_pageObjectNumbers a = l.
Proof.
  intros H. split; [exact (f_equal fst H) | exact (f_equal snd H)].
Qed.

Lemma pagesObjNumber_DoEndPage (s : Draw2pdf) :
  m_pagesObjNumber (DoEndPage s) = m_pagesObjNumber s.
Proof. apply pages_of_eq, pages_DoEndPage. Qed.

Lemma pageObjectNumbers_DoEndPage (s : Draw2pdf) :
  m_pageObjectNumbers (DoEndPage s) = m_pageObjectNumbers s.
Proof. apply pages_of_eq, pages_DoEndPage. Qed.

Lemma pagesObjNumber_DoBeginPage (s : Draw2pdf) :
  m_pagesObjNumber (DoBeginPage s) = m_pagesObjNumber s.
Proof. reflexivity. Qed.

Lemma pageObjectNumbers_DoBeginPage (s : Draw2pdf) :
  m_pageObjectNumbers (DoBeginPage s) = m_pageObjectNumbers s ++ [m_objNumber s].
Proof. reflexivity. Qed.

Lemma pages_do_call (c : call) (st : Draw2pdf) (f : list byte) :
  m_file st = Some f ->
  exists st' more,
    do_call c st = Ok st' /\
    m_pagesObjNumber st' = m_pagesObjNumber st /\
    m_pageObjectNumbers st' = m_pageObjectNumbers st ++ more /\
    List.length more = (if is_next_page c then 1 else 0)%nat.
Proof.
  intros Hf. destruct (is_next_page c) eqn:E.
  - destruct c; try discriminate. cbn [do_call]. unfold NextPage. rewrite Hf.
    exists (DoBeginPage (DoEndPage st)), [m_objNumber (DoEndPage st)].
    split; [reflexivity|].
    rewrite pagesObjNumber_DoBeginPage, pageObjectNumbers_DoBeginPage.
    rewrite pagesObjNumber_DoEndPage, pageObjectNumbers_DoEndPage. auto.
  - destruct (written_do_call c st E) as (st' & H1 & H2).
    exists st', []. split; [exact H1|].
    assert (H5 : m_pagesObjNumber st' = m_pagesObjNumber st)
      by exact (f_equal (fun w => snd (fst w)) H2).
    assert (H6 : m_pageObjectNumbers st' = m_pageObjectNumbers st)
      by exact (f_equal snd H2).
    rewrite H5, H6, app_nil_r. auto.
Qed.

Lemma pages_do_calls (calls : list call) :
  forall (st : Draw2pdf) (f : list byte),
  m_file st = Some f ->
  exists st' more,
    do_calls calls st = Ok st' /\
    m_pagesObjNumber st' = m_pagesObjNumber st /\
    m_pageObjectNumbers st' = m_pageObjectNumbers st ++ more /\
    List.length more = count_next_page calls.
Proof.
  induction calls as [|c calls IH]; intros st f Hf; cbn [do_calls].
  - exists st, []. rewrite app_nil_r. auto.
  - destruct (pages_do_call c st f Hf) as (st1 & more1 & E1 & P1 & L1 & N1).
    rewrite E1.
    destruct (grows_do_call c st f Hf) as (st1' & E1' & G1).
    rewrite E1 in E1'. injection E1' as <-.
    destruct (grows_open st st1 G1) as [f1 Hf1].
    destruct (IH st1 f1 Hf1) as (st2 & more2 & E2 & P2 & L2 & N2).
    exists st2, (more1 ++ more2). split; [exact E2|].
    rewrite P2, P1, L2, L1, app_assoc, length_app, N1, N2.
    unfold count_next_page. cbn [filter].
    destruct (is_next_page c); cbn [List.length]; auto.
Qed.

Lemma write_pages_object_text (st : Draw2pdf) (f : list byte) :
  m_file st = Some f ->
  m_file (write_pages_object st)
  = Some (f ++ crlf ++ header (m_pagesObjNumber st) ++ line "<<"
            ++ str "/Type /Pages /Kids ["
            ++ List.concat (map (fun n => dec n ++ str " 0 R ")
                                (m_pageObjectNumbers st))
            ++ line "]"
            ++ (str "/Count "
                ++ dec (Z.of_nat (List.length (m_pageObjectNumbers st))) ++ crlf)
            ++ line ">>" ++ line "endobj").
Proof.
  intros Hf. unfold write_pages_object. cbv zeta.
  match goal with |- context [fold_left _ ?l ?s] =>
    destruct (fold_fprintf_file (fun n => dec n ++ str " 0 R ") l s) as [Hl Hx] end.
  members. members_in Hl. rewrite Hl, Hf. cbn [option_map]. unfold header.
  rewrite (frame_fold m_pageObjectNumbers
             (fun st0 objnum => fprintf (dec objnum ++ str " 0 R ") st0)
             (fun _ _ => eq_refl)).
  members. now rewrite <- !app_assoc.
Qed.

(** *** The first bytes of a file *)

Lemma Open_file (id : Z) (filename : wstring) (pmin pmax : PDFPoint) :
  exists st rest,
    Open true id filename pmin pmax initial = Ok st /\
    m_file st
    = Some (line "%PDF-1.4" ++ ([x25; xc0; xe1; xd2; xc3; xb4] ++ crlf)
            ++ line "%PDF file generated by draw2pdf.lib"
            ++ crlf ++ line "1 0 obj" ++ line "<<" ++ line "/Type /Catalog"
            ++ line "/Pages 2 0 R" ++ line ">>" ++ line "endobj" ++ rest) /\
    m_catalogObjNumber st = 1 /\
    pages_of st = (2, [3]).
Proof.
  unfold Open. cbv zeta. cbn [negb].
  change (Close id initial) with initial.
  match goal with |- context [DoBeginPage ?s] => set (s1 := s) end.
  assert (H1 : m_file s1
               = Some (line "%PDF-1.4" ++ ([x25; xc0; xe1; xd2; xc3; xb4] ++ crlf)
                       ++ line "%PDF file generated by draw2pdf.lib"
                       ++ crlf ++ line "1 0 obj" ++ line "<<"
                       ++ line "/Type /Catalog" ++ line "/Pages 2 0 R"
                       ++ line ">>" ++ line "endobj")) by reflexivity.
  assert (H2 : m_catalogObjNumber s1 = 1) by reflexivity.
  assert (H3 : pages_of s1 = (2, [])) by reflexivity.
  assert (H4 : m_objNumber s1 = 3) by reflexivity.
  clearbody s1.
  destruct (grows_file s1 (DoBeginPage s1) _
              (grows_DoBeginPage s1 s1 (grows_refl s1 _ H1)) H1)
    as (t & new & Ht & _).
  exists (DoBeginPage s1), t. split; [reflexivity|]. split.
  - rewrite Ht. now rewrite <- !app_assoc.
  - split; [exact H2|]. rewrite pages_DoBeginPage.
    rewrite (f_equal fst H3 : m_pagesObjNumber s1 = 2).
    rewrite (f_equal snd H3 : m_pageObjectNumbers s1 = []).
    now rewrite H4.
Qed.

(** *** The content stream of a page, as [DoEndPage] writes it *)

Lemma DoEndPage_stream (st : Draw2pdf) (f : list byte) :
  m_file st = Some f ->
  exists rest,
    m_file (DoEndPage st)
    = Some ((f ++ crlf ++ header (m_contentsObjNumber st) ++ line "<<"
               ++ (if negb (m_compressContent st)
                   then (str "/Length " ++ dec (size (m_contentStream st)) ++ crlf)
                        ++ line ">>" ++ line "stream"
                        ++ data (m_contentStream st)
                        ++ crlf ++ line "endstream" ++ line "endobj"
                   else line "/Filter /FlateDecode"
                        ++ (str "/Length "
                            ++ dec (Z.of_nat (List.length
                                 (DeflateData (data (m_contentStream st)))))
                            ++ crlf)
                        ++ line ">>" ++ line "stream"
                        ++ DeflateData (data (m_contentStream st))
                        ++ crlf ++ line "endstream" ++ line "endobj"))
            ++ rest).
Proof.
  intros Hf. unfold DoEndPage. cbv zeta.
  match goal with |- context [fprintf crlf (if ?b then ?A else ?B)] =>
    set (head := if b then A else B) end.
  assert (Hh : m_file head
    = Some (f ++ crlf ++ header (m_contentsObjNumber st) ++ line "<<"
              ++ (if negb (m_compressContent st)
                  then (str "/Length " ++ dec (size (m_contentStream st)) ++ crlf)
                       ++ line ">>" ++ line "stream"
                       ++ data (m_contentStream st)
                       ++ crlf ++ line "endstream" ++ line "endobj"
                  else line "/Filter /FlateDecode"
                       ++ (str "/Length "
                           ++ dec (Z.of_nat (List.length
                                (DeflateData (data (m_contentStream st)))))
                           ++ crlf)
                       ++ line ">>" ++ line "stream"
                       ++ DeflateData (data (m_contentStream st))
                       ++ crlf ++ line "endstream" ++ line "endobj"))).
  { unfold head. members. unfold header.
    destruct (m_compressContent st); cbn [negb]; members; rewrite Hf;
      cbn [option_map]; now rewrite <- !app_assoc. }
  clearbody head.
  match goal with |- context [m_file ?W] => assert (G : grows head W) end.
  { do 2 grow_step.
    apply grows_for_images; [intros i s' Hs'; now apply grows_DoWriteImage|].
    do 2 grow_step.
    apply grows_for_images; [intros i s' Hs'; now apply grows_fprintf|].
    repeat grow_step. now apply (grows_refl head _ Hh). }
  destruct (grows_file _ _ _ G Hh) as (t & new & Ht & _).
  exists t. exact Ht.
Qed.

(** *** An image object, as [DoWriteImage] writes it *)

Lemma DoWriteImage_text (index : Z) (c : bool) (st : Draw2pdf) (f : list byte) :
  m_file st = Some f ->
  let image := nth (Z.to_nat index) (m_images st) default_image in
  let encoded := encode_image c (pack_pixels image) in
  m_file (DoWriteImage index c st)
  = Some (f ++ crlf ++ header (m_objNum image) ++ line "<<"
            ++ line "/Type /XObject" ++ line "/Subtype /Image"
            ++ (str "/Name /Im" ++ dec index ++ crlf)
            ++ (str "/Width " ++ dec (m_numX image) ++ crlf)
            ++ (str "/Height " ++ dec (m_numY image) ++ crlf)
            ++ line "/BitsPerComponent 8"
            ++ (if m_bpp image =? 8 then line "/ColorSpace /DeviceGray"
                else line "/ColorSpace /DeviceRGB")
            ++ fst encoded
            ++ (str "/Length " ++ dec (Z.of_nat (List.length (snd encoded)))
                ++ crlf)
            ++ line ">>" ++ line "stream" ++ snd encoded
            ++ crlf ++ line "endstream" ++ line "endobj").
Proof.
  intros Hf. cbv zeta. unfold DoWriteImage. cbv zeta.
  set (image := nth (Z.to_nat index) (m_images st) default_image).
  generalize (pack_pixels image). intros raw.
  destruct (encode_image c raw) as [filter encoded]. cbn [fst snd].
  unfold header.
  destruct (m_bpp image =? 8); members; rewrite Hf; cbn [option_map];
    rewrite <- !app_assoc; reflexivity.
Qed.

(** *** The dictionary of the images of a page *)

Lemma file_fprintf (text : list byte) (s : Draw2pdf) :
  m_file (fprintf text s) = option_map (fun f => f ++ text) (m_file s).
Proof. reflexivity. Qed.

Lemma fold_entries (G : Z -> list PDFImage -> list byte) (l : list nat) :
  forall (s : Draw2pdf) (f : list byte),
  m_file s = Some f ->
  m_file (fold_left
            (fun st index => fprintf (G (Z.of_nat index) (m_images st)) st) l s)
  = Some (f ++ List.concat (map (fun i => G (Z.of_nat i) (m_images s)) l)).
Proof.
  induction l as [|i l IH]; intros s f Hf; cbn [fold_left map List.concat].
  - now rewrite app_nil_r.
  - rewrite (IH (fprintf (G (Z.of_nat i) (m_images s)) s)
               (f ++ G (Z.of_nat i) (m_images s))).
    + now rewrite <- app_assoc.
    + unfold fprintf. cbn [m_file set_file]. now rewrite Hf.
Qed.

Lemma DoEndPage_xobjects (st : Draw2pdf) (f : list byte) :
  m_file st = Some f ->
  exists content_object after,
    m_file (DoEndPage st)
    = Some (((f ++ content_object)
             ++ crlf ++ header (m_xobjectObjNumber st) ++ line "<<"
             ++ List.concat
                  (map (fun i =>
                          str "/Im" ++ dec (Z.of_nat i) ++ sp
                          ++ dec (m_objNum (nth i (m_images st) default_image))
                          ++ line " 0 R")
                       (seq 0 (List.length (m_images st))))
             ++ line ">>" ++ line "endobj")
            ++ after).
Proof.
  intros Hf. unfold DoEndPage. cbv zeta.
  match goal with |- context [fprintf crlf (if ?b then ?A else ?B)] =>
    set (head := if b then A else B) end.
  assert (Hh : exists mid, m_file head = Some (f ++ mid)).
  { unfold head. members.
    destruct (m_compressContent st); cbn [negb]; members; rewrite Hf;
      cbn [option_map]; rewrite <- !app_assoc; eexists; reflexivity. }
  assert (Hi : m_images head = m_images st)
    by (unfold head; destruct (negb _); reflexivity).
  assert (Hn : m_xobjectObjNumber head = m_xobjectObjNumber st)
    by (unfold head; destruct (negb _); reflexivity).
  destruct Hh as [mid Hh]. clearbody head.
  match goal with
  | |- context [fprintf (line "endobj") (fprintf (line ">>") (for_images ?body ?s9))] =>
      set (st9 := s9);
      set (st12 := fprintf (line "endobj") (fprintf (line ">>") (for_images body st9)))
  end.
  assert (H9 : m_file st9
               = Some ((f ++ mid) ++ crlf ++ header (m_xobjectObjNumber st)
                       ++ line "<<")).
  { unfold st9. members. rewrite Hh, Hn. cbn [option_map]. unfold header.
    now rewrite <- !app_assoc. }
  assert (I9 : m_images st9 = m_images st) by (unfold st9; members; exact Hi).
  clearbody st9.
  assert (H12 : m_file st12
    = Some ((f ++ mid) ++ crlf ++ header (m_xobjectObjNumber st) ++ line "<<"
              ++ List.concat
                   (map (fun i =>
                           str "/Im" ++ dec (Z.of_nat i) ++ sp
                           ++ dec (m_objNum (nth i (m_images st) default_image))
                           ++ line " 0 R")
                        (seq 0 (List.length (m_images st))))
              ++ line ">>" ++ line "endobj")).
  { unfold st12, for_images.
    pose proof (fold_entries
      (fun index imgs =>
         str "/Im" ++ dec index ++ sp
         ++ dec (m_objNum (nth (Z.to_nat index) imgs default_image))
         ++ line " 0 R")
      (seq 0 (List.length (m_images st9))) st9 _ H9) as He.
    cbv beta in He. rewrite I9 in He.
    rewrite (map_ext
               (fun i : nat =>
                  str "/Im" ++ dec (Z.of_nat i) ++ sp
                  ++ dec (m_objNum (nth (Z.to_nat (Z.of_nat i)) (m_images st)
                                        default_image))
                  ++ line " 0 R")
               (fun i : nat =>
                  str "/Im" ++ dec (Z.of_nat i) ++ sp
                  ++ dec (m_objNum (nth i (m_images st) default_image))
                  ++ line " 0 R")) in He
      by (intros i; now rewrite Nat2Z.id).
    rewrite !file_fprintf, I9, He. cbn [option_map].
    now rewrite <- !app_assoc. }
  clearbody st12.
  match goal with |- context [m_file ?W] => assert (G : grows st12 W) end.
  { do 2 grow_step.
    apply grows_for_images; [intros i s' Hs'; now apply grows_DoWriteImage|].
    now apply (grows_refl st12 _ H12). }
  destruct (grows_file _ _ _ G H12) as (t & new & Ht & _).
  exists mid, t. exact Ht.
Qed.

(** *** What [DrawImage] and [DrawTextString] append *)

Lemma DrawImage_state (image : PDFImage) (dx dy dw dh : double) (st : Draw2pdf) :
  m_images (DrawImage image dx dy dw dh st)
  = m_images st ++ [set_image_objNum (m_objNumber st) image] /\
  m_objNumber (DrawImage image dx dy dw dh st) = m_objNumber st + 1 /\
  content (DrawImage image dx dy dw dh st)
  = content st ++ line "q"
      ++ operator (fmt_lf dw ++ sp ++ fmt_lf dbl_0 ++ sp ++ fmt_lf dbl_0 ++ sp
                   ++ fmt_lf dh ++ sp ++ fmt_lf dx ++ sp ++ fmt_lf dy
                   ++ line " cm")
      ++ operator (str "/Im" ++ dec (Z.of_nat (List.length (m_images st)))
                   ++ line " Do")
      ++ line "Q".
Proof.
  split; [reflexivity|]. split; [reflexivity|].
  unfold DrawImage. cbv zeta.
  rewrite !content_Printf_content. members.
  rewrite length_app. cbn [List.length].
  replace (Z.of_nat (List.length (m_images st) + 1) - 1)
    with (Z.of_nat (List.length (m_images st))) by lia.
  change (operator (line "q")) with (line "q").
  change (operator (line "Q")) with (line "Q").
  unfold content. members. now rewrite <- !app_assoc.
Qed.

Lemma c_str_no_nul (l : list byte) :
  Forall (fun b => Byte.eqb b x00 = false) l -> c_str l = l.
Proof.
  induction 1 as [|b l Hb Hl IH]; cbn [c_str]; [reflexivity|].
  now rewrite Hb, IH.
Qed.

Lemma c_str_clean (l : list byte) :
  Forall (fun b => Byte.eqb b x00 = false) (c_str l).
Proof.
  induction l as [|b l IH]; cbn [c_str]; [constructor|].
  destruct (Byte.eqb b x00) eqn:E; [constructor|]. now constructor.
Qed.

Lemma operator_Tj (t : list byte) :
  operator (str "(" ++ c_str t ++ line ") Tj")
  = if Z.of_nat (List.length (c_str t)) <? 8185
    then str "(" ++ c_str t ++ line ") Tj"
    else [].
Proof.
  unfold operator. rewrite AccumulatorFacts.Printf_buffer_result.
  rewrite !length_app.
  change (List.length (str "(")) with 1%nat.
  change (List.length (line ") Tj")) with 6%nat.
  destruct (Z.of_nat (List.length (c_str t)) <? 8185) eqn:E.
  - apply Z.ltb_lt in E.
    replace (Z.of_nat (1 + (List.length (c_str t) + 6)) <? 8192) with true
      by (symmetry; apply Z.ltb_lt; lia).
    apply c_str_no_nul. apply Forall_app. split; [now repeat constructor|].
    apply Forall_app. split; [apply c_str_clean | now repeat constructor].
  - apply Z.ltb_ge in E.
    replace (Z.of_nat (1 + (List.length (c_str t) + 6)) <? 8192) with false
      by (symmetry; apply Z.ltb_ge; lia).
    reflexivity.
Qed.

Lemma DrawTextString_content (point : PDFPoint) (text : wstring) (st : Draw2pdf) :
  content (DrawTextString point text st)
  = content st ++ line "q" ++ line "BT"
      ++ operator (str "/F1 " ++ fmt_lf (PDFTextStyle.m_height (m_textStyle st))
                   ++ line " Tf")
      ++ operator (fmt_lf (m_red (PDFTextStyle.m_color (m_textStyle st))) ++ sp
                   ++ fmt_lf (m_green (PDFTextStyle.m_color (m_textStyle st))) ++ sp
                   ++ fmt_lf (m_blue (PDFTextStyle.m_color (m_textStyle st)))
                   ++ line " rg")
      ++ operator (fmt_lf (x point) ++ sp ++ fmt_lf (y point) ++ line " Td")
      ++ (if Z.of_nat (List.length (c_str (WideToNarrow text))) <? 8185
          then str "(" ++ c_str (WideToNarrow text) ++ line ") Tj"
          else [])
      ++ line "ET" ++ line "Q".
Proof.
  unfold DrawTextString. cbv zeta.
  rewrite !content_Printf_content. rewrite operator_Tj. members.
  change (operator (line "q")) with (line "q").
  change (operator (line "Q")) with (line "Q").
  change (operator (line "BT")) with (line "BT").
  change (operator (line "ET")) with (line "ET").
  now rewrite <- !app_assoc.
Qed.

(** *** The page object, as [DoBeginPage] writes it *)

Lemma DoBeginPage_text (st : Draw2pdf) (f : list byte) :
  m_file st = Some f ->
  m_file (DoBeginPage st)
  = Some (f ++ crlf ++ header (m_objNumber st) ++ line "<<"
            ++ line "/Type /Page"
            ++ (str "/Parent " ++ dec (m_pagesObjNumber st) ++ line " 0 R")
            ++ (str "/MediaBox [ "
                ++ fmt_lf (x (m_pageMinimumPoints st)) ++ sp
                ++ fmt_lf (y (m_pageMinimumPoints st)) ++ sp
                ++ fmt_lf (x (m_pageMaximumPoints st)) ++ sp
                ++ fmt_lf (y (m_pageMaximumPoints st)) ++ line " ]")
            ++ (str "/Contents " ++ dec (m_objNumber st + 1) ++ line " 0 R")
            ++ line "/Resources" ++ line "<<"
            ++ line "/ProcSet [ /PDF /Text /ImageB /ImageC /ImageI ]"
            ++ (str "/XObject " ++ dec (m_objNumber st + 1 + 1) ++ line " 0 R")
            ++ line ">>" ++ line ">>" ++ line "endobj").
Proof.
  intros Hf. unfold DoBeginPage. cbv zeta. members. rewrite Hf.
  cbn [option_map]. unfold header. now rewrite <- !app_assoc.
Qed.

Lemma DoBeginPage_numbers (st : Draw2pdf) :
  m_contentsObjNumber (DoBeginPage st) = m_objNumber st + 1 /\
  m_xobjectObjNumber (DoBeginPage st) = m_objNumber st + 1 + 1 /\
  m_objNumber (DoBeginPage st) = m_objNumber st + 1 + 1 + 1 /\
  m_pageObjectNumbers (DoBeginPage st) = m_pageObjectNumbers st ++ [m_objNumber st] /\
  content (DoBeginPage st) = content st /\
  m_images (DoBeginPage st) = m_images st.
Proof. repeat split. Qed.

Lemma crossRefs_DoBeginPage (st : Draw2pdf) :
  exists off,
    m_crossRefs (DoBeginPage st)
    = m_crossRefs st ++ [mkCrossRef (m_objNumber st) off].
Proof. eexists. reflexivity. Qed.

(** *** [Close], and [Open] on a writer that has been used *)

Lemma Close_closed (id : Z) (st : Draw2pdf) : m_file st = None -> Close id st = st.
Proof. intros H. unfold Close. now rewrite H. Qed.

Lemma reset_fclose (s : Draw2pdf) (f : list byte) :
  m_file s = Some f ->
  reset_members (fclose s)
  = mkDraw2pdf None (m_pageMinimumPoints s) (m_pageMaximumPoints s)
      PDFLineStyle.default PDFFillStyle.default PDFTextStyle.default
      [] 1 0 0 (m_contentsObjNumber s) (m_xobjectObjNumber s) []
      Accumulator.empty [] (m_compressImages s) (m_compressContent s)
      (f :: closed_files s).
Proof. intros H. unfold fclose. rewrite H. reflexivity. Qed.

Lemma kept_finish_file (id : Z) (st : Draw2pdf) :
  m_pageMinimumPoints (finish_file id st) = m_pageMinimumPoints st /\
  m_pageMaximumPoints (finish_file id st) = m_pageMaximumPoints st /\
  m_contentsObjNumber (finish_file id st) = m_contentsObjNumber st /\
  m_xobjectObjNumber (finish_file id st) = m_xobjectObjNumber st /\
  m_compressImages (finish_file id st) = m_compressImages st /\
  m_compressContent (finish_file id st) = m_compressContent st /\
  closed_files (finish_file id st) = closed_files st.
Proof.
  repeat split; apply frame_finish_file; reflexivity.
Qed.

Lemma Close_state (id : Z) (st : Draw2pdf) (f : list byte) :
  m_file st = Some f ->
  exists old,
    m_file (finish_file id st) = Some old /\
    Close id st
    = mkDraw2pdf None (m_pageMinimumPoints st) (m_pageMaximumPoints st)
        PDFLineStyle.default PDFFillStyle.default PDFTextStyle.default
        [] 1 0 0 (m_contentsObjNumber st) (m_xobjectObjNumber st) []
        Accumulator.empty [] (m_compressImages st) (m_compressContent st)
        (old :: closed_files st).
Proof.
  intros Hf.
  assert (G : grows st (write_pages_object (DoEndPage st))).
  { apply grows_write_pages_object, grows_DoEndPage. apply (grows_refl st f Hf). }
  destruct (grows_open _ _ G) as [f2 Hf2].
  destruct (finish_file_extends id st f2 Hf2) as [t Ht].
  exists (f2 ++ t). split; [exact Ht|].
  unfold Close. rewrite Hf.
  rewrite (reset_fclose (finish_file id st) (f2 ++ t) Ht).
  destruct (kept_finish_file id st) as (-> & -> & -> & -> & -> & -> & ->).
  reflexivity.
Qed.

Lemma Close_file_None (id : Z) (st : Draw2pdf) : m_file (Close id st) = None.
Proof.
  destruct (m_file st) as [f|] eqn:E.
  - destruct (Close_state id st f E) as (old & _ & ->). reflexivity.
  - now rewrite Close_closed.
Qed.

Lemma Open_after_Close (c : bool) (id : Z) (filename : wstring)
  (pmin pmax : PDFPoint) (st : Draw2pdf) :
  Open c id filename pmin pmax (Close id st) = Open c id filename pmin pmax st.
Proof.
  unfold Open. cbv zeta.
  now rewrite (Close_closed id (Close id st) (Close_file_None id st)).
Qed.

Lemma Open_fresh (id : Z) (filename : wstring) (pmin pmax : PDFPoint)
  (S : Draw2pdf) :
  m_file S = None -> m_objNumber S = 1 -> m_crossRefs S = [] ->
  m_pageObjectNumbers S = [] ->
  exists st rest,
    Open true id filename pmin pmax S = Ok st /\
    m_file st
    = Some (line "%PDF-1.4" ++ ([x25; xc0; xe1; xd2; xc3; xb4] ++ crlf)
            ++ line "%PDF file generated by draw2pdf.lib"
            ++ crlf ++ line "1 0 obj" ++ line "<<" ++ line "/Type /Catalog"
            ++ line "/Pages 2 0 R" ++ line ">>" ++ line "endobj" ++ rest) /\
    m_catalogObjNumber st = 1 /\
    pages_of st = (2, [3]) /\
    m_objNumber st = 6 /\
    offsets_ok st /\
    closed_files st = closed_files S /\
    In 3 (map m_objnum (m_crossRefs st)).
Proof.
  intros Hf Hn Hx Hp. unfold Open. cbv zeta. cbn [negb].
  rewrite (Close_closed id S Hf).
  match goal with |- context [DoBeginPage ?s] => set (s1 := s) end.
  assert (H1 : m_file s1
               = Some (line "%PDF-1.4" ++ ([x25; xc0; xe1; xd2; xc3; xb4] ++ crlf)
                       ++ line "%PDF file generated by draw2pdf.lib"
                       ++ crlf ++ line "1 0 obj" ++ line "<<"
                       ++ line "/Type /Catalog" ++ line "/Pages 2 0 R"
                       ++ line ">>" ++ line "endobj"))
    by (unfold s1; members; rewrite Hn; reflexivity).
  assert (H2 : m_catalogObjNumber s1 = 1) by (unfold s1; members; exact Hn).
  assert (H3 : pages_of s1 = (2, []))
    by (unfold s1, pages_of; members; now rewrite Hn, Hp).
  assert (H4 : m_objNumber s1 = 3) by (unfold s1; members; now rewrite Hn).
  assert (H5 : closed_files s1 = closed_files S) by reflexivity.
  assert (H6 : offsets_ok s1).
  { apply (offsets_grows
             (set_file (Some [])
                (set_pageMaximumPoints pmax (set_pageMinimumPoints pmin S)))).
    - unfold s1. repeat grow_step. now apply (grows_refl _ []).
    - exists []. split; [reflexivity|].
      change (Forall (recorded []) (m_crossRefs S)).
      rewrite Hx. constructor. }
  clearbody s1.
  assert (G : grows s1 (DoBeginPage s1))
    by (apply grows_DoBeginPage; apply (grows_refl s1 _ H1)).
  destruct (grows_file s1 (DoBeginPage s1) _ G H1) as (t & new & Ht & _).
  exists (DoBeginPage s1), t. split; [reflexivity|]. split.
  - rewrite Ht. now rewrite <- !app_assoc.
  - split; [exact H2|]. split.
    + rewrite pages_DoBeginPage.
      destruct (pages_of_eq_values s1 2 [] H3) as [-> ->]. now rewrite H4.
    + split.
      * destruct (DoBeginPage_numbers s1) as (_ & _ & -> & _). now rewrite H4.
      * split; [exact (offsets_grows _ _ G H6)|]. split; [exact H5|].
        destruct (crossRefs_DoBeginPage s1) as [off ->].
        rewrite map_app, H4. apply in_or_app. right. now left.
Qed.

(** The two records that [Open] leaves on a writer without a file: the
    catalog begins at byte 57 and the first page at byte 114, whatever the
    runtime, and both are where the records say. *)
Lemma crossRefs_DoBeginPage_at (st : Draw2pdf) (f : list byte) :
  m_file st = Some f ->
  m_crossRefs (DoBeginPage st)
  = m_crossRefs st
    ++ [mkCrossRef (m_objNumber st)
          (size_t (if Z.of_nat (List.length (f ++ crlf)) <=? LONG_MAX
                   then Z.of_nat (List.length (f ++ crlf))
                   else long (ftell_beyond (Z.of_nat (List.length (f ++ crlf))))))].
Proof.
  intros Hf. unfold DoBeginPage. cbv zeta. members. unfold ftell. members.
  rewrite Hf. reflexivity.
Qed.

Lemma Open_fresh_records (id : Z) (filename : wstring) (pmin pmax : PDFPoint)
  (S : Draw2pdf) :
  m_file S = None -> m_objNumber S = 1 -> m_crossRefs S = [] ->
  exists st file,
    Open true id filename pmin pmax S = Ok st /\
    m_file st = Some file /\
    m_crossRefs st = [mkCrossRef 1 57; mkCrossRef 3 114] /\
    Forall (fun r => object_at file r = true) (m_crossRefs st).
Proof.
  intros Hf Hn Hx. unfold Open. cbv zeta. cbn [negb].
  rewrite (Close_closed id S Hf).
  match goal with |- context [DoBeginPage ?s] => set (s1 := s) end.
  assert (H1 : m_file s1
               = Some (line "%PDF-1.4" ++ ([x25; xc0; xe1; xd2; xc3; xb4] ++ crlf)
                       ++ line "%PDF file generated by draw2pdf.lib"
                       ++ crlf ++ line "1 0 obj" ++ line "<<"
                       ++ line "/Type /Catalog" ++ line "/Pages 2 0 R"
                       ++ line ">>" ++ line "endobj"))
    by (unfold s1; members; rewrite Hn; reflexivity).
  assert (H4 : m_objNumber s1 = 3) by (unfold s1; members; now rewrite Hn).
  assert (H7 : m_crossRefs s1 = [mkCrossRef 1 57])
    by (unfold s1; members; unfold ftell; members; rewrite Hx, Hn; reflexivity).
  clearbody s1.
  pose proof (crossRefs_DoBeginPage_at s1 _ H1) as Hr.
  rewrite H7, H4 in Hr.
  pose proof (DoBeginPage_text s1 _ H1) as Ht. rewrite H4 in Ht.
  eexists. eexists. split; [reflexivity|]. split; [exact Ht|].
  split; [exact Hr|]. rewrite Hr.
  constructor; [|constructor; [|constructor]].
  - exact (object_at_new
             (line "%PDF-1.4" ++ ([x25; xc0; xe1; xd2; xc3; xb4] ++ crlf)
              ++ line "%PDF file generated by draw2pdf.lib") _ 1).
  - exact (object_at_new
             (line "%PDF-1.4" ++ ([x25; xc0; xe1; xd2; xc3; xb4] ++ crlf)
              ++ line "%PDF file generated by draw2pdf.lib"
              ++ crlf ++ line "1 0 obj" ++ line "<<"
              ++ line "/Type /Catalog" ++ line "/Pages 2 0 R"
              ++ line ">>" ++ line "endobj") _ 3).
Qed.

(** *** The pages have records *)

Lemma kids_do_call (c : call) (st : Draw2pdf) (f : list byte) :
  m_file st = Some f ->
  Forall (fun n => In n (map m_objnum (m_crossRefs st))) (m_pageObjectNumbers st) ->
  exists st',
    do_call c st = Ok st' /\
    Forall (fun n => In n (map m_objnum (m_crossRefs st')))
           (m_pageObjectNumbers st').
Proof.
  intros Hf Hk. destruct (is_next_page c) eqn:E.
  - destruct c; try discriminate. cbn [do_call]. unfold NextPage. rewrite Hf.
    eexists. split; [reflexivity|].
    destruct (crossRefs_DoBeginPage (DoEndPage st)) as [off ->].
    rewrite pageObjectNumbers_DoBeginPage, pageObjectNumbers_DoEndPage.
    destruct (grows_file st (DoEndPage st) f
                (grows_DoEndPage st st (grows_refl st f Hf)) Hf)
      as (t & new & _ & ->).
    rewrite !map_app. apply Forall_app. split.
    + eapply Forall_impl; [|exact Hk]. intros n Hn.
      apply in_or_app. left. apply in_or_app. now left.
    + constructor; [|constructor]. apply in_or_app. right. now left.
  - destruct (written_do_call c st E) as (st' & H1 & H2).
    exists st'. split; [exact H1|].
    assert (Hx : m_crossRefs st' = m_crossRefs st)
      by exact (f_equal (fun w => snd (fst (fst (fst (fst w))))) H2).
    assert (Hp : m_pageObjectNumbers st' = m_pageObjectNumbers st)
      by exact (f_equal snd H2).
    now rewrite Hx, Hp.
Qed.

Lemma kids_do_calls (calls : list call) :
  forall (st : Draw2pdf) (f : list byte),
  m_file st = Some f ->
  Forall (fun n => In n (map m_objnum (m_crossRefs st))) (m_pageObjectNumbers st) ->
  exists st',
    do_calls calls st = Ok st' /\
    Forall (fun n => In n (map m_objnum (m_crossRefs st')))
           (m_pageObjectNumbers st').
Proof.
  induction calls as [|c calls IH]; intros st f Hf Hk; cbn [do_calls].
  - exists st. auto.
  - destruct (kids_do_call c st f Hf Hk) as (st1 & E1 & K1). rewrite E1.
    destruct (grows_do_call c st f Hf) as (st1' & E1' & G1).
    rewrite E1 in E1'. apply ok_eq in E1'. subst st1'.
    destruct (grows_open st st1 G1) as [f1 Hf1].
    exact (IH st1 f1 Hf1 K1).
Qed.

Lemma kids_finish_file (id : Z) (st : Draw2pdf) (f : list byte) :
  m_file st = Some f ->
  Forall (fun n => In n (map m_objnum (m_crossRefs st))) (m_pageObjectNumbers st) ->
  Forall (fun n => In n (map m_objnum (m_crossRefs (finish_file id st))))
         (m_pageObjectNumbers st).
Proof.
  intros Hf Hk. rewrite finish_file_table.
  destruct (grows_file st (write_pages_object (DoEndPage st)) f
              (grows_write_pages_object _ _
                 (grows_DoEndPage st st (grows_refl st f Hf))) Hf)
    as (t & new & _ & Hx).
  eapply Forall_impl; [|exact Hk]. intros n Hn.
  apply (Permutation_in n
           (Permutation_map m_objnum
              (Permutation_sym (sort_crossRefs_perm
                 (m_crossRefs (write_pages_object (DoEndPage st))))))).
  rewrite Hx, map_app. apply in_or_app. now left.
Qed.

(** *** How many objects there are *)

Lemma counter_shape (st : Draw2pdf) : m_objNumber st = s_next (shape_of st).
Proof. reflexivity. Qed.

Lemma counter_do_call (c : call) (st : Draw2pdf) (f : list byte) :
  m_file st = Some f ->
  exists st',
    do_call c st = Ok st' /\
    m_objNumber st'
    = m_objNumber st + (if is_next_page c then 3 else 0)
      + (if is_draw_image c then 1 else 0).
Proof.
  intros Hf.
  destruct c; cbn [do_call is_next_page is_draw_image];
    try (eexists; split; [reflexivity|]; rewrite !counter_shape).
  - rewrite shape_SetLineStyle. lia.
  - rewrite shape_SetFillStyle. lia.
  - rewrite shape_SetTextStyle. lia.
  - unfold DrawLine. rewrite shape_DrawPolyline. lia.
  - rewrite shape_DrawPolyline. lia.
  - rewrite shape_DrawPolygon. lia.
  - unfold DrawRectangle. cbv zeta. rewrite shape_DrawPolygon. lia.
  - rewrite shape_DrawTextString. lia.
  - rewrite shape_DrawImage. cbn [add_image s_next]. lia.
  - unfold DrawImage_pixels. cbv zeta. rewrite shape_DrawImage.
    cbn [add_image s_next]. lia.
  - unfold NextPage. rewrite Hf. eexists. split; [reflexivity|].
    rewrite !counter_shape, shape_DoBeginPage, shape_DoEndPage.
    cbn [begin_page end_page s_next]. lia.
  - rewrite shape_Enable_images. lia.
  - rewrite shape_Enable_content. lia.
Qed.

Lemma counter_do_calls (calls : list call) :
  forall (st : Draw2pdf) (f : list byte),
  m_file st = Some f ->
  exists st',
    do_calls calls st = Ok st' /\
    m_objNumber st'
    = m_objNumber st + 3 * Z.of_nat (count_next_page calls)
      + Z.of_nat (count_images calls).
Proof.
  induction calls as [|c calls IH]; intros st f Hf; cbn [do_calls].
  - exists st. split; [reflexivity|]. cbn. lia.
  - destruct (counter_do_call c st f Hf) as (st1 & E1 & N1). rewrite E1.
    destruct (grows_do_call c st f Hf) as (st1' & E1' & G1).
    rewrite E1 in E1'. apply ok_eq in E1'. subst st1'.
    destruct (grows_open st st1 G1) as [f1 Hf1].
    destruct (IH st1 f1 Hf1) as (st2 & E2 & N2).
    exists st2. split; [exact E2|]. rewrite N2, N1.
    unfold count_next_page, count_images. cbn [filter].
    destruct (is_next_page c), (is_draw_image c); cbn [List.length]; lia.
Qed.

Lemma session_objects (id : Z) (filename : wstring) (pmin pmax : PDFPoint)
  (calls : list call) :
  exists st0 st1,
    Open true id filename pmin pmax initial = Ok st0 /\
    do_calls calls st0 = Ok st1 /\
    List.length (m_crossRefs (finish_file id st1))
    = (5 + 3 * count_next_page calls + count_images calls)%nat /\
    map m_objnum (m_crossRefs (finish_file id st1))
    = numbers_below (6 + 3 * Z.of_nat (count_next_page calls)
                     + Z.of_nat (count_images calls)).
Proof.
  destruct (Open_fresh id filename pmin pmax initial eq_refl eq_refl eq_refl eq_refl)
    as (st0 & rest & E0 & Hf0 & _ & _ & Hn0 & _ & _ & _).
  destruct (numbered_Open id filename pmin pmax) as (st0' & E0' & Hnum0).
  rewrite E0 in E0'. apply ok_eq in E0'. subst st0'.
  destruct (counter_do_calls calls st0 _ Hf0) as (st1 & E1 & N1).
  destruct (numbered_do_calls calls st0 Hnum0) as (st1' & E1' & Hnum1).
  rewrite E1 in E1'. apply ok_eq in E1'. subst st1'.
  exists st0, st1. split; [exact E0|]. split; [exact E1|].
  pose proof (finish_file_objnums id st1 Hnum1) as Ht.
  rewrite N1, Hn0 in Ht. split; [|exact Ht].
  rewrite <- (length_map m_objnum), Ht.
  apply Nat2Z.inj. rewrite numbers_below_length by lia. lia.
Qed.

(** *** A whole session *)

Lemma fclose_file (s : Draw2pdf) (f : list byte) :
  m_file s = Some f ->
  hd_error (closed_files (fclose s)) = Some f /\
  m_crossRefs (fclose s) = m_crossRefs s.
Proof. intros H. unfold fclose. rewrite H. split; reflexivity. Qed.

Lemma session_steps (id : Z) (filename : wstring) (pmin pmax : PDFPoint)
  (calls : list call) :
  exists st0 st1,
    Open true id filename pmin pmax initial = Ok st0 /\
    do_calls calls st0 = Ok st1 /\
    session id filename pmin pmax calls = Ok (fclose (finish_file id st1)) /\
    grows st0 st1 /\ offsets_ok st1.
Proof.
  destruct (offsets_Open id filename pmin pmax) as (st0 & E0 & Hok).
  destruct Hok as (f0 & Hf0 & Hall).
  destruct (grows_do_calls calls st0 f0 Hf0) as (st1 & E1 & G).
  exists st0, st1. unfold session. rewrite E0, E1.
  repeat split; auto.
  apply (offsets_grows st0 st1 G). exists f0. split; assumption.
Qed.

Lemma session_end (id : Z) (filename : wstring) (pmin pmax : PDFPoint)
  (calls : list call) :
  exists st0 st1 f0 f1 f2 file,
    Open true id filename pmin pmax initial = Ok st0 /\
    do_calls calls st0 = Ok st1 /\
    session id filename pmin pmax calls = Ok (fclose (finish_file id st1)) /\
    m_file st0 = Some f0 /\
    m_file st1 = Some f1 /\
    grows st0 st1 /\
    grows st1 (write_pages_object (DoEndPage st1)) /\
    m_file (write_pages_object (DoEndPage st1)) = Some f2 /\
    m_file (finish_file id st1) = Some file /\
    hd_error (closed_files (fclose (finish_file id st1))) = Some file /\
    m_crossRefs (fclose (finish_file id st1)) = m_crossRefs (finish_file id st1) /\
    Forall (recorded file) (m_crossRefs (finish_file id st1)).
Proof.
  destruct (session_steps id filename pmin pmax calls)
    as (st0 & st1 & E0 & E1 & E & G & Hok).
  destruct G as (f0 & t & new & Hf0 & Hf1 & Hx & Hn).
  assert (G : grows st0 st1) by (exists f0, t, new; auto).
  assert (G2 : grows st1 (write_pages_object (DoEndPage st1))).
  { apply grows_write_pages_object, grows_DoEndPage.
    apply (grows_refl st1 _ Hf1). }
  destruct (grows_open _ _ G2) as [f2 Hf2].
  destruct (offsets_finish_file id st1 Hok) as (file & Hfile & Hall).
  destruct (fclose_file _ _ Hfile) as [Hc Hx'].
  exists st0, st1, f0, (f0 ++ t), f2, file.
  repeat (split; [assumption|]). assumption.
Qed.

Lemma session_pages (id : Z) (filename : wstring) (pmin pmax : PDFPoint)
  (calls : list call) :
  exists st0 st1 more,
    Open true id filename pmin pmax initial = Ok st0 /\
    do_calls calls st0 = Ok st1 /\
    m_pagesObjNumber st1 = 2 /\
    m_pageObjectNumbers st1 = 3 :: more /\
    List.length more = count_next_page calls /\
    Forall (fun n => In n (map m_objnum (m_crossRefs (finish_file id st1))))
           (3 :: more).
Proof.
  destruct (Open_fresh id filename pmin pmax initial eq_refl eq_refl eq_refl eq_refl)
    as (st0 & rest & E0 & Hf0 & _ & Hp & _ & _ & _ & H3).
  destruct (pages_do_calls calls st0 _ Hf0) as (st1 & more & E1 & P1 & L1 & N1).
  destruct (pages_of_eq_values st0 2 [3] Hp) as [Ha Hb].
  assert (K0 : Forall (fun n => In n (map m_objnum (m_crossRefs st0)))
                      (m_pageObjectNumbers st0))
    by (rewrite Hb; constructor; [exact H3|constructor]).
  destruct (kids_do_calls calls st0 _ Hf0 K0) as (st1' & E1' & K1).
  rewrite E1 in E1'. apply ok_eq in E1'. subst st1'.
  destruct (grows_do_calls calls st0 _ Hf0) as (st1' & E1' & G1).
  rewrite E1 in E1'. apply ok_eq in E1'. subst st1'.
  destruct (grows_open st0 st1 G1) as [f1 Hf1].
  pose proof (kids_finish_file id st1 f1 Hf1 K1) as K2.
  rewrite L1, Hb in K2. cbn [app] in K2.
  exists st0, st1, more.
  split; [exact E0|]. split; [exact E1|].
  split; [now rewrite P1|]. split; [now rewrite L1, Hb|].
  split; [exact N1 | exact K2].
Qed.

End WithRuntime.
End LayoutFacts.

(** ** The helpers of [PDFBox] *)

Module BoxFacts.
Import Box.

Section WithRuntime.
Context {RT : Runtime} {CMP : Comparison}.

Ltac sides :=
  unfold set_min_x, set_min_y, set_max_x, set_max_y;
  cbn [m_min m_max x y].

Lemma orb4_false (a b c d : bool) :
  a = false -> b = false -> c = false -> d = false ->
  a || b || c || d = false.
Proof. now intros -> -> -> ->. Qed.

Lemma orb4_split (a b c d : bool) :
  a || b || c || d = false ->
  a = false /\ b = false /\ c = false /\ d = false.
Proof. destruct a, b, c, d; cbn; auto; discriminate. Qed.

Section Order.
Hypothesis irreflexive : forall a, dbl_lt a a = false.
Hypothesis transitive :
  forall a b c, dbl_lt a b = true -> dbl_lt b c = true -> dbl_lt a c = true.

Lemma not_lt_trans (q m m' : double) :
  dbl_lt q m = false -> dbl_lt m' m = true -> dbl_lt q m' = false.
Proof.
  intros H1 H2. destruct (dbl_lt q m') eqn:E; [|reflexivity].
  now rewrite (transitive q m' m E H2) in H1.
Qed.

Lemma not_gt_trans (q m m' : double) :
  dbl_lt m q = false -> dbl_lt m m' = true -> dbl_lt m' q = false.
Proof.
  intros H1 H2. destruct (dbl_lt m' q) eqn:E; [|reflexivity].
  now rewrite (transitive m m' q H2 E) in H1.
Qed.

Lemma ExtendBy_covers (pt : PDFPoint) (box : PDFBox) :
  outside pt (ExtendBy pt box) = false.
Proof.
  unfold ExtendBy, outside, dbl_gt. cbv zeta.
  destruct (dbl_lt (x pt) (x (m_min box))) eqn:E1; sides;
    destruct (dbl_lt (y pt) (y (m_min box))) eqn:E2; sides;
    destruct (dbl_lt (x (m_max box)) (x pt)) eqn:E3; sides;
    destruct (dbl_lt (y (m_max box)) (y pt)) eqn:E4; sides;
    rewrite ?irreflexive, ?E1, ?E2, ?E3, ?E4; reflexivity.
Qed.

Lemma ExtendBy_keeps (pt q : PDFPoint) (box : PDFBox) :
  outside q box = false -> outside q (ExtendBy pt box) = false.
Proof.
  unfold outside, dbl_gt. intros H.
  apply orb4_split in H. destruct H as (H1 & H2 & H3 & H4).
  unfold ExtendBy, dbl_gt. cbv zeta.
  destruct (dbl_lt (x pt) (x (m_min box))) eqn:E1; sides;
    destruct (dbl_lt (y pt) (y (m_min box))) eqn:E2; sides;
    destruct (dbl_lt (x (m_max box)) (x pt)) eqn:E3; sides;
    destruct (dbl_lt (y (m_max box)) (y pt)) eqn:E4; sides;
    apply orb4_false;
    first [ assumption
          | eapply not_lt_trans; eassumption
          | eapply not_gt_trans; eassumption ].
Qed.

Lemma ExtendBy_points_keeps (pts : list PDFPoint) :
  forall (q : PDFPoint) (box : PDFBox),
  outside q box = false -> outside q (ExtendBy_points pts box) = false.
Proof.
  induction pts as [|pt pts IH]; intros q box H; cbn [ExtendBy_points fold_left].
  - exact H.
  - apply IH. now apply ExtendBy_keeps.
Qed.

Lemma ExtendBy_points_covers (pts : list PDFPoint) :
  forall box : PDFBox,
  Forall (fun pt => outside pt (ExtendBy_points pts box) = false) pts.
Proof.
  induction pts as [|pt pts IH]; intros box; constructor.
  - cbn [ExtendBy_points fold_left].
    apply (ExtendBy_points_keeps pts pt). apply ExtendBy_covers.
  - apply (IH (ExtendBy pt box)).
Qed.

End Order.

Section Asymmetric.
Hypothesis asymmetric : forall a b, dbl_lt a b = true -> dbl_lt b a = false.

Lemma Normalize_ordered (box : PDFBox) : reversed (Normalize box) = false.
Proof.
  unfold Normalize, reversed, dbl_gt. cbv zeta.
  destruct (dbl_lt (x (m_max box)) (x (m_min box))) eqn:E1; sides;
    destruct (dbl_lt (y (m_max box)) (y (m_min box))) eqn:E2; sides;
    rewrite ?(asymmetric _ _ E1), ?(asymmetric _ _ E2), ?E1, ?E2; reflexivity.
Qed.

Lemma Normalize_unreversed (box : PDFBox) :
  reversed box = false -> Normalize box = box.
Proof.
  unfold Normalize, reversed, dbl_gt. cbv zeta. intros H.
  apply orb_false_iff in H. destruct H as [H1 H2]. now rewrite H1, H2.
Qed.

Lemma Normalize_twice (box : PDFBox) :
  Normalize (Normalize box) = Normalize box.
Proof. apply Normalize_unreversed, Normalize_ordered. Qed.

End Asymmetric.

End WithRuntime.
End BoxFacts.

(* ------------------------------------------------------------------ *)
(** * The claims of the specification *)

Import Ascii85 A85Reader ZShortcut Lines Accumulator Writer Spec.

(** C1.  For every sequence of calls between [Open] and [Close], the cross
    reference table that [Close] writes lists every allocated object number
    exactly once and in strictly ascending order, and the count on the first
    line of the table is the largest object number plus one.

    The object numbers are handed out by [m_objNumber++] from 1, so the
    allocated ones are those below the counter.  [table] is [m_crossRefs]
    after the [std::sort] of [Close].  The file has, from the line [xref]
    to the line [trailer]: the count, the entry of object 0, and for each
    record of [table] in order one entry, the offset of the record in ten
    digits followed by [ 00000 n]; so there are as many entries after that
    of object 0 as the largest object number says, the i-th of them for
    object i. *)
Theorem C1_xref_table_lists_every_object_once
  {RT : Runtime} (id : Z) (filename : wstring) (pmin pmax : PDFPoint)
  (calls : list call) :
  exists st0 st table body rest,
    Open true id filename pmin pmax initial = Ok st0 /\
    do_calls calls st0 = Ok st /\
    table = m_crossRefs (finish_file id st) /\
    hd_error (closed_files (Close id st))
    = Some (body ++ line "xref"
                 ++ (str "0 " ++ dec (max_objnum table + 1) ++ crlf)
                 ++ line "0000000000 65535 f"
                 ++ List.concat
                      (map (fun r => dec_pad 10 (m_offset r) ++ line " 00000 n")
                           table)
                 ++ line "trailer" ++ rest) /\
    map m_objnum table = numbers_below (m_objNumber st) /\
    StronglySorted Z.lt (map m_objnum table) /\
    Z.of_nat (List.length table) = max_objnum table /\
    max_objnum table + 1 = m_objNumber st.
Proof.
  destruct (WriterFacts.numbered_Open id filename pmin pmax) as (st0 & HO & H0).
  destruct (WriterFacts.numbered_do_calls calls st0 H0) as (st & HC & Hst).
  exists st0, st, (m_crossRefs (finish_file id st)).
  revert HO HC. generalize (Open true id filename pmin pmax initial).
  intros opened HO HC. clear H0.
  pose proof (WriterFacts.finish_file_objnums id st Hst) as Hnums.
  pose proof (WriterFacts.numbered_open st Hst) as Hopen.
  pose proof (WriterFacts.numbered_counter st Hst) as Hn.
  assert (Hmax : max_objnum (m_crossRefs (finish_file id st)) = m_objNumber st - 1).
  { unfold max_objnum. rewrite Hnums.
    now apply WriterFacts.max_numbers_below. }
  assert (Hlen : Z.of_nat (List.length (m_crossRefs (finish_file id st)))
                 = m_objNumber st - 1).
  { rewrite <- (length_map m_objnum), Hnums.
    now apply WriterFacts.numbers_below_length. }
  destruct (m_file st) as [f1|] eqn:Hf1; [clear Hopen|now elim Hopen].
  assert (G : Layout.grows st (write_pages_object (DoEndPage st))).
  { apply LayoutFacts.grows_write_pages_object, LayoutFacts.grows_DoEndPage.
    apply (LayoutFacts.grows_refl st _ Hf1). }
  destruct (LayoutFacts.grows_open _ _ G) as [f2 Hf2].
  pose proof (LayoutFacts.finish_file_text id st f2 Hf2) as Hfile.
  assert (Hcount : Z.of_nat (List.length (m_crossRefs (finish_file id st)))
                   = max_objnum (m_crossRefs (finish_file id st)))
    by (rewrite Hlen, Hmax; reflexivity).
  rewrite Hcount in Hfile.
  exists (f2 ++ crlf). eexists.
  split; [exact HO|]. split; [exact HC|]. split; [reflexivity|].
  split; [|split; [exact Hnums|split; [|split]]].
  - rewrite (WriterFacts.Close_open id st) by (rewrite Hf1; discriminate).
    rewrite WriterFacts.closed_files_reset.
    rewrite (WriterFacts.closed_files_fclose _ _ Hfile). reflexivity.
  - rewrite Hnums. apply WriterFacts.numbers_below_strictly_sorted.
  - exact Hcount.
  - rewrite Hmax. lia.
Qed.

(** C2 as the specification has it fails for the empty input: the encoder
    writes nothing for it, not even the end-of-data marker [~>], and a text
    without the marker is not ASCII-85 data, so decoding does not give the
    empty sequence back. *)
Lemma C2_empty_input_is_not_decoded :
  encode [] = [] /\ decode_eod (encode []) = None /\
  decode_eod (encode []) <> Some [].
Proof. repeat split; try reflexivity. discriminate. Qed.

(** C2, amended.  Decoding what the encoder writes gives the input back for
    every input but the empty one, runs of zeros included; the output for
    the empty input is empty and is not decoded; and for every input the
    output has one [z] for each full group of four bytes whose packed value
    is zero and no other [z], so none for a last group of one to three
    bytes. *)
Theorem C2_round_trip_and_z_shortcut :
  (forall (b : byte) (data : list byte),
     decode_eod (encode (b :: data)) = Some (b :: data)) /\
  (encode [] = [] /\ decode_eod (encode []) = None) /\
  (forall data : list byte, count_z (encode data) = zero_groups data).
Proof.
  split; [|split; [split|]].
  - apply Ascii85Facts.decode_eod_encode.
  - reflexivity.
  - apply Ascii85Facts.decode_eod_empty.
  - apply Ascii85Facts.count_z_encode.
Qed.

(** C3 (the code departs from the claim).  A 32-bit image of one column and
    two rows is packed into eight bytes, not six: each row keeps one zero
    byte where the alpha byte was, because [rawData] is sized and indexed
    with [bpp / 8 = 4] bytes per pixel while three are copied.  The 8-bit
    half of the claim holds ([ImageFacts.pack_pixels_8bit]); every 32-bit
    image gets four bytes per pixel ([ImageFacts.pack_pixels_32bit_length]). *)
Theorem C3_pack_pixels_32bit_pads_rows :
  pack_pixels Example.image32 = [x01; x02; x03; x00; x05; x06; x07; x00] /\
  packed_rows 1 2 3 4 4 (m_pixels Example.image32)
  = [x01; x02; x03; x05; x06; x07] /\
  List.length (pack_pixels Example.image32) <> (3 * 1 * 2)%nat.
Proof.
  repeat split; try reflexivity. vm_compute. discriminate.
Qed.

(** C4.  The operators that [DrawPolygon] appends are those of the fill-rule
    table for the current line and fill patterns, and those that
    [DrawPolyline] appends are nothing for a null line and the path with a
    stroke otherwise. *)
Theorem C4_polygon_and_polyline_rules
  {RT : Runtime} (points : list PDFPoint) (st : Draw2pdf) :
  m_data (m_contentStream (DrawPolygon points st))
  = m_data (m_contentStream st)
    ++ polygon_operators (PDFLineStyle.m_pattern (m_lineStyle st))
                         (PDFFillStyle.m_pattern (m_fillStyle st)) points
  /\
  m_data (m_contentStream (DrawPolyline points st))
  = m_data (m_contentStream st)
    ++ polyline_operators (PDFLineStyle.m_pattern (m_lineStyle st)) points.
Proof.
  split.
  - apply WriterFacts.DrawPolygon_content.
  - apply WriterFacts.DrawPolyline_content.
Qed.

(** C5 as the specification has it fails: the empty input is encoded to the
    empty text, without the terminator. *)
Lemma C5_empty_input_without_terminator :
  encode [] = [] /\ encode [] <> str "~>" ++ crlf.
Proof. split; [reflexivity | discriminate]. Qed.

(** C5, amended.  The empty input gives the empty output; every other input
    gives an output that ends with [~>] and CR LF. *)
Theorem C5_terminator_of_nonempty_input :
  encode [] = [] /\
  forall (b : byte) (data : list byte),
    exists body, encode (b :: data) = body ++ str "~>" ++ crlf.
Proof.
  split; [reflexivity|]. intros b data.
  unfold encode, EncodeToAscii85, terminate. cbv zeta.
  match goal with |- context [push_back x7e ?e] => exists (m_output e) end.
  unfold push_back. cbn [m_output]. now rewrite <- !app_assoc.
Qed.

(** C6 (the code departs from the claim).  Sixty bytes of value 1 give
    seventy-five digits, and the first line of the output has 73 of them:
    [m_column++ >= lineWidth] compares the column before the increment, so
    the line break comes after the 73rd character.  No line is longer than
    that ([LinesFacts.encode_lines]). *)
Theorem C6_line_of_73_characters :
  longest_line (encode (repeat x01 60)) = 73 /\
  firstn 75 (encode (repeat x01 60))
  = firstn 73 (List.concat (repeat (str "!<E3%") 15)) ++ crlf.
Proof. split; vm_compute; reflexivity. Qed.

(** C7 as the specification has it fails: a text of 16384 bytes fits no
    buffer, and nothing of it is appended, where cutting it to the largest
    buffer tried would leave 8191 bytes. *)
Lemma C7_long_text_is_dropped :
  let text := repeat x41 (Z.to_nat 16384) in
  m_data (Printf text Accumulator.empty) = [] /\
  last (Printf_sizes text) 0 = 8192 /\
  c_str (fst (vsnprintf_s 8192 text)) = repeat x41 (Z.to_nat 8191) /\
  m_data (Printf text Accumulator.empty) <> c_str (fst (vsnprintf_s 8192 text)).
Proof.
  cbv zeta. repeat split; try (vm_compute; reflexivity).
  vm_compute. discriminate.
Qed.

(** C7, amended.  The buffer starts at 32 bytes and doubles while it is
    smaller than 16384, so the sizes tried are an initial part of 32, 64,
    ..., 8192, one more than there are sizes the text does not fit.  A text
    shorter than 8192 bytes is appended up to its first NUL; for a longer
    one nothing is appended. *)
Theorem C7_formatted_append (text : list byte) (s : PDFStreamAccumulator) :
  Printf_sizes text
  = firstn (S (List.length
                 (filter (fun b => b <=? Z.of_nat (List.length text)) all_sizes)))
           all_sizes /\
  m_data (Printf text s)
  = m_data s ++ (if Z.of_nat (List.length text) <? 8192 then c_str text else []).
Proof.
  split.
  - apply AccumulatorFacts.Printf_sizes_result.
  - unfold Printf, AddData. cbn [m_data].
    now rewrite AccumulatorFacts.Printf_buffer_result.
Qed.

(** C8.  When the compressor does not return [Z_OK] for an image that is
    written with compression, the filter is still [/FlateDecode], the
    encoded data are empty, and the object declares length 0 and has an
    empty stream: there is no fall back to ASCII-85. *)
Theorem C8_failed_compression_gives_empty_stream
  {RT : Runtime} (index : Z) (st : Draw2pdf) (f : list byte) :
  m_file st = Some f ->
  deflate_status
    (pack_pixels (nth (Z.to_nat index) (m_images st) default_image)) <> Z_OK ->
  encode_image true
    (pack_pixels (nth (Z.to_nat index) (m_images st) default_image))
  = (line "/Filter /FlateDecode", []) /\
  exists header,
    m_file (DoWriteImage index true st)
    = Some (f ++ header ++ line "/Filter /FlateDecode" ++ line "/Length 0"
              ++ line ">>" ++ line "stream" ++ [] ++ crlf
              ++ line "endstream" ++ line "endobj").
Proof.
  intros Hf Hfail.
  assert (He : encode_image true
                 (pack_pixels (nth (Z.to_nat index) (m_images st) default_image))
               = (line "/Filter /FlateDecode", [])).
  { unfold encode_image. now rewrite WriterFacts.DeflateData_failed. }
  split; [exact He|].
  destruct (WriterFacts.DoWriteImage_file index true st f Hf) as [header H].
  rewrite He in H. exists header. exact H.
Qed.

Lemma C8_witness :
  exists f : list byte,
    m_file Example.with_image = Some f /\
    deflate_status (RT := Example.runtime)
      (pack_pixels (nth (Z.to_nat 0) (m_images Example.with_image) default_image))
    <> Z_OK /\
    encode_image (RT := Example.runtime) true
      (pack_pixels (nth (Z.to_nat 0) (m_images Example.with_image) default_image))
    = (line "/Filter /FlateDecode", []) /\
    exists header,
      m_file (DoWriteImage 0 true Example.with_image)
      = Some (f ++ header ++ line "/Filter /FlateDecode" ++ line "/Length 0"
                ++ line ">>" ++ line "stream" ++ [] ++ crlf
                ++ line "endstream" ++ line "endobj").
Proof.
  eexists. split; [reflexivity|].
  split; [vm_compute; discriminate|].
  apply (C8_failed_compression_gives_empty_stream (RT := Example.runtime)).
  - reflexivity.
  - vm_compute. discriminate.
Defined.

(** C9.  [DrawRectangle] is [DrawPolygon] on the corners (min.x, min.y),
    (max.x, min.y), (max.x, max.y), (min.x, max.y): the same state results,
    and so the same bytes in the content stream. *)
Theorem C9_rectangle_is_polygon {RT : Runtime} (box : PDFBox) (st : Draw2pdf) :
  let corners :=
    [ mkPoint (x (m_min box)) (y (m_min box));
      mkPoint (x (m_max box)) (y (m_min box));
      mkPoint (x (m_max box)) (y (m_max box));
      mkPoint (x (m_min box)) (y (m_max box)) ] in
  DrawRectangle box st = DrawPolygon corners st /\
  m_data (m_contentStream (DrawRectangle box st))
  = m_data (m_contentStream st)
    ++ polygon_operators (PDFLineStyle.m_pattern (m_lineStyle st))
                         (PDFFillStyle.m_pattern (m_fillStyle st)) corners.
Proof.
  cbv zeta. split; [reflexivity|].
  unfold DrawRectangle. cbv zeta. apply WriterFacts.DrawPolygon_content.
Qed.

(** C10.  [SetLineStyle] stores the style and appends the stroke color and
    stroke width operators at once, [SetFillStyle] stores the style and
    appends the fill color operator, [SetTextStyle] stores the style and
    appends nothing.  The operators are the lines [r g b RG], [width w] and
    [r g b rg] with the numbers as [%lf] prints them; [kept] is what the
    formatted append leaves of a line (see C7), which is the line itself
    when it is [plain]: shorter than 8192 bytes and without a NUL byte.
    [NextPage] on an open document leaves an empty content stream and the
    three stored styles as they were, so the new page has no style
    operators until a setter is called; it fails only without an open
    file. *)
Theorem C10_style_operators_and_pages
  {RT : Runtime} (st : Draw2pdf) (ls : PDFLineStyle.t) (fs : PDFFillStyle.t)
  (ts : PDFTextStyle.t) :
  let kept := fun text : list byte =>
    if Z.of_nat (List.length text) <? 8192 then c_str text else [] in
  let plain := fun text : list byte =>
    (Z.of_nat (List.length text) <? 8192)
    && forallb (fun b => negb (Byte.eqb b x00)) text in
  let stroke_color :=
    fmt_lf (m_red (PDFLineStyle.m_color ls)) ++ str " "
    ++ fmt_lf (m_green (PDFLineStyle.m_color ls)) ++ str " "
    ++ fmt_lf (m_blue (PDFLineStyle.m_color ls)) ++ str " RG" ++ crlf in
  let stroke_width := fmt_lf (PDFLineStyle.m_width ls) ++ str " w" ++ crlf in
  let fill_color :=
    fmt_lf (m_red (PDFFillStyle.m_color fs)) ++ str " "
    ++ fmt_lf (m_green (PDFFillStyle.m_color fs)) ++ str " "
    ++ fmt_lf (m_blue (PDFFillStyle.m_color fs)) ++ str " rg" ++ crlf in
  (m_lineStyle (SetLineStyle ls st) = ls /\
   m_data (m_contentStream (SetLineStyle ls st))
   = m_data (m_contentStream st) ++ kept stroke_color ++ kept stroke_width /\
   (plain stroke_color = true -> plain stroke_width = true ->
    m_data (m_contentStream (SetLineStyle ls st))
    = m_data (m_contentStream st) ++ stroke_color ++ stroke_width)) /\
  (m_fillStyle (SetFillStyle fs st) = fs /\
   m_data (m_contentStream (SetFillStyle fs st))
   = m_data (m_contentStream st) ++ kept fill_color /\
   (plain fill_color = true ->
    m_data (m_contentStream (SetFillStyle fs st))
    = m_data (m_contentStream st) ++ fill_color)) /\
  (m_textStyle (SetTextStyle ts st) = ts /\
   m_contentStream (SetTextStyle ts st) = m_contentStream st) /\
  match NextPage st with
  | Ok st' =>
      m_data (m_contentStream st') = [] /\
      m_lineStyle st' = m_lineStyle st /\
      m_fillStyle st' = m_fillStyle st /\
      m_textStyle st' = m_textStyle st /\
      m_data (m_contentStream (SetLineStyle ls st'))
      = kept stroke_color ++ kept stroke_width
  | Err _ => m_file st = None
  end.
Proof.
  cbv zeta.
  assert (HL : forall s : Draw2pdf,
             m_data (m_contentStream (SetLineStyle ls s))
             = m_data (m_contentStream s)
               ++ Printf_buffer
                    (fmt_lf (m_red (PDFLineStyle.m_color ls)) ++ str " "
                     ++ fmt_lf (m_green (PDFLineStyle.m_color ls)) ++ str " "
                     ++ fmt_lf (m_blue (PDFLineStyle.m_color ls))
                     ++ str " RG" ++ crlf)
               ++ Printf_buffer
                    (fmt_lf (PDFLineStyle.m_width ls) ++ str " w" ++ crlf)).
  { intros s. unfold SetLineStyle. cbv zeta.
    cbn [m_lineStyle set_lineStyle content_Printf m_contentStream
         set_contentStream Printf AddData m_data].
    now rewrite <- app_assoc. }
  assert (HF : m_data (m_contentStream (SetFillStyle fs st))
               = m_data (m_contentStream st)
                 ++ Printf_buffer
                      (fmt_lf (m_red (PDFFillStyle.m_color fs)) ++ str " "
                       ++ fmt_lf (m_green (PDFFillStyle.m_color fs)) ++ str " "
                       ++ fmt_lf (m_blue (PDFFillStyle.m_color fs))
                       ++ str " rg" ++ crlf)) by reflexivity.
  rewrite !AccumulatorFacts.Printf_buffer_result in HF.
  split; [|split; [|split]].
  - split; [reflexivity|]. rewrite HL.
    rewrite !AccumulatorFacts.Printf_buffer_result.
    split; [reflexivity|]. intros H1 H2.
    now rewrite (AccumulatorFacts.kept_plain _ H1),
                (AccumulatorFacts.kept_plain _ H2).
  - split; [reflexivity|]. split; [exact HF|]. intros H1.
    rewrite HF. now rewrite (AccumulatorFacts.kept_plain _ H1).
  - split; reflexivity.
  - unfold NextPage. destruct (m_file st) as [f|]; [|reflexivity].
    destruct (WriterFacts.next_page_state st) as (Hc & Hl & Hf & Ht).
    revert Hc Hl Hf Ht. generalize (DoBeginPage (DoEndPage st)).
    intros st' Hc Hl Hf Ht.
    split; [exact Hc|]. split; [exact Hl|]. split; [exact Hf|].
    split; [exact Ht|].
    rewrite HL, Hc. now rewrite !AccumulatorFacts.Printf_buffer_result.
Qed.

(** C10 on a runtime that prints six decimals: a red line of width 2 and a
    blue fill on a new writer. *)
Lemma C10_witness :
  m_data (m_contentStream
            (SetLineStyle (RT := Example.runtime)
               (@PDFLineStyle.mk Example.runtime PDFLineStyle.LINE_SOLID
                  (@mkColor Example.runtime 1 0 0 1) 2)
               initial))
  = line "1.000000 0.000000 0.000000 RG" ++ line "2.000000 w" /\
  m_data (m_contentStream
            (SetFillStyle (RT := Example.runtime)
               (@PDFFillStyle.mk Example.runtime PDFFillStyle.FILL_SOLID
                  (@mkColor Example.runtime 0 0 1 1))
               initial))
  = line "0.000000 0.000000 1.000000 rg".
Proof.
  destruct (C10_style_operators_and_pages (RT := Example.runtime) initial
              (@PDFLineStyle.mk Example.runtime PDFLineStyle.LINE_SOLID
                  (@mkColor Example.runtime 1 0 0 1) 2)
              (@PDFFillStyle.mk Example.runtime PDFFillStyle.FILL_SOLID
                  (@mkColor Example.runtime 0 0 1 1))
              PDFTextStyle.default)
    as ((_ & _ & H1) & (_ & _ & H2) & _).
  split.
  - exact (H1 eq_refl eq_refl).
  - exact (H2 eq_refl).
Defined.

(* ------------------------------------------------------------------ *)
(** * More of the encoder, the pixel packing and the writer *)

Import Plain Layout Shapes.

(** ** ascii85.h *)

(** X1.  Without its line breaks, the output of [EncodeToAscii85] on a
    non-empty input is one group of text for each four input bytes, in
    order, followed by the end marker [~>]: a full group whose 32-bit value
    is zero is the single character [z], any other full group is the five
    base-85 digits of its value, most significant first, each as the
    character [digit + 33]; one, two or three bytes left at the end are
    padded with zero bytes and give the first two, three or four digits of
    that value.  For an empty input nothing at all is written. *)
Theorem X1_text_of_the_groups (data : list byte) :
  strip_breaks (encode data)
  = match data with
    | [] => []
    | _ :: _ => plain_text data ++ str "~>"
    end.
Proof. exact (PlainFacts.strip_encode data). Qed.

(** X2.  Every byte that [EncodeToAscii85] writes is a base-85 digit
    character ([!] to [u]), the [z] of a zero group, the [~] or [>] of the
    end marker, or a carriage return or line feed. *)
Theorem X2_output_alphabet (data : list byte) :
  Forall (fun b => in_alphabet b = true) (encode data).
Proof. exact (PlainFacts.alphabet_encode data). Qed.

(** X3.  No line of the output of [EncodeToAscii85] has more than 73
    characters, whatever the input: the column is tested before a character
    is written and counts from zero, so a line is broken once it holds
    [lineWidth + 1] characters. *)
Theorem X3_lines_of_at_most_73 (data : list byte) :
  longest_line (encode data) <= 73.
Proof. exact (LinesFacts.encode_lines data). Qed.

(** X4.  The number of characters of the output, line breaks left out: for
    [n > 0] input bytes it is [n + ceil(n / 4) + 2], less four for every full
    group that is written as [z]. *)
Theorem X4_size_of_the_output (data : list byte) :
  (List.length (strip_breaks (encode data)) + 4 * zero_groups data
   = match data with
     | [] => 0
     | _ :: _ => List.length data + (List.length data + 3) / 4 + 2
     end)%nat.
Proof.
  rewrite PlainFacts.strip_encode. destruct data as [|b data]; [reflexivity|].
  rewrite length_app. change (List.length (str "~>")) with 2%nat.
  pose proof (PlainFacts.plain_text_length (b :: data)) as H.
  rewrite <- H. lia.
Qed.

(** ** draw2pdf.cpp: the pixels of an image *)

(** X5.  [DoWriteImage] packs an 8-bit image whose rows are at least
    [width] bytes apart into [width * height] bytes: the first [width] bytes
    of each row, the rows in order. *)
Theorem X5_pack_pixels_8bit (image : PDFImage) (w h s : nat) :
  m_bpp image = 8 ->
  m_numX image = Z.of_nat w -> m_numY image = Z.of_nat h ->
  m_stride image = Z.of_nat s ->
  Z.of_nat (h * w) * 8 < 2 ^ 64 -> Z.of_nat (h * s) < 2 ^ 64 ->
  (w <= s)%nat -> (h * s <= List.length (m_pixels image))%nat ->
  pack_pixels image = packed_rows w h 1 1 s (m_pixels image) /\
  List.length (pack_pixels image) = (w * h)%nat.
Proof.
  intros Hb Hw Hh Hs Ho Hi Hsw Hl.
  exact (ImageFacts.pack_pixels_8bit image Hb w h s Hw Hh Hs Ho Hi Hsw Hl).
Qed.

Lemma X5_witness :
  let image := mkImage 2 2 8 3 0 [x01; x02; x03; x04; x05; x06] in
  pack_pixels image = packed_rows 2 2 1 1 3 (m_pixels image) /\
  List.length (pack_pixels image) = (2 * 2)%nat.
Proof.
  cbv zeta.
  apply (X5_pack_pixels_8bit
           (mkImage 2 2 8 3 0 [x01; x02; x03; x04; x05; x06]) 2 2 3);
    try reflexivity; cbn; lia.
Defined.

(** X6.  [DoWriteImage] packs a 24-bit image whose rows are at least
    [3 * width] bytes apart into [3 * width * height] bytes: the three bytes
    of each pixel, with nothing between the rows. *)
Theorem X6_pack_pixels_24bit (image : PDFImage) (w h s : nat) :
  m_bpp image = 24 ->
  m_numX image = Z.of_nat w -> m_numY image = Z.of_nat h ->
  m_stride image = Z.of_nat s ->
  Z.of_nat (h * w) * 24 < 2 ^ 64 -> Z.of_nat (h * s) < 2 ^ 64 ->
  (w * 3 <= s)%nat -> (h * s <= List.length (m_pixels image))%nat ->
  pack_pixels image = packed_rows w h 3 3 s (m_pixels image) /\
  List.length (pack_pixels image) = (3 * w * h)%nat.
Proof.
  intros Hb Hw Hh Hs Ho Hi Hsw Hl.
  exact (ImageLayout.pack_pixels_24bit image w h s Hb Hw Hh Hs Ho Hi Hsw Hl).
Qed.

Lemma X6_witness :
  let image := mkImage 1 2 24 4 0 [x01; x02; x03; x04; x05; x06; x07; x08] in
  pack_pixels image = packed_rows 1 2 3 3 4 (m_pixels image) /\
  List.length (pack_pixels image) = (3 * 1 * 2)%nat.
Proof.
  cbv zeta.
  apply (X6_pack_pixels_24bit
           (mkImage 1 2 24 4 0 [x01; x02; x03; x04; x05; x06; x07; x08]) 1 2 4);
    try reflexivity; cbn; lia.
Defined.

(** X7.  [DoWriteImage] gives a 32-bit image four bytes for each pixel: a
    packed row is the three colour bytes of each of its [width] pixels, the
    fourth byte of each pixel left out, and then [width] zero bytes, because
    the row starts [4 * width] bytes after the one before. *)
Theorem X7_pack_pixels_32bit (image : PDFImage) (w h s : nat) :
  m_bpp image = 32 ->
  m_numX image = Z.of_nat w -> m_numY image = Z.of_nat h ->
  m_stride image = Z.of_nat s ->
  Z.of_nat (h * w) * 32 < 2 ^ 64 -> Z.of_nat (h * s) < 2 ^ 64 ->
  (w * 4 <= s)%nat -> (h * s <= List.length (m_pixels image))%nat ->
  pack_pixels image
  = flat_map
      (fun row => packed_rows w 1 3 4 0 (skipn (row * s) (m_pixels image))
                  ++ repeat x00 w)
      (seq 0 h).
Proof.
  intros Hb Hw Hh Hs Ho Hi Hsw Hl.
  exact (ImageLayout.pack_pixels_32bit image w h s Hb Hw Hh Hs Ho Hi Hsw Hl).
Qed.

Lemma X7_witness :
  pack_pixels Example.image32
  = flat_map
      (fun row => packed_rows 1 1 3 4 0 (skipn (row * 4) (m_pixels Example.image32))
                  ++ repeat x00 1)
      (seq 0 2).
Proof.
  apply (X7_pack_pixels_32bit Example.image32 1 2 4);
    try reflexivity; cbn; lia.
Defined.

(** ** draw2pdf.cpp: the file *)

(** X8.  The style setters, the drawing calls and the compression switches
    write nothing: the open file, the cross reference records, the files
    closed before and the numbers of the catalog, of the page tree and of
    the pages are after the call what they were before it.  What they draw
    waits in the content stream until the page ends. *)
Theorem X8_drawing_calls_write_nothing
  {RT : Runtime} (c : call) (st : Draw2pdf) :
  is_next_page c = false ->
  exists st', do_call c st = Ok st' /\ written st' = written st.
Proof. exact (LayoutFacts.written_do_call c st). Qed.

Lemma X8_witness :
  exists st',
    do_call (RT := Example.runtime)
      (CallDrawLine (RT := Example.runtime)
         (mkPoint (RT := Example.runtime) 1 2)
         (mkPoint (RT := Example.runtime) 3 4))
      Example.with_image = Ok st' /\
    written st' = written Example.with_image.
Proof.
  apply (X8_drawing_calls_write_nothing (RT := Example.runtime)).
  reflexivity.
Defined.

(** X9.  Between [Open] and [Close] the file is only appended to: after any
    sequence of calls on a writer with an open file, [NextPage] among them,
    no call has failed, the file is the file before with bytes added at its
    end, and the cross reference records are the records before with
    records added at their end. *)
Theorem X9_calls_only_append
  {RT : Runtime} (calls : list call) (st : Draw2pdf) (f : list byte) :
  m_file st = Some f ->
  exists st' t new,
    do_calls calls st = Ok st' /\
    m_file st' = Some (f ++ t) /\
    m_crossRefs st' = m_crossRefs st ++ new.
Proof.
  intros Hf.
  destruct (LayoutFacts.grows_do_calls calls st f Hf) as (st' & E & G).
  destruct (LayoutFacts.grows_file st st' f G Hf) as (t & new & Ht & Hx).
  exists st', t, new. auto.
Qed.

Lemma X9_witness :
  exists f,
    m_file Example.with_image = Some f /\
    exists st' t new,
      do_calls (RT := Example.runtime) [CallNextPage] Example.with_image
      = Ok st' /\
      m_file st' = Some (f ++ t) /\
      m_crossRefs st' = m_crossRefs Example.with_image ++ new.
Proof.
  eexists. split; [reflexivity|].
  apply (X9_calls_only_append (RT := Example.runtime)). reflexivity.
Defined.



(** X11.  The file that a session leaves ends with the cross reference
    table, the trailer and the end marker.  The table declares one entry
    more than it has records, and so does [/Size]; the root is always given
    as object 1.  The number after [startxref] is what [ftell] returned
    before the line [xref] was written, printed as a [long]: the position
    of that line when it is at most [LONG_MAX], and the runtime's answer
    otherwise. *)
Theorem X11_trailer_and_startxref
  {RT : Runtime} (id : Z) (filename : wstring) (pmin pmax : PDFPoint)
  (calls : list call) :
  exists st file body,
    session id filename pmin pmax calls = Ok st /\
    hd_error (closed_files st) = Some file /\
    file = body ++ line "xref"
                ++ (str "0 " ++ dec (Z.of_nat (List.length (m_crossRefs st)) + 1)
                    ++ crlf)
                ++ line "0000000000 65535 f"
                ++ List.concat
                     (map (fun r => dec_pad 10 (m_offset r) ++ line " 00000 n")
                          (m_crossRefs st))
                ++ line "trailer" ++ line "<< "
                ++ (str "/ID[<" ++ sdec_pad 32 id ++ str "><" ++ sdec_pad 32 id
                    ++ line ">]")
                ++ (str "/Size " ++ dec (Z.of_nat (List.length (m_crossRefs st)) + 1)
                    ++ line " /Root 1 0 R >>")
                ++ line "startxref"
                ++ (sdec (if Z.of_nat (List.length body) <=? LONG_MAX
                          then Z.of_nat (List.length body)
                          else long (ftell_beyond (Z.of_nat (List.length body))))
                    ++ crlf)
                ++ line "%%EOF".
Proof.
  destruct (LayoutFacts.session_end id filename pmin pmax calls)
    as (st0 & st1 & f0 & f1 & f2 & file & _ & _ & E & _ & _ & _ & _
        & Hf2 & Hfile & Hc & Hx & Hall).
  pose proof (LayoutFacts.finish_file_text id st1 f2 Hf2) as Ht.
  rewrite Hfile in Ht. apply LayoutFacts.some_eq in Ht.
  exists (fclose (finish_file id st1)), file, (f2 ++ crlf).
  split; [exact E|]. split; [exact Hc|]. rewrite Hx. exact Ht.
Qed.

(** X12.  The file that a session leaves starts with the signature
    [%PDF-1.4], a comment line of five bytes above 127, the line that names
    the library, and the catalog as object 1 with the page tree as object 2:
    the numbers that [Close] relies on when it writes [/Root 1 0 R]. *)
Theorem X12_signature_and_catalog
  {RT : Runtime} (id : Z) (filename : wstring) (pmin pmax : PDFPoint)
  (calls : list call) :
  exists st file rest,
    session id filename pmin pmax calls = Ok st /\
    hd_error (closed_files st) = Some file /\
    file = line "%PDF-1.4" ++ ([x25; xc0; xe1; xd2; xc3; xb4] ++ crlf)
           ++ line "%PDF file generated by draw2pdf.lib"
           ++ crlf ++ line "1 0 obj" ++ line "<<" ++ line "/Type /Catalog"
           ++ line "/Pages 2 0 R" ++ line ">>" ++ line "endobj" ++ rest.
Proof.
  destruct (LayoutFacts.session_end id filename pmin pmax calls)
    as (st0 & st1 & f0 & f1 & f2 & file & E0 & _ & E & Hf0 & Hf1 & G & G2
        & Hf2 & Hfile & Hc & _ & _).
  destruct (LayoutFacts.Open_file id filename pmin pmax)
    as (st0' & rest0 & E0' & Hf0' & _ & _).
  rewrite E0 in E0'. apply LayoutFacts.ok_eq in E0'. subst st0'.
  destruct (LayoutFacts.grows_file st0 st1 _ G Hf0') as (t1 & new1 & Ht1 & _).
  destruct (LayoutFacts.grows_file _ _ _ G2 Ht1) as (t2 & new2 & Ht2 & _).
  destruct (LayoutFacts.finish_file_extends id st1 _ Ht2) as (t3 & Ht3).
  rewrite Hfile in Ht3. apply LayoutFacts.some_eq in Ht3.
  exists (fclose (finish_file id st1)), file, (rest0 ++ t1 ++ t2 ++ t3).
  split; [exact E|]. split; [exact Hc|].
  rewrite Ht3. rewrite <- !app_assoc. reflexivity.
Qed.

(** X13.  The page tree that [Close] writes is object 2; its [/Kids] are
    object 3, the first page, and one object more for every [NextPage], in
    the order in which the pages were begun, and its [/Count] is their
    number.  Each of the kids has a record in the cross reference table. *)
Theorem X13_page_tree
  {RT : Runtime} (id : Z) (filename : wstring) (pmin pmax : PDFPoint)
  (calls : list call) :
  exists st file before after more,
    session id filename pmin pmax calls = Ok st /\
    hd_error (closed_files st) = Some file /\
    List.length more = count_next_page calls /\
    Forall (fun n => In n (map m_objnum (m_crossRefs st))) (3 :: more) /\
    file = before ++ crlf ++ line "2 0 obj" ++ line "<<"
           ++ str "/Type /Pages /Kids ["
           ++ List.concat (map (fun n => dec n ++ str " 0 R ") (3 :: more))
           ++ line "]"
           ++ (str "/Count " ++ dec (Z.of_nat (1 + count_next_page calls)) ++ crlf)
           ++ line ">>" ++ line "endobj" ++ after.
Proof.
  destruct (LayoutFacts.session_end id filename pmin pmax calls)
    as (st0 & st1 & f0 & f1 & f2 & file & E0 & E1 & E & Hf0 & Hf1 & G & G2
        & Hf2 & Hfile & Hc & Hx & _).
  destruct (LayoutFacts.session_pages id filename pmin pmax calls)
    as (st0' & st1' & more & E0' & E1' & Hp & Hk & Hn & Hin).
  rewrite E0 in E0'. apply LayoutFacts.ok_eq in E0'. subst st0'.
  rewrite E1 in E1'. apply LayoutFacts.ok_eq in E1'. subst st1'.
  destruct (LayoutFacts.grows_open _ _
              (LayoutFacts.grows_DoEndPage st1 st1
                 (LayoutFacts.grows_refl st1 _ Hf1))) as [fE HfE].
  pose proof (LayoutFacts.write_pages_object_text (DoEndPage st1) fE HfE) as Hw.
  rewrite LayoutFacts.pagesObjNumber_DoEndPage in Hw.
  rewrite LayoutFacts.pageObjectNumbers_DoEndPage in Hw.
  rewrite Hp, Hk in Hw.
  destruct (LayoutFacts.finish_file_extends id st1 _ Hw) as (t3 & Ht3).
  rewrite Hfile in Ht3. apply LayoutFacts.some_eq in Ht3.
  exists (fclose (finish_file id st1)), file, fE, t3, more.
  split; [exact E|]. split; [exact Hc|]. split; [exact Hn|].
  rewrite Hx. split; [exact Hin|].
  rewrite Ht3. cbn [List.length]. rewrite Hn.
  change (header 2) with (line "2 0 obj").
  change (Z.of_nat (S (count_next_page calls)))
    with (Z.of_nat (1 + count_next_page calls)).
  rewrite <- !app_assoc. reflexivity.
Qed.

(** X14.  With content compression off, [DoEndPage] writes the content
    stream of the page as it stands: the object's [/Length] is the number of
    bytes that the drawing calls have appended, and those bytes follow the
    line [stream] unchanged.  The content stream is empty afterwards. *)
Theorem X14_content_stream_as_it_stands
  {RT : Runtime} (st : Draw2pdf) (f : list byte) :
  m_file st = Some f -> m_compressContent st = false ->
  content (DoEndPage st) = [] /\
  exists rest,
    m_file (DoEndPage st)
    = Some (f ++ crlf ++ dec (m_contentsObjNumber st) ++ line " 0 obj"
              ++ line "<<"
              ++ str "/Length " ++ dec (Z.of_nat (List.length (content st)))
              ++ crlf ++ line ">>" ++ line "stream"
              ++ content st
              ++ crlf ++ line "endstream" ++ line "endobj" ++ rest).
Proof.
  intros Hf Hc. split; [apply WriterFacts.content_DoEndPage|].
  destruct (LayoutFacts.DoEndPage_stream st f Hf) as [rest H].
  rewrite Hc in H. cbn [negb] in H.
  exists rest. rewrite H. unfold header, content, Accumulator.size, Accumulator.data.
  rewrite <- !app_assoc. reflexivity.
Qed.

Lemma X14_witness :
  exists f,
    m_file Example.with_image = Some f /\
    m_compressContent Example.with_image = false /\
    content (DoEndPage Example.with_image) = [] /\
    exists rest,
      m_file (DoEndPage Example.with_image)
      = Some (f ++ crlf ++ dec (m_contentsObjNumber Example.with_image)
                ++ line " 0 obj" ++ line "<<"
                ++ str "/Length "
                ++ dec (Z.of_nat (List.length (content Example.with_image)))
                ++ crlf ++ line ">>" ++ line "stream"
                ++ content Example.with_image
                ++ crlf ++ line "endstream" ++ line "endobj" ++ rest).
Proof.
  eexists. split; [reflexivity|]. split; [reflexivity|].
  apply (X14_content_stream_as_it_stands (RT := Example.runtime));
    reflexivity.
Defined.

(** X15.  With content compression on, a compressor that does not return
    [Z_OK] costs the page its content: [DoEndPage] writes an empty stream of
    [/Length 0] under the filter [/FlateDecode], and clears the content
    stream all the same. *)
Theorem X15_failed_content_compression
  {RT : Runtime} (st : Draw2pdf) (f : list byte) :
  m_file st = Some f -> m_compressContent st = true ->
  deflate_status (content st) <> Z_OK ->
  content (DoEndPage st) = [] /\
  exists rest,
    m_file (DoEndPage st)
    = Some (f ++ crlf ++ dec (m_contentsObjNumber st) ++ line " 0 obj"
              ++ line "<<" ++ line "/Filter /FlateDecode" ++ line "/Length 0"
              ++ line ">>" ++ line "stream" ++ crlf
              ++ line "endstream" ++ line "endobj" ++ rest).
Proof.
  intros Hf Hc Hfail. split; [apply WriterFacts.content_DoEndPage|].
  destruct (LayoutFacts.DoEndPage_stream st f Hf) as [rest H].
  rewrite Hc in H. cbn [negb] in H.
  unfold Accumulator.data in H. fold (content st) in H.
  rewrite (WriterFacts.DeflateData_failed (content st) Hfail) in H.
  exists rest. rewrite H. unfold header. cbn [List.length app].
  rewrite <- !app_assoc. reflexivity.
Qed.

Lemma X15_witness :
  exists f,
    m_file (EnableContentCompression true Example.with_image) = Some f /\
    m_compressContent (EnableContentCompression true Example.with_image) = true /\
    deflate_status (RT := Example.runtime)
      (content (EnableContentCompression true Example.with_image)) <> Z_OK /\
    content (DoEndPage (EnableContentCompression true Example.with_image)) = [] /\
    exists rest,
      m_file (DoEndPage (EnableContentCompression true Example.with_image))
      = Some (f ++ crlf
                ++ dec (m_contentsObjNumber
                          (EnableContentCompression true Example.with_image))
                ++ line " 0 obj"
                ++ line "<<" ++ line "/Filter /FlateDecode" ++ line "/Length 0"
                ++ line ">>" ++ line "stream" ++ crlf
                ++ line "endstream" ++ line "endobj" ++ rest).
Proof.
  eexists. split; [reflexivity|]. split; [reflexivity|].
  split; [vm_compute; discriminate|].
  apply (X15_failed_content_compression (RT := Example.runtime)).
  - reflexivity.
  - reflexivity.
  - vm_compute. discriminate.
Defined.

(** X16.  Without image compression, [DoWriteImage] writes the image as an
    object of its reserved number, named [/Im] and its index, with the
    width and height of the image, eight bits per component, the colour
    space [/DeviceGray] for 8 bits per pixel and [/DeviceRGB] otherwise, and
    the filter [/ASCII85Decode]; the stream is the ASCII-85 text of the
    packed pixels and [/Length] is the size of that text.  Decoding the
    stream gives the packed pixels back when there are any; for an image
    without pixels the stream is empty, has no [~>] and is not decoded. *)
Theorem X16_image_object_in_ascii85
  {RT : Runtime} (index : Z) (st : Draw2pdf) (f : list byte) :
  m_file st = Some f ->
  let image := nth (Z.to_nat index) (m_images st) default_image in
  let payload := encode (pack_pixels image) in
  decode_eod payload
  = match pack_pixels image with
    | [] => None
    | _ :: _ => Some (pack_pixels image)
    end /\
  m_file (DoWriteImage index false st)
  = Some (f ++ crlf ++ dec (m_objNum image) ++ line " 0 obj" ++ line "<<"
            ++ line "/Type /XObject" ++ line "/Subtype /Image"
            ++ str "/Name /Im" ++ dec index ++ crlf
            ++ str "/Width " ++ dec (m_numX image) ++ crlf
            ++ str "/Height " ++ dec (m_numY image) ++ crlf
            ++ line "/BitsPerComponent 8"
            ++ (if m_bpp image =? 8 then line "/ColorSpace /DeviceGray"
                else line "/ColorSpace /DeviceRGB")
            ++ line "/Filter /ASCII85Decode"
            ++ str "/Length " ++ dec (Z.of_nat (List.length payload)) ++ crlf
            ++ line ">>" ++ line "stream" ++ payload
            ++ crlf ++ line "endstream" ++ line "endobj").
Proof.
  intros Hf. cbv zeta. split.
  { destruct (pack_pixels (nth (Z.to_nat index) (m_images st) default_image))
      as [|b raw].
    - apply Ascii85Facts.decode_eod_empty.
    - apply Ascii85Facts.decode_eod_encode. }
  rewrite (LayoutFacts.DoWriteImage_text index false st f Hf).
  unfold encode_image, header. cbn [fst snd].
  rewrite <- !app_assoc. reflexivity.
Qed.

Lemma X16_witness :
  exists f,
    m_file Example.with_image = Some f /\
    let image := nth (Z.to_nat 0) (m_images Example.with_image) default_image in
    let payload := encode (pack_pixels image) in
    decode_eod payload = Some (pack_pixels image) /\
    m_file (DoWriteImage 0 false Example.with_image)
    = Some (f ++ crlf ++ dec (m_objNum image) ++ line " 0 obj" ++ line "<<"
              ++ line "/Type /XObject" ++ line "/Subtype /Image"
              ++ str "/Name /Im" ++ dec 0 ++ crlf
              ++ str "/Width " ++ dec (m_numX image) ++ crlf
              ++ str "/Height " ++ dec (m_numY image) ++ crlf
              ++ line "/BitsPerComponent 8"
              ++ (if m_bpp image =? 8 then line "/ColorSpace /DeviceGray"
                  else line "/ColorSpace /DeviceRGB")
              ++ line "/Filter /ASCII85Decode"
              ++ str "/Length " ++ dec (Z.of_nat (List.length payload)) ++ crlf
              ++ line ">>" ++ line "stream" ++ payload
              ++ crlf ++ line "endstream" ++ line "endobj").
Proof.
  eexists. split; [reflexivity|].
  apply (X16_image_object_in_ascii85 (RT := Example.runtime) 0 Example.with_image).
  reflexivity.
Defined.

(** X17.  What [DrawTextString] appends to the content stream: the lines
    [q] and [BT], the font size, the colour and the position of the text,
    then the text between parentheses before [Tj], and the lines [ET] and
    [Q].  The text is the narrowed string up to its first NUL character,
    written as it is, a parenthesis or backslash in it included; when it has
    8185 bytes or more, the [Tj] line is left out altogether, because the
    line no longer fits the largest buffer of [Printf]. *)
Theorem X17_text_operators
  {RT : Runtime} (point : PDFPoint) (text : wstring) (st : Draw2pdf) :
  content (DrawTextString point text st)
  = content st ++ line "q" ++ line "BT"
      ++ operator (str "/F1 " ++ fmt_lf (PDFTextStyle.m_height (m_textStyle st))
                   ++ line " Tf")
      ++ operator (fmt_lf (m_red (PDFTextStyle.m_color (m_textStyle st))) ++ sp
                   ++ fmt_lf (m_green (PDFTextStyle.m_color (m_textStyle st))) ++ sp
                   ++ fmt_lf (m_blue (PDFTextStyle.m_color (m_textStyle st)))
                   ++ line " rg")
      ++ operator (fmt_lf (x point) ++ sp ++ fmt_lf (y point) ++ line " Td")
      ++ (if Z.of_nat (List.length (c_str (WideToNarrow text))) <? 8185
          then str "(" ++ c_str (WideToNarrow text) ++ line ") Tj"
          else [])
      ++ line "ET" ++ line "Q".
Proof. exact (LayoutFacts.DrawTextString_content point text st). Qed.

(** X18.  The dictionary of XObjects that [DoEndPage] writes after the
    content stream is the object whose number [DoBeginPage] reserved for it,
    and it has one line for each image drawn on the page, in the order of
    the [DrawImage] calls: image [i] under the name [/Im] followed by [i],
    with the object number that [DrawImage] reserved for that image. *)
Theorem X18_dictionary_of_the_images
  {RT : Runtime} (st : Draw2pdf) (f : list byte) :
  m_file st = Some f ->
  exists content_object image_objects,
    m_file (DoEndPage st)
    = Some (f ++ content_object
              ++ crlf ++ dec (m_xobjectObjNumber st) ++ line " 0 obj"
              ++ line "<<"
              ++ List.concat
                   (map (fun i =>
                           str "/Im" ++ dec (Z.of_nat i) ++ sp
                           ++ dec (m_objNum (nth i (m_images st) default_image))
                           ++ line " 0 R")
                        (seq 0 (List.length (m_images st))))
              ++ line ">>" ++ line "endobj" ++ image_objects).
Proof.
  intros Hf.
  destruct (LayoutFacts.DoEndPage_xobjects st f Hf) as (mid & after & H).
  exists mid, after. rewrite H. unfold header.
  rewrite <- !app_assoc. reflexivity.
Qed.

Lemma X18_witness :
  exists f,
    m_file Example.with_image = Some f /\
    exists content_object image_objects,
      m_file (DoEndPage Example.with_image)
      = Some (f ++ content_object
                ++ crlf ++ dec (m_xobjectObjNumber Example.with_image)
                ++ line " 0 obj" ++ line "<<"
                ++ List.concat
                     (map (fun i =>
                             str "/Im" ++ dec (Z.of_nat i) ++ sp
                             ++ dec (m_objNum (nth i (m_images Example.with_image)
                                                   default_image))
                             ++ line " 0 R")
                          (seq 0 (List.length (m_images Example.with_image))))
                ++ line ">>" ++ line "endobj" ++ image_objects).
Proof.
  eexists. split; [reflexivity|].
  apply (X18_dictionary_of_the_images (RT := Example.runtime)). reflexivity.
Defined.

(** X19.  [DrawImage] puts the image at the end of the images of the page
    with the next free object number, moves the counter on by one, and
    appends to the content stream a [q], the matrix with the width and
    height of the destination as scale and its corner as offset, the [Do]
    operator on the name [/Im] followed by the number of images that were
    on the page before, and a [Q]. *)
Theorem X19_image_is_stored_and_named
  {RT : Runtime} (image : PDFImage) (dx dy dw dh : double) (st : Draw2pdf) :
  m_images (DrawImage image dx dy dw dh st)
  = m_images st ++ [set_image_objNum (m_objNumber st) image] /\
  m_objNumber (DrawImage image dx dy dw dh st) = m_objNumber st + 1 /\
  content (DrawImage image dx dy dw dh st)
  = content st ++ line "q"
      ++ operator (fmt_lf dw ++ sp ++ fmt_lf dbl_0 ++ sp ++ fmt_lf dbl_0 ++ sp
                   ++ fmt_lf dh ++ sp ++ fmt_lf dx ++ sp ++ fmt_lf dy
                   ++ line " cm")
      ++ operator (str "/Im" ++ dec (Z.of_nat (List.length (m_images st)))
                   ++ line " Do")
      ++ line "Q".
Proof. exact (LayoutFacts.DrawImage_state image dx dy dw dh st). Qed.

(** X20.  [DoBeginPage] writes the page object under the next free object
    number [n], with the page tree as its parent and the page size as its
    media box, and names [n + 1] as its contents and [n + 2] as the XObject
    dictionary of its resources; these are the numbers under which
    [DoEndPage] later writes the content stream and the dictionary.  The
    counter moves on to [n + 3] and [n] joins the list of pages. *)
Theorem X20_page_object
  {RT : Runtime} (st : Draw2pdf) (f : list byte) :
  m_file st = Some f ->
  m_file (DoBeginPage st)
  = Some (f ++ crlf ++ dec (m_objNumber st) ++ line " 0 obj" ++ line "<<"
            ++ line "/Type /Page"
            ++ str "/Parent " ++ dec (m_pagesObjNumber st) ++ line " 0 R"
            ++ str "/MediaBox [ "
            ++ fmt_lf (x (m_pageMinimumPoints st)) ++ sp
            ++ fmt_lf (y (m_pageMinimumPoints st)) ++ sp
            ++ fmt_lf (x (m_pageMaximumPoints st)) ++ sp
            ++ fmt_lf (y (m_pageMaximumPoints st)) ++ line " ]"
            ++ str "/Contents " ++ dec (m_objNumber st + 1) ++ line " 0 R"
            ++ line "/Resources" ++ line "<<"
            ++ line "/ProcSet [ /PDF /Text /ImageB /ImageC /ImageI ]"
            ++ str "/XObject " ++ dec (m_objNumber st + 2) ++ line " 0 R"
            ++ line ">>" ++ line ">>" ++ line "endobj") /\
  m_contentsObjNumber (DoBeginPage st) = m_objNumber st + 1 /\
  m_xobjectObjNumber (DoBeginPage st) = m_objNumber st + 2 /\
  m_objNumber (DoBeginPage st) = m_objNumber st + 3 /\
  m_pageObjectNumbers (DoBeginPage st) = m_pageObjectNumbers st ++ [m_objNumber st].
Proof.
  intros Hf.
  destruct (LayoutFacts.DoBeginPage_numbers st) as (H1 & H2 & H3 & H4 & _).
  rewrite H1, H2, H3, H4, (LayoutFacts.DoBeginPage_text st f Hf).
  replace (m_objNumber st + 1 + 1) with (m_objNumber st + 2) by lia.
  replace (m_objNumber st + 2 + 1) with (m_objNumber st + 3) by lia.
  repeat split. unfold header. rewrite <- !app_assoc. reflexivity.
Qed.

Lemma X20_witness :
  exists f,
    m_file Example.with_image = Some f /\
    m_file (DoBeginPage Example.with_image)
    = Some (f ++ crlf ++ dec (m_objNumber Example.with_image) ++ line " 0 obj"
              ++ line "<<" ++ line "/Type /Page"
              ++ str "/Parent " ++ dec (m_pagesObjNumber Example.with_image)
              ++ line " 0 R"
              ++ str "/MediaBox [ "
              ++ fmt_lf (x (m_pageMinimumPoints Example.with_image)) ++ sp
              ++ fmt_lf (y (m_pageMinimumPoints Example.with_image)) ++ sp
              ++ fmt_lf (x (m_pageMaximumPoints Example.with_image)) ++ sp
              ++ fmt_lf (y (m_pageMaximumPoints Example.with_image)) ++ line " ]"
              ++ str "/Contents " ++ dec (m_objNumber Example.with_image + 1)
              ++ line " 0 R"
              ++ line "/Resources" ++ line "<<"
              ++ line "/ProcSet [ /PDF /Text /ImageB /ImageC /ImageI ]"
              ++ str "/XObject " ++ dec (m_objNumber Example.with_image + 2)
              ++ line " 0 R"
              ++ line ">>" ++ line ">>" ++ line "endobj") /\
    m_contentsObjNumber (DoBeginPage Example.with_image)
    = m_objNumber Example.with_image + 1 /\
    m_xobjectObjNumber (DoBeginPage Example.with_image)
    = m_objNumber Example.with_image + 2 /\
    m_objNumber (DoBeginPage Example.with_image)
    = m_objNumber Example.with_image + 3 /\
    m_pageObjectNumbers (DoBeginPage Example.with_image)
    = m_pageObjectNumbers Example.with_image ++ [m_objNumber Example.with_image].
Proof.
  eexists. split; [reflexivity|].
  apply (X20_page_object (RT := Example.runtime)). reflexivity.
Defined.

(** X21.  [Close] on a writer with an open file completes the file and
    leaves the writer closed with the object counter at 1, no cross
    reference records, no pages, no images, an empty content stream and
    the default styles.  The page size and the two compression switches
    stay as they were, and so do the numbers of the last content stream and
    XObject dictionary.  A second [Close] changes nothing. *)
Theorem X21_close_resets_the_writer
  {RT : Runtime} (id id' : Z) (st : Draw2pdf) (f : list byte) :
  m_file st = Some f ->
  exists old,
    m_file (finish_file id st) = Some old /\
    Close id st
    = mkDraw2pdf None (m_pageMinimumPoints st) (m_pageMaximumPoints st)
        PDFLineStyle.default PDFFillStyle.default PDFTextStyle.default
        [] 1 0 0 (m_contentsObjNumber st) (m_xobjectObjNumber st) []
        Accumulator.empty [] (m_compressImages st) (m_compressContent st)
        (old :: closed_files st) /\
    Close id' (Close id st) = Close id st.
Proof.
  intros Hf.
  destruct (LayoutFacts.Close_state id st f Hf) as (old & H1 & H2).
  exists old. split; [exact H1|]. split; [exact H2|].
  apply LayoutFacts.Close_closed, LayoutFacts.Close_file_None.
Qed.

Lemma X21_witness :
  exists f,
    m_file Example.with_image = Some f /\
    exists old,
      m_file (finish_file 7 Example.with_image) = Some old /\
      Close 7 Example.with_image
      = mkDraw2pdf None (m_pageMinimumPoints Example.with_image)
          (m_pageMaximumPoints Example.with_image)
          PDFLineStyle.default PDFFillStyle.default PDFTextStyle.default
          [] 1 0 0 (m_contentsObjNumber Example.with_image)
          (m_xobjectObjNumber Example.with_image) []
          Accumulator.empty [] (m_compressImages Example.with_image)
          (m_compressContent Example.with_image)
          (old :: closed_files Example.with_image) /\
      Close 8 (Close 7 Example.with_image) = Close 7 Example.with_image.
Proof.
  eexists. split; [reflexivity|].
  eapply (X21_close_resets_the_writer (RT := Example.runtime)). reflexivity.
Defined.

(** X22.  [Open] on a writer whose file is still open first completes that
    file as [Close] does, and then starts the new file like a new writer:
    the signature and the catalog as object 1, the page tree as object 2,
    the first page as object 3, the counter at 6, and the two records, of
    the catalog at byte 57 and of the first page at byte 114, pointing at
    their objects. *)
Theorem X22_open_closes_the_open_file
  {RT : Runtime} (id : Z) (filename : wstring) (pmin pmax : PDFPoint)
  (st : Draw2pdf) (f : list byte) :
  m_file st = Some f ->
  exists st1 old rest,
    Open true id filename pmin pmax st = Ok st1 /\
    m_file (finish_file id st) = Some old /\
    closed_files st1 = old :: closed_files st /\
    m_file st1
    = Some (line "%PDF-1.4" ++ ([x25; xc0; xe1; xd2; xc3; xb4] ++ crlf)
            ++ line "%PDF file generated by draw2pdf.lib"
            ++ crlf ++ line "1 0 obj" ++ line "<<" ++ line "/Type /Catalog"
            ++ line "/Pages 2 0 R" ++ line ">>" ++ line "endobj" ++ rest) /\
    pages_of st1 = (2, [3]) /\
    m_objNumber st1 = 6 /\
    m_crossRefs st1 = [mkCrossRef 1 57; mkCrossRef 3 114] /\
    exists file,
      m_file st1 = Some file /\
      Forall (fun r => object_at file r = true) (m_crossRefs st1).
Proof.
  intros Hf.
  destruct (LayoutFacts.Close_state id st f Hf) as (old & H1 & H2).
  rewrite <- LayoutFacts.Open_after_Close. rewrite H2.
  match goal with |- context [Open true id filename pmin pmax ?S] =>
    destruct (LayoutFacts.Open_fresh id filename pmin pmax S
                eq_refl eq_refl eq_refl eq_refl)
      as (st1 & rest & E & Hfile & _ & Hp & Hn & _ & Hc & _);
    destruct (LayoutFacts.Open_fresh_records id filename pmin pmax S
                eq_refl eq_refl eq_refl)
      as (st1' & file & E' & Hfile' & Hr & Hall)
  end.
  rewrite E in E'. apply LayoutFacts.ok_eq in E'. subst st1'.
  exists st1, old, rest. rewrite E.
  repeat (split; [assumption || reflexivity|]).
  exists file. split; assumption.
Qed.

Lemma X22_witness :
  exists f,
    m_file Example.with_image = Some f /\
    exists st1 old rest,
      Open (RT := Example.runtime) true 7 []
        (mkPoint (RT := Example.runtime) 0 0)
        (mkPoint (RT := Example.runtime) 612 792) Example.with_image = Ok st1 /\
      m_file (finish_file 7 Example.with_image) = Some old /\
      closed_files st1 = old :: closed_files Example.with_image /\
      m_file st1
      = Some (line "%PDF-1.4" ++ ([x25; xc0; xe1; xd2; xc3; xb4] ++ crlf)
              ++ line "%PDF file generated by draw2pdf.lib"
              ++ crlf ++ line "1 0 obj" ++ line "<<" ++ line "/Type /Catalog"
              ++ line "/Pages 2 0 R" ++ line ">>" ++ line "endobj" ++ rest) /\
      pages_of st1 = (2, [3]) /\
      m_objNumber st1 = 6 /\
      m_crossRefs st1 = [mkCrossRef 1 57; mkCrossRef 3 114] /\
      exists file,
        m_file st1 = Some file /\
        Forall (fun r => object_at file r = true) (m_crossRefs st1).
Proof.
  eexists. split; [reflexivity|].
  eapply (X22_open_closes_the_open_file (RT := Example.runtime)). reflexivity.
Defined.

(** X23.  [DrawLine] appends a move-to to the first point, a line-to to
    the second and the stroke operator [S]; under the null line style it
    appends nothing.  The fill style plays no part; the object numbers,
    the images and the file stay as they are. *)
Theorem X23_line_operators
  {RT : Runtime} (pt1 pt2 : PDFPoint) (st : Draw2pdf) :
  content (DrawLine pt1 pt2 st)
  = content st
    ++ match PDFLineStyle.m_pattern (m_lineStyle st) with
       | PDFLineStyle.LINE_NULL => []
       | PDFLineStyle.LINE_SOLID =>
           operator (fmt_lf (x pt1) ++ sp ++ fmt_lf (y pt1) ++ sp ++ str "m" ++ crlf)
           ++ operator (fmt_lf (x pt2) ++ sp ++ fmt_lf (y pt2) ++ sp ++ str "l"
                        ++ crlf)
           ++ line "S"
       end /\
  shape_of (DrawLine pt1 pt2 st) = shape_of st /\
  written (DrawLine pt1 pt2 st) = written st.
Proof.
  split; [|split].
  - unfold DrawLine. rewrite WriterFacts.DrawPolyline_content.
    destruct (PDFLineStyle.m_pattern (m_lineStyle st)); [|reflexivity].
    cbn [polyline_operators path_operators]. rewrite app_nil_r.
    rewrite <- !app_assoc. reflexivity.
  - unfold DrawLine. apply WriterFacts.shape_DrawPolyline.
  - unfold DrawLine. apply LayoutFacts.written_DrawPolyline.
Qed.

(** ** draw2pdf.h: the helpers of PDFBox *)

(** X24.  After [ExtendBy] with a list of points no point of the list is
    outside the box: none is left of or below [m_min], none right of or
    above [m_max].  The comparison of doubles is only taken to be
    irreflexive and transitive, as it is with NaN among the values. *)
Theorem X24_extended_box_holds_the_points
  {RT : Runtime} {CMP : Comparison} (pts : list PDFPoint) (box : PDFBox) :
  (forall a, dbl_lt a a = false) ->
  (forall a b c, dbl_lt a b = true -> dbl_lt b c = true -> dbl_lt a c = true) ->
  Forall (fun pt => Box.outside pt (Box.ExtendBy_points pts box) = false) pts.
Proof.
  intros Hirr Htrans.
  exact (BoxFacts.ExtendBy_points_covers Hirr Htrans pts box).
Qed.

Lemma X24_witness :
  Forall
    (fun pt =>
       Box.outside (RT := Example.runtime) (CMP := example_comparison) pt
         (Box.ExtendBy_points (RT := Example.runtime) (CMP := example_comparison)
            [mkPoint (RT := Example.runtime) 5 1;
             mkPoint (RT := Example.runtime) (-2) 7]
            (mkBox (RT := Example.runtime)
               (mkPoint (RT := Example.runtime) 0 0)
               (mkPoint (RT := Example.runtime) 1 1)))
       = false)
    [mkPoint (RT := Example.runtime) 5 1; mkPoint (RT := Example.runtime) (-2) 7].
Proof.
  apply (X24_extended_box_holds_the_points
           (RT := Example.runtime) (CMP := example_comparison)).
  - intros a. apply Z.ltb_irrefl.
  - intros a b c H1 H2. apply Z.ltb_lt in H1. apply Z.ltb_lt in H2.
    apply Z.ltb_lt. lia.
Defined.

(** X25.  After [Normalize] no side of the box is reversed: [m_min.x] is
    not greater than [m_max.x], nor [m_min.y] than [m_max.y]; and a box with
    no reversed side is left as it is, so that normalizing twice is
    normalizing once.  The comparison is only taken to be asymmetric. *)
Theorem X25_normalized_box
  {RT : Runtime} {CMP : Comparison} (box : PDFBox) :
  (forall a b, dbl_lt a b = true -> dbl_lt b a = false) ->
  Box.reversed (Box.Normalize box) = false /\
  Box.Normalize (Box.Normalize box) = Box.Normalize box.
Proof.
  intros Hasym. split.
  - exact (BoxFacts.Normalize_ordered Hasym box).
  - exact (BoxFacts.Normalize_twice Hasym box).
Qed.

Lemma X25_witness :
  let box := mkBox (RT := Example.runtime)
               (mkPoint (RT := Example.runtime) 9 2)
               (mkPoint (RT := Example.runtime) 4 6) in
  Box.reversed (RT := Example.runtime) (CMP := example_comparison)
    (Box.Normalize (RT := Example.runtime) (CMP := example_comparison) box)
  = false /\
  Box.Normalize (RT := Example.runtime) (CMP := example_comparison)
    (Box.Normalize (RT := Example.runtime) (CMP := example_comparison) box)
  = Box.Normalize (RT := Example.runtime) (CMP := example_comparison) box.
Proof.
  cbv zeta.
  apply (X25_normalized_box (RT := Example.runtime) (CMP := example_comparison)).
  intros a b H. apply Z.ltb_lt in H. apply Z.ltb_ge. lia.
Defined.

(** ** ascii85.h and draw2pdf.cpp: two exact counts *)

(** X27.  The whole output of [EncodeToAscii85] on a non-empty input: the
    text of the groups in lines of 73 characters, a line break after every
    73rd character; one more line break when the last line has 71 or 72
    characters; then [~>] and a line break.  A full line of text so has 73
    characters, one more than [lineWidth], and the line with the marker at
    most 72. *)
Theorem X27_lines_of_the_output (data : list byte) :
  encode data
  = match data with
    | [] => []
    | _ :: _ =>
        broken (plain_text data)
        ++ (if (71 <=? List.length (plain_text data) mod 73)%nat
            then crlf else [])
        ++ str "~>" ++ crlf
    end.
Proof. exact (PlainFacts.encode_broken data). Qed.

(** X28.  A session with [p] calls of [NextPage] and [k] calls of
    [DrawImage] writes [5 + 3 p + k] objects: the catalog, the page tree,
    and for each page the page, its content stream and its XObject
    dictionary, and one object for each image.  Their numbers are 1 to
    [5 + 3 p + k], each with one record in the cross reference table. *)
Theorem X28_number_of_objects
  {RT : Runtime} (id : Z) (filename : wstring) (pmin pmax : PDFPoint)
  (calls : list call) :
  exists st,
    session id filename pmin pmax calls = Ok st /\
    List.length (m_crossRefs st)
    = (5 + 3 * count_next_page calls + count_images calls)%nat /\
    map m_objnum (m_crossRefs st)
    = numbers_below (6 + 3 * Z.of_nat (count_next_page calls)
                     + Z.of_nat (count_images calls)).
Proof.
  destruct (LayoutFacts.session_end id filename pmin pmax calls)
    as (st0 & st1 & f0 & f1 & f2 & file & E0 & E1 & E & _ & _ & _ & _
        & _ & _ & _ & Hx & _).
  destruct (LayoutFacts.session_objects id filename pmin pmax calls)
    as (st0' & st1' & E0' & E1' & Hlen & Hnum).
  rewrite E0 in E0'. apply LayoutFacts.ok_eq in E0'. subst st0'.
  rewrite E1 in E1'. apply LayoutFacts.ok_eq in E1'. subst st1'.
  exists (fclose (finish_file id st1)).
  split; [exact E|]. rewrite Hx. split; [exact Hlen | exact Hnum].
Qed.
